(** * AIConversation: bounded conversation history with sticky messages

    A shallow embedding of [AIConversation.py]: the message classes
    [AIMessageContent] and [AIMessage], and the conversation manager
    [AIConversation] with its token counters, memory window, topic
    markers and tail removal.

    Python integers are unbounded, so every counter is a [Z].  Strings are
    [string]; an argument that may be [None] is an [option string].  A
    method that mutates [self] is a computation in the monad [M], which
    threads the conversation and keeps it when an exception is raised, as
    a Python object keeps its fields when a method raises. *)

From Stdlib Require Import String Ascii List ZArith Lia Bool DecimalString.
Import ListNotations.
Local Open Scope string_scope.
Local Open Scope Z_scope.

(** ** Module constants *)

Definition AIC_TYPE_TEXT      : string := "text".
Definition AIC_TYPE_IMAGE_URL : string := "image_url".
Definition AIC_TYPE_FILE      : string := "file".
Definition AIC_TYPE_UNKNOWN   : string := "unknown".
Definition AIC_TYPE_INTERNAL  : string := "internal".

Definition AIC_ROLE_USER      : string := "user".
Definition AIC_ROLE_SYSTEM    : string := "system".
Definition AIC_ROLE_ASSISTANT : string := "assistant".
Definition AIC_ROLE_UNKNOWN   : string := "unknown".
Definition AIC_ROLE_DEVELOPER : string := "developer".
Definition AIC_ROLE_INTERNAL  : string := "internal".

Definition AIC_DEFAULT_SYSTEM_PROMPT : string :=
  "You are an AI assistant trying to be useful".
Definition AIC_DEFAULT_MEMORY_SIZE : Z := 8192.
Definition AIC_MODEL_NAME_FOR_TOKEN_COUNT : string := "gpt-4o".

Definition AIC_COMMAND_NEWTOPIC : string := "newtopic".

(** ** Exceptions and results *)

Inductive exn : Type :=
| ValueError (msg : string)
| IndexError (msg : string)
| AttributeError (msg : string).

Inductive result (A : Type) : Type :=
| Ok (a : A)
| Raise (e : exn).
Arguments Ok {A} a.
Arguments Raise {A} e.

Definition result_bind {A B} (r : result A) (k : A -> result B) : result B :=
  match r with
  | Ok a => k a
  | Raise e => Raise e
  end.

(** ** Python list and string primitives *)

(** [x in [s1, ..., sn]] on strings. *)
Definition str_in (x : string) (l : list string) : bool :=
  existsb (String.eqb x) l.

(** [l[i]], negative indices counting from the end, [IndexError] outside. *)
Definition py_index {A} (l : list A) (i : Z) : result A :=
  let n := Z.of_nat (length l) in
  let j := if i <? 0 then i + n else i in
  if (j <? 0) || (n <=? j) then Raise (IndexError "list index out of range")
  else match nth_error l (Z.to_nat j) with
       | Some x => Ok x
       | None => Raise (IndexError "list index out of range")
       end.

(** [l[:k]]: slices never raise, the bound is clamped. *)
Definition py_slice_to {A} (l : list A) (k : Z) : list A :=
  let n := Z.of_nat (length l) in
  let stop := if k <? 0 then Z.max (k + n) 0 else Z.min k n in
  firstn (Z.to_nat stop) l.

(** [del l[i]] at an index known to be in range. *)
Definition py_del {A} (l : list A) (i : nat) : list A :=
  firstn i l ++ skipn (S i) l.

(** [l[0] = x] on a non-empty list. *)
Definition py_set0 {A} (l : list A) (x : A) : list A :=
  match l with
  | [] => []
  | _ :: tl => x :: tl
  end.

(** The characters [str.strip()] removes, restricted to one-byte codes. *)
Definition is_space (c : ascii) : bool :=
  let n := nat_of_ascii c in
  ((9 <=? n) && (n <=? 13) || (28 <=? n) && (n <=? 32))%nat.

Fixpoint lstrip_chars (l : list ascii) : list ascii :=
  match l with
  | [] => []
  | c :: tl => if is_space c then lstrip_chars tl else l
  end.

Definition strip (s : string) : string :=
  string_of_list_ascii
    (rev (lstrip_chars (rev (lstrip_chars (list_ascii_of_string s))))).

(** ** Message content *)

(** One entry of the transport payload of a message. *)
Inductive content_part : Type :=
| ImagePart (url : string)           (* {"type": "image_url", "image_url": {"url": url}} *)
| TextPart (ty : string) (text : string).   (* {"type": ty, "text": text} *)

Record AIMessageContent : Type := mkContent {
  content_parts     : list content_part;
  content_type      : string;
  content_image_url : option string;
  content_text      : string
}.

Record AIMessage : Type := mkMessage {
  msg_role             : string;
  msg_content          : AIMessageContent;
  msg_sticky           : bool;
  msg_estimated_tokens : Z;
  msg_is_internal      : bool
}.

(** The record [AIMessage.to_dict] builds and [AIMessage.from_dict] reads. *)
Record message_dict : Type := mkDict {
  d_role              : string;
  d_msg_type          : string;
  d_content_text      : string;
  d_content_image_url : option string;
  d_sticky            : bool
}.

Section Messages.

(** The tokenizer: [len(tiktoken.encoding_for_model(model).encode(s))]. *)
Variable tiktoken_len : string -> string -> nat.

(** Reading a local image: the base64 text of the file, or [None] when
    [open] raises [OSError]. *)
Variable read_image_b64 : string -> option string.

(** [AIMessageContent.set_content], run by the constructor. *)
Definition AIMessageContent_init (msg_type : string)
    (msg_image_url : option string) (msg_text : string)
  : result AIMessageContent :=
  if (msg_type =? AIC_TYPE_IMAGE_URL)%string then
    match msg_image_url with
    | None => Raise (AttributeError "'NoneType' object has no attribute 'startswith'")
    | Some url =>
        if prefix "http" url then
          Ok (mkContent [ImagePart url; TextPart AIC_TYPE_TEXT msg_text]
                        msg_type msg_image_url msg_text)
        else if prefix "data:image" url then
          Ok (mkContent [ImagePart url; TextPart AIC_TYPE_TEXT msg_text]
                        msg_type msg_image_url msg_text)
        else
          match read_image_b64 url with
          | Some encoded_image =>
              let data := "data:image/jpeg;base64," ++ encoded_image in
              Ok (mkContent [ImagePart data; TextPart AIC_TYPE_TEXT msg_text]
                            msg_type (Some data) msg_text)
          | None =>
              Ok (mkContent [ImagePart ("Error opening image file: " ++ url);
                             TextPart AIC_TYPE_TEXT msg_text]
                            msg_type msg_image_url msg_text)
          end
    end
  else if (msg_type =? AIC_TYPE_TEXT)%string then
    Ok (mkContent [TextPart AIC_TYPE_TEXT msg_text]
                  msg_type msg_image_url msg_text)
  else if (msg_type =? AIC_TYPE_FILE)%string then
    Ok (mkContent [TextPart AIC_TYPE_FILE "This format is not supported yet"]
                  msg_type msg_image_url msg_text)
  else if (msg_type =? AIC_TYPE_INTERNAL)%string then
    Ok (mkContent [TextPart AIC_TYPE_INTERNAL msg_text]
                  msg_type msg_image_url msg_text)
  else Raise (ValueError ("Invalid message type: " ++ msg_type)).

(** ** Messages *)

Definition num_tokens_from_picture (encoded_image : string) : Z := 765.

Definition num_tokens_from_string (the_string : string) : Z :=
  Z.of_nat (tiktoken_len AIC_MODEL_NAME_FOR_TOKEN_COUNT the_string).

(** [AIMessage.__init__(role, content_text, msg_type, content_image_url, sticky)]. *)
Definition AIMessage_init (role content_text msg_type : string)
    (content_image_url : option string) (sticky : bool) : result AIMessage :=
  if negb (str_in role [AIC_ROLE_USER; AIC_ROLE_ASSISTANT; AIC_ROLE_SYSTEM;
                        AIC_ROLE_DEVELOPER; AIC_ROLE_INTERNAL]) then
    Raise (ValueError ("Invalid message role: " ++ role))
  else if (msg_type =? AIC_TYPE_IMAGE_URL)%string then
    match content_image_url with
    | None => Raise (ValueError ("Missing Image URL for " ++ msg_type ++ " message"))
    | Some url =>
        if (url =? "")%string then
          Raise (ValueError ("Missing Image URL for " ++ msg_type ++ " message"))
        else
          result_bind (AIMessageContent_init AIC_TYPE_IMAGE_URL (Some url) content_text)
            (fun content =>
               Ok (mkMessage role content sticky
                     (num_tokens_from_picture url + num_tokens_from_string content_text)
                     false))
    end
  else if (msg_type =? AIC_TYPE_INTERNAL)%string then
    if (content_text =? "")%string then
      Raise (ValueError ("Missing TEXT for " ++ msg_type ++ " message"))
    else
      result_bind (AIMessageContent_init AIC_TYPE_INTERNAL None content_text)
        (fun content => Ok (mkMessage role content sticky 0 true))
  else if (msg_type =? AIC_TYPE_TEXT)%string then
    if (content_text =? "")%string then
      Raise (ValueError ("Missing TEXT for " ++ msg_type ++ " message"))
    else
      result_bind (AIMessageContent_init AIC_TYPE_TEXT None content_text)
        (fun content =>
           Ok (mkMessage role content sticky (num_tokens_from_string content_text) false))
  else if (msg_type =? AIC_TYPE_FILE)%string then
    Raise (ValueError ("Unsupported (yet) message type: " ++ msg_type))
  else Raise (ValueError ("Invalid message type: " ++ msg_type)).

Definition get_estimated_tokens (m : AIMessage) : Z := msg_estimated_tokens m.
Definition get_type (m : AIMessage) : string := content_type (msg_content m).
Definition get_url (m : AIMessage) : option string := content_image_url (msg_content m).
Definition get_text (m : AIMessage) : string := content_text (msg_content m).
Definition get_role (m : AIMessage) : string := msg_role m.
Definition is_sticky (m : AIMessage) : bool := msg_sticky m.
Definition is_internal (m : AIMessage) : bool := msg_is_internal m.

Definition set_role (role : string) (m : AIMessage) : AIMessage :=
  mkMessage role (msg_content m) (msg_sticky m)
            (msg_estimated_tokens m) (msg_is_internal m).

Definition set_sticky (sticky : bool) (m : AIMessage) : AIMessage :=
  mkMessage (msg_role m) (msg_content m) sticky
            (msg_estimated_tokens m) (msg_is_internal m).

Definition set_content (content : AIMessageContent) (m : AIMessage) : AIMessage :=
  mkMessage (msg_role m) content (msg_sticky m)
            (msg_estimated_tokens m) (msg_is_internal m).

Definition AIMessage_to_dict (m : AIMessage) : message_dict :=
  mkDict (msg_role m)
         (content_type (msg_content m))
         (content_text (msg_content m))
         (content_image_url (msg_content m))
         (msg_sticky m).

(** [from_dict] hands the five entries to the constructor positionally, in
    the order role, msg_type, content_text, content_image_url, sticky. *)
Definition AIMessage_from_dict (d : message_dict) : result AIMessage :=
  AIMessage_init (d_role d) (d_msg_type d) (d_content_text d)
                 (d_content_image_url d) (d_sticky d).

End Messages.

(** ** The conversation object *)

Record AIConversation : Type := mkConversation {
  messages                     : list AIMessage;
  max_memory_messages          : Z;
  system_message_tokens        : Z;
  user_tokens                  : Z;
  assistant_tokens             : Z;
  total_tokens                 : Z;
  biggest_user_msg_tokens      : Z;
  biggest_assistant_msg_tokens : Z;
  memory_user_tokens           : Z;
  memory_assistant_tokens      : Z;
  memory_total_tokens          : Z
}.

(** Field assignments [self.__f = v]. *)
Definition set_messages (v : list AIMessage) (c : AIConversation) :=
  mkConversation v (max_memory_messages c) (system_message_tokens c)
    (user_tokens c) (assistant_tokens c) (total_tokens c)
    (biggest_user_msg_tokens c) (biggest_assistant_msg_tokens c)
    (memory_user_tokens c) (memory_assistant_tokens c) (memory_total_tokens c).
Definition set_max_memory (v : Z) (c : AIConversation) :=
  mkConversation (messages c) v (system_message_tokens c)
    (user_tokens c) (assistant_tokens c) (total_tokens c)
    (biggest_user_msg_tokens c) (biggest_assistant_msg_tokens c)
    (memory_user_tokens c) (memory_assistant_tokens c) (memory_total_tokens c).
Definition set_system_message_tokens (v : Z) (c : AIConversation) :=
  mkConversation (messages c) (max_memory_messages c) v
    (user_tokens c) (assistant_tokens c) (total_tokens c)
    (biggest_user_msg_tokens c) (biggest_assistant_msg_tokens c)
    (memory_user_tokens c) (memory_assistant_tokens c) (memory_total_tokens c).
Definition set_user_tokens (v : Z) (c : AIConversation) :=
  mkConversation (messages c) (max_memory_messages c) (system_message_tokens c)
    v (assistant_tokens c) (total_tokens c)
    (biggest_user_msg_tokens c) (biggest_assistant_msg_tokens c)
    (memory_user_tokens c) (memory_assistant_tokens c) (memory_total_tokens c).
Definition set_assistant_tokens (v : Z) (c : AIConversation) :=
  mkConversation (messages c) (max_memory_messages c) (system_message_tokens c)
    (user_tokens c) v (total_tokens c)
    (biggest_user_msg_tokens c) (biggest_assistant_msg_tokens c)
    (memory_user_tokens c) (memory_assistant_tokens c) (memory_total_tokens c).
Definition set_total_tokens (v : Z) (c : AIConversation) :=
  mkConversation (messages c) (max_memory_messages c) (system_message_tokens c)
    (user_tokens c) (assistant_tokens c) v
    (biggest_user_msg_tokens c) (biggest_assistant_msg_tokens c)
    (memory_user_tokens c) (memory_assistant_tokens c) (memory_total_tokens c).
Definition set_biggest_user_msg_tokens (v : Z) (c : AIConversation) :=
  mkConversation (messages c) (max_memory_messages c) (system_message_tokens c)
    (user_tokens c) (assistant_tokens c) (total_tokens c)
    v (biggest_assistant_msg_tokens c)
    (memory_user_tokens c) (memory_assistant_tokens c) (memory_total_tokens c).
Definition set_biggest_assistant_msg_tokens (v : Z) (c : AIConversation) :=
  mkConversation (messages c) (max_memory_messages c) (system_message_tokens c)
    (user_tokens c) (assistant_tokens c) (total_tokens c)
    (biggest_user_msg_tokens c) v
    (memory_user_tokens c) (memory_assistant_tokens c) (memory_total_tokens c).
Definition set_memory_user_tokens (v : Z) (c : AIConversation) :=
  mkConversation (messages c) (max_memory_messages c) (system_message_tokens c)
    (user_tokens c) (assistant_tokens c) (total_tokens c)
    (biggest_user_msg_tokens c) (biggest_assistant_msg_tokens c)
    v (memory_assistant_tokens c) (memory_total_tokens c).
Definition set_memory_assistant_tokens (v : Z) (c : AIConversation) :=
  mkConversation (messages c) (max_memory_messages c) (system_message_tokens c)
    (user_tokens c) (assistant_tokens c) (total_tokens c)
    (biggest_user_msg_tokens c) (biggest_assistant_msg_tokens c)
    (memory_user_tokens c) v (memory_total_tokens c).
Definition set_memory_total_tokens (v : Z) (c : AIConversation) :=
  mkConversation (messages c) (max_memory_messages c) (system_message_tokens c)
    (user_tokens c) (assistant_tokens c) (total_tokens c)
    (biggest_user_msg_tokens c) (biggest_assistant_msg_tokens c)
    (memory_user_tokens c) (memory_assistant_tokens c) v.

(** ** Methods as stateful computations

    A method body runs on the conversation it receives and gives back its
    outcome together with the conversation as the body left it. *)

Definition M (A : Type) : Type := AIConversation -> result A * AIConversation.

Definition ret {A} (a : A) : M A := fun self => (Ok a, self).

Definition bind {A B} (m : M A) (k : A -> M B) : M B :=
  fun self =>
    match m self with
    | (Ok a, self') => k a self'
    | (Raise e, self') => (Raise e, self')
    end.

Definition raise {A} (e : exn) : M A := fun self => (Raise e, self).

Definition get : M AIConversation := fun self => (Ok self, self).

Definition modify (f : AIConversation -> AIConversation) : M unit :=
  fun self => (Ok tt, f self).

Definition lift {A} (r : result A) : M A := fun self => (r, self).

Declare Scope conv_scope.
Delimit Scope conv_scope with conv.
Notation "x <- m ;; k" := (bind m (fun x => k))
  (at level 61, m at next level, right associativity) : conv_scope.
Notation "m ;; k" := (bind m (fun _ => k))
  (at level 61, right associativity) : conv_scope.
Local Open Scope conv_scope.

(** The outcome and the final conversation of a run. *)
Definition outcome {A} (r : result A * AIConversation) : result A := fst r.
Definition final {A} (r : result A * AIConversation) : AIConversation := snd r.

Definition len (l : list AIMessage) : Z := Z.of_nat (length l).

Section Conversation.

Variable tiktoken_len : string -> string -> nat.
Variable read_image_b64 : string -> option string.

(** The message constructor with the two collaborators in place. *)
Definition AIMessage_new := AIMessage_init tiktoken_len read_image_b64.

(** [AIConversation.__init__(system_message, max_memory)]. *)
Definition AIConversation_init (system_message : option string) (max_memory : Z)
  : result AIConversation :=
  let the_system_msg :=
    match system_message with
    | Some s => if (0 <? String.length (strip s))%nat then strip s
                else AIC_DEFAULT_SYSTEM_PROMPT
    | None => AIC_DEFAULT_SYSTEM_PROMPT
    end in
  result_bind (AIMessage_new AIC_ROLE_SYSTEM the_system_msg AIC_TYPE_TEXT None true)
    (fun m0 =>
       let t := get_estimated_tokens m0 in
       Ok (mkConversation [m0] max_memory t 0 0 t 0 0 0 0 t)).

Definition change_system_message (new_system_message : string) : M unit :=
  self <- get ;;
  if len (messages self) =? 0 then
    m <- lift (AIMessage_new AIC_ROLE_SYSTEM new_system_message AIC_TYPE_TEXT None true) ;;
    modify (fun self => set_messages (messages self ++ [m]) self)
  else
    m <- lift (AIMessage_new AIC_ROLE_SYSTEM new_system_message AIC_TYPE_TEXT None true) ;;
    modify (fun self => set_messages (py_set0 (messages self) m) self).

Definition restart_internal : M unit :=
  modify (fun self =>
    mkConversation [] (max_memory_messages self) 0 0 0 0 0 0 0 0 0).

(** [add_message(msg_role, msg_text, msg_type, image_url, is_sticky)]. *)
Definition add_message (msg_role msg_text msg_type : string)
    (image_url : option string) (is_sticky : bool) : M unit :=
  if negb (str_in msg_role [AIC_ROLE_USER; AIC_ROLE_ASSISTANT; AIC_ROLE_SYSTEM;
                            AIC_ROLE_INTERNAL; AIC_ROLE_DEVELOPER]) then
    raise (ValueError ("Invalid message role: " ++ msg_role))
  else
    new_msg <- lift (AIMessage_new msg_role msg_text msg_type image_url is_sticky) ;;
    l_tokenstoremove <-
      (self <- get ;;
       if str_in msg_role [AIC_ROLE_SYSTEM; AIC_ROLE_DEVELOPER] then
         if 1 <=? len (messages self) then
           old <- lift (py_index (messages self) 0) ;;
           modify (fun self => set_messages (py_set0 (messages self) new_msg) self) ;;
           ret (get_estimated_tokens old)
         else
           modify (fun self => set_messages (messages self ++ [new_msg]) self) ;;
           ret 0
       else if (max_memory_messages self + 2 <? len (messages self))
               && negb (str_in msg_role [AIC_ROLE_INTERNAL]) then
         evicted <- lift (py_index (messages self) (- max_memory_messages self - 1)) ;;
         ret (get_estimated_tokens evicted)
       else ret 0) ;;
    (if str_in msg_role [AIC_ROLE_USER; AIC_ROLE_ASSISTANT; AIC_ROLE_INTERNAL] then
       modify (fun self => set_messages (messages self ++ [new_msg]) self)
     else ret tt) ;;
    let l_msg_tokens := get_estimated_tokens new_msg in
    if (msg_role =? AIC_ROLE_USER)%string then
      modify (fun self => set_user_tokens (user_tokens self + (l_msg_tokens - l_tokenstoremove)) self) ;;
      modify (fun self => set_total_tokens (total_tokens self + l_msg_tokens) self) ;;
      modify (fun self => set_memory_user_tokens (memory_user_tokens self + l_msg_tokens) self) ;;
      modify (fun self => set_memory_total_tokens (memory_total_tokens self + l_msg_tokens) self) ;;
      modify (fun self => set_memory_user_tokens (memory_user_tokens self - l_tokenstoremove) self) ;;
      modify (fun self => set_memory_total_tokens (memory_total_tokens self - l_tokenstoremove) self) ;;
      modify (fun self =>
        set_biggest_user_msg_tokens
          (if biggest_user_msg_tokens self <? l_msg_tokens
           then l_msg_tokens else biggest_user_msg_tokens self) self)
    else if (msg_role =? AIC_ROLE_ASSISTANT)%string then
      modify (fun self => set_assistant_tokens (assistant_tokens self + (l_msg_tokens - l_tokenstoremove)) self) ;;
      modify (fun self => set_total_tokens (total_tokens self + l_msg_tokens) self) ;;
      modify (fun self => set_memory_assistant_tokens (memory_assistant_tokens self + l_msg_tokens) self) ;;
      modify (fun self => set_memory_total_tokens (memory_total_tokens self + l_msg_tokens) self) ;;
      modify (fun self => set_memory_assistant_tokens (memory_assistant_tokens self - l_tokenstoremove) self) ;;
      modify (fun self => set_memory_total_tokens (memory_total_tokens self - l_tokenstoremove) self) ;;
      modify (fun self =>
        set_biggest_assistant_msg_tokens
          (if biggest_assistant_msg_tokens self <? l_msg_tokens
           then l_msg_tokens else biggest_assistant_msg_tokens self) self)
    else if (msg_role =? AIC_ROLE_SYSTEM)%string then
      modify (set_system_message_tokens l_msg_tokens) ;;
      modify (fun self => set_total_tokens (total_tokens self + l_msg_tokens) self) ;;
      modify (fun self => set_memory_total_tokens (memory_total_tokens self + l_msg_tokens) self) ;;
      modify (fun self => set_total_tokens (total_tokens self - l_tokenstoremove) self) ;;
      modify (fun self => set_memory_total_tokens (memory_total_tokens self - l_tokenstoremove) self)
    else ret tt.

(** The call with every default: [add_message(role, text)]. *)
Definition add_message_default (msg_role msg_text : string) : M unit :=
  add_message msg_role msg_text AIC_TYPE_TEXT None false.

Definition new_topic : M unit :=
  add_message AIC_ROLE_INTERNAL AIC_COMMAND_NEWTOPIC AIC_TYPE_INTERNAL None false.

End Conversation.

(** ** Methods that do not build messages *)

(** A message is a topic marker when its role is [internal] and its text
    is the reserved command. *)
Definition is_topic_marker (message : AIMessage) : bool :=
  ((get_role message =? AIC_ROLE_INTERNAL)%string
   && (get_text message =? AIC_COMMAND_NEWTOPIC)%string)%bool.

(** The loop of [get_memory_messages] over [reversed(self.__messages)]:
    [temp] is [temp_memory_list], the boolean is [new_topic_found]. *)
Fixpoint memory_walk (max_memory : Z) (reversed_messages temp : list AIMessage)
  : list AIMessage * bool :=
  match reversed_messages with
  | [] => (temp, false)
  | message :: older =>
      if max_memory <=? len temp then
        memory_walk max_memory older
          (if is_sticky message then temp ++ [message] else temp)
      else if is_topic_marker message then (temp, true)
      else memory_walk max_memory older (temp ++ [message])
  end.

Definition get_memory_messages (self : AIConversation) : result (list AIMessage) :=
  let '(temp_memory_list, new_topic_found) :=
    memory_walk (max_memory_messages self) (rev (messages self)) [] in
  if new_topic_found then
    result_bind (py_index (messages self) 0)
      (fun system_message => Ok (rev (temp_memory_list ++ [system_message])))
  else Ok (rev temp_memory_list).

Definition count_non_sticky_messages (self : AIConversation) : Z :=
  fold_left (fun count message => if negb (is_sticky message) then count + 1 else count)
            (messages self) 0.

Definition count_sticky_messages (self : AIConversation) : Z :=
  fold_left (fun count message => if is_sticky message then count + 1 else count)
            (messages self) 0.

Definition count_all_messages (self : AIConversation) : Z := len (messages self).

Definition set_max_memory_messages (max_memory : Z) : M unit :=
  if max_memory <=? 0 then raise (ValueError "Max memory must be > 0")
  else modify (set_max_memory max_memory).

(** One iteration of the loop of [recalculate_tokens]; [i] is the 1-based
    position of [message]. *)
Definition recalculate_step (i : Z) (message : AIMessage) (self : AIConversation)
  : AIConversation :=
  let l_msg_tokens := get_estimated_tokens message in
  let in_memory := len (messages self) - max_memory_messages self <? i in
  if (get_role message =? AIC_ROLE_USER)%string then
    let self := set_user_tokens (user_tokens self + l_msg_tokens) self in
    let self := set_total_tokens (total_tokens self + l_msg_tokens) self in
    let self :=
      if in_memory then
        set_memory_total_tokens (memory_total_tokens self + l_msg_tokens)
          (set_memory_user_tokens (memory_user_tokens self + l_msg_tokens) self)
      else self in
    set_biggest_user_msg_tokens
      (if biggest_user_msg_tokens self <? l_msg_tokens
       then l_msg_tokens else biggest_user_msg_tokens self) self
  else if (get_role message =? AIC_ROLE_ASSISTANT)%string then
    let self := set_assistant_tokens (assistant_tokens self + l_msg_tokens) self in
    let self := set_total_tokens (total_tokens self + l_msg_tokens) self in
    let self :=
      if in_memory then
        set_memory_total_tokens (memory_total_tokens self + l_msg_tokens)
          (set_memory_assistant_tokens (memory_assistant_tokens self + l_msg_tokens) self)
      else self in
    set_biggest_assistant_msg_tokens
      (if biggest_assistant_msg_tokens self <? l_msg_tokens
       then l_msg_tokens else biggest_assistant_msg_tokens self) self
  else if str_in (get_role message) [AIC_ROLE_SYSTEM; AIC_ROLE_DEVELOPER] then
    let self := set_system_message_tokens l_msg_tokens self in
    let self := set_total_tokens (total_tokens self + l_msg_tokens) self in
    set_memory_total_tokens (memory_total_tokens self + l_msg_tokens) self
  else self.

Fixpoint recalculate_loop (remaining : list AIMessage) (i : Z) (self : AIConversation)
  : AIConversation :=
  match remaining with
  | [] => self
  | message :: rest =>
      let i := i + 1 in
      recalculate_loop rest i (recalculate_step i message self)
  end.

(** [recalculate_tokens]: the system-message counter is the one counter
    the method does not reset before the scan. *)
Definition recalculate_tokens_pure (self : AIConversation) : AIConversation :=
  let zeroed :=
    mkConversation (messages self) (max_memory_messages self)
      (system_message_tokens self) 0 0 0 0 0 0 0 0 in
  recalculate_loop (messages self) 0 zeroed.

Definition recalculate_tokens : M unit := modify recalculate_tokens_pure.

(** First loop of [remove_messages] without stickies:
    [for i in range(len - 1, 0, -1)], entered at [i]. *)
Fixpoint remove_non_sticky_loop (i : nat) (removed_count msgs_to_remove : Z) : M unit :=
  match i with
  | O => ret tt
  | S i' =>
      self <- get ;;
      message <- lift (py_index (messages self) (Z.of_nat i)) ;;
      if negb (is_sticky message) then
        modify (fun self => set_messages (py_del (messages self) i) self) ;;
        let removed_count := removed_count + 1 in
        if removed_count =? msgs_to_remove then ret tt
        else remove_non_sticky_loop i' removed_count msgs_to_remove
      else remove_non_sticky_loop i' removed_count msgs_to_remove
  end.

(** Second loop of [remove_messages] without stickies:
    [for _ in range(msgs_to_remove)] on the tail. *)
Fixpoint remove_tail_loop (iterations : nat) : M unit :=
  match iterations with
  | O => ret tt
  | S iterations' =>
      self <- get ;;
      last_message <- lift (py_index (messages self) (-1)) ;;
      if negb (is_sticky last_message) then
        modify (fun self => set_messages (py_slice_to (messages self) (-1)) self) ;;
        remove_tail_loop iterations'
      else ret tt
  end.

(** [remove_messages(remove_n_messages, remove_sticky)]. *)
Definition remove_messages (remove_n_messages : Z) (remove_sticky : bool) : M unit :=
  if remove_n_messages <? 0 then
    raise (ValueError "You cannot remove a negative number of messages")
  else
    self <- get ;;
    let msgs_to_remove := Z.min remove_n_messages (len (messages self) - 1) in
    if 0 <? msgs_to_remove then
      (if remove_sticky then
         modify (fun self =>
           set_messages (py_slice_to (messages self) (- msgs_to_remove)) self)
       else
         let msgs_to_remove := Z.min msgs_to_remove (count_non_sticky_messages self) in
         remove_non_sticky_loop (Z.to_nat (len (messages self) - 1)) 0 msgs_to_remove ;;
         remove_tail_loop (Z.to_nat msgs_to_remove)) ;;
      recalculate_tokens
    else ret tt.

Definition remove_non_sticky_messages (remove_n_messages : Z) : M unit :=
  if remove_n_messages <? 0 then
    raise (ValueError "You cannot remove a negative number of messages")
  else remove_messages remove_n_messages false.

(** [restart]: keeps [messages[0]] and nothing else. *)
Definition restart : M unit :=
  self <- get ;;
  system_message <- lift (py_index (messages self) 0) ;;
  modify (set_messages [system_message]).

(** ** Reading the results *)

(** The trailing [k] elements of a list, oldest first. *)
Definition trailing {A} (k : nat) (l : list A) : list A :=
  skipn (length l - k) l.

Definition no_sticky (l : list AIMessage) : bool :=
  forallb (fun message => negb (is_sticky message)) l.

Definition no_topic_marker (l : list AIMessage) : bool :=
  forallb (fun message => negb (is_topic_marker message)) l.

(** Running a script of mutating calls on a freshly built conversation:
    the conversation it leaves, or the first exception. *)
Definition after (start : result AIConversation) (script : M unit)
  : result AIConversation :=
  result_bind start
    (fun self =>
       match script self with
       | (Ok _, self') => Ok self'
       | (Raise e, _) => Raise e
       end).

(** Stand-ins for the two collaborators, for closed examples: a tokenizer
    that counts characters and a file system without readable images. *)
Definition char_tokenizer (model_name the_string : string) : nat :=
  String.length the_string.

Definition no_local_files (path : string) : option string := None.

(** The window invariant read on every conversation, whatever the sticky
    flag of its system message. *)
Definition window_of_every_conversation (self : AIConversation) : Prop :=
  forall system_message others,
    messages self = system_message :: others ->
    no_sticky others = true ->
    no_topic_marker (messages self) = true ->
    get_memory_messages self =
      Ok (system_message ::
          trailing (Z.to_nat (Z.min (max_memory_messages self) (len others))) others).

(** System message replaced through [add_message], then two user
    messages, with a window of one message. *)
Definition replaced_system_script : result AIConversation :=
  after (AIConversation_init char_tokenizer no_local_files None 1)
    (add_message_default char_tokenizer no_local_files AIC_ROLE_SYSTEM "S" ;;
     add_message_default char_tokenizer no_local_files AIC_ROLE_USER "A" ;;
     add_message_default char_tokenizer no_local_files AIC_ROLE_USER "B").

(** What a script leaves, seen through [f]. *)
Definition observe {A} (f : AIConversation -> A) (r : result AIConversation)
  : result A :=
  result_bind r (fun self => Ok (f self)).

Definition texts (self : AIConversation) : list string :=
  map get_text (messages self).

(** The texts of the memory window, oldest first. *)
Definition memory_texts (self : AIConversation) : result (list string) :=
  result_bind (get_memory_messages self)
    (fun window => Ok (map get_text window)).

(** The estimate a message should carry for its content: the tokenizer
    count of a text, a picture placeholder plus the count of the
    accompanying text for an image, nothing for an internal message. *)
Definition estimate_of_content (tiktoken_len : string -> string -> nat)
    (message : AIMessage) : Z :=
  if (get_type message =? AIC_TYPE_TEXT)%string then
    num_tokens_from_string tiktoken_len (get_text message)
  else if (get_type message =? AIC_TYPE_IMAGE_URL)%string then
    765 + num_tokens_from_string tiktoken_len (get_text message)
  else 0.

(** The same estimate with the bare placeholder for an image. *)
Definition estimate_with_bare_placeholder (tiktoken_len : string -> string -> nat)
    (message : AIMessage) : Z :=
  if (get_type message =? AIC_TYPE_TEXT)%string then
    num_tokens_from_string tiktoken_len (get_text message)
  else if (get_type message =? AIC_TYPE_IMAGE_URL)%string then 765
  else 0.

Definition bare_placeholder_for_every_message
    (tiktoken_len : string -> string -> nat)
    (read_image_b64 : string -> option string) : Prop :=
  forall role content_text msg_type content_image_url sticky message,
    AIMessage_init tiktoken_len read_image_b64
      role content_text msg_type content_image_url sticky = Ok message ->
    get_estimated_tokens message =
      estimate_with_bare_placeholder tiktoken_len message.

(** Every token counter of [a] equals the same counter of [b]. *)
Definition same_counters (a b : AIConversation) : Prop :=
  system_message_tokens a = system_message_tokens b /\
  user_tokens a = user_tokens b /\
  assistant_tokens a = assistant_tokens b /\
  total_tokens a = total_tokens b /\
  biggest_user_msg_tokens a = biggest_user_msg_tokens b /\
  biggest_assistant_msg_tokens a = biggest_assistant_msg_tokens b /\
  memory_user_tokens a = memory_user_tokens b /\
  memory_assistant_tokens a = memory_assistant_tokens b /\
  memory_total_tokens a = memory_total_tokens b.

(** The system message built by the constructor and by
    [change_system_message]. *)
Definition sticky_system_message (tiktoken_len : string -> string -> nat)
    (text : string) : AIMessage :=
  mkMessage AIC_ROLE_SYSTEM
    (mkContent [TextPart AIC_TYPE_TEXT text] AIC_TYPE_TEXT None text)
    true (num_tokens_from_string tiktoken_len text) false.

(** A fresh conversation with the default prompt and a window of two
    messages, under the stand-in tokenizer. *)
Definition fresh_conversation : AIConversation :=
  let t := num_tokens_from_string char_tokenizer AIC_DEFAULT_SYSTEM_PROMPT in
  mkConversation [sticky_system_message char_tokenizer AIC_DEFAULT_SYSTEM_PROMPT]
    2 t 0 0 t 0 0 0 0 t.

(** The system-message counter a rescan ends with: the estimate of the
    last system or developer message met, or the value it started from. *)
Fixpoint last_system_tokens (remaining : list AIMessage) (start : Z) : Z :=
  match remaining with
  | [] => start
  | message :: rest =>
      last_system_tokens rest
        (if (get_role message =? AIC_ROLE_USER)%string then start
         else if (get_role message =? AIC_ROLE_ASSISTANT)%string then start
         else if str_in (get_role message) [AIC_ROLE_SYSTEM; AIC_ROLE_DEVELOPER]
              then get_estimated_tokens message
         else start)
  end.

(** A plain user text message, as the constructor builds it. *)
Definition user_text_message (tiktoken_len : string -> string -> nat)
    (text : string) : AIMessage :=
  mkMessage AIC_ROLE_USER
    (mkContent [TextPart AIC_TYPE_TEXT text] AIC_TYPE_TEXT None text)
    false (num_tokens_from_string tiktoken_len text) false.

(** The script that adds user messages "A" and "B" to a fresh
    conversation with a window of one message, and the conversation it
    leaves under the stand-in tokenizer. *)
Definition two_user_messages_script : result AIConversation :=
  after (AIConversation_init char_tokenizer no_local_files None 1)
    (add_message_default char_tokenizer no_local_files AIC_ROLE_USER "A" ;;
     add_message_default char_tokenizer no_local_files AIC_ROLE_USER "B").

Definition two_user_messages_conversation : AIConversation :=
  Eval vm_compute in
    match two_user_messages_script with
    | Ok self => self
    | Raise _ => fresh_conversation
    end.

(** The conversation [replaced_system_script] leaves. *)
Definition replaced_system_conversation : AIConversation :=
  Eval vm_compute in
    match replaced_system_script with
    | Ok self => self
    | Raise _ => fresh_conversation
    end.

(** The image message with text "look" of the closed examples. *)
Definition look_image_message : AIMessage :=
  mkMessage AIC_ROLE_USER
    (mkContent [ImagePart "http://x/y.png"; TextPart AIC_TYPE_TEXT "look"]
       AIC_TYPE_IMAGE_URL (Some "http://x/y.png") "look")
    false 769 false.

(** A fresh conversation with a window of one message, an image message
    added and then [restart()] called. *)
Definition restart_script : result AIConversation :=
  after (AIConversation_init char_tokenizer no_local_files None 1)
    (add_message char_tokenizer no_local_files
       AIC_ROLE_USER "look" AIC_TYPE_IMAGE_URL (Some "http://x/y.png") false ;;
     restart).

(** Four stored messages with a window of one: the system prompt, user
    "A", a user image message with text "cap", user "C". *)
Definition four_messages_script : result AIConversation :=
  after (AIConversation_init char_tokenizer no_local_files None 1)
    (add_message_default char_tokenizer no_local_files AIC_ROLE_USER "A" ;;
     add_message char_tokenizer no_local_files
       AIC_ROLE_USER "cap" AIC_TYPE_IMAGE_URL (Some "http://x/y.png") false ;;
     add_message_default char_tokenizer no_local_files AIC_ROLE_USER "C").

(** The same, followed by user message "D". *)
Definition five_messages_script : result AIConversation :=
  after (AIConversation_init char_tokenizer no_local_files None 1)
    (add_message_default char_tokenizer no_local_files AIC_ROLE_USER "A" ;;
     add_message char_tokenizer no_local_files
       AIC_ROLE_USER "cap" AIC_TYPE_IMAGE_URL (Some "http://x/y.png") false ;;
     add_message_default char_tokenizer no_local_files AIC_ROLE_USER "C" ;;
     add_message_default char_tokenizer no_local_files AIC_ROLE_USER "D").

(** Whether every counter of a conversation agrees with its rescan. *)
Definition counters_agree_with_rescan (self : AIConversation) : bool :=
  let r := recalculate_tokens_pure self in
  (system_message_tokens self =? system_message_tokens r)
  && (user_tokens self =? user_tokens r)
  && (assistant_tokens self =? assistant_tokens r)
  && (total_tokens self =? total_tokens r)
  && (biggest_user_msg_tokens self =? biggest_user_msg_tokens r)
  && (biggest_assistant_msg_tokens self =? biggest_assistant_msg_tokens r)
  && (memory_user_tokens self =? memory_user_tokens r)
  && (memory_assistant_tokens self =? memory_assistant_tokens r)
  && (memory_total_tokens self =? memory_total_tokens r).

(** ** Records, payloads and accessors

    The rest of the message classes and of the conversation: the record
    of a content, the transport payload, the index accessors, the sticky
    setters, the message count and the line-per-message persistence. *)

(** The record [AIMessageContent.to_dict] builds. *)
Record content_dict : Type := mkContentDict {
  cd_type      : string;
  cd_image_url : option string;
  cd_text      : string
}.

Definition AIMessageContent_to_dict (content : AIMessageContent) : content_dict :=
  mkContentDict (content_type content) (content_image_url content)
                (content_text content).

(** [AIMessageContent.from_dict]: [cls(d['type'], d['image_url'], d['text'])]. *)
Definition AIMessageContent_from_dict (read_image_b64 : string -> option string)
    (d : content_dict) : result AIMessageContent :=
  AIMessageContent_init read_image_b64 (cd_type d) (cd_image_url d) (cd_text d).

(** [get_message_payload]: the role and the content array. *)
Record message_payload : Type := mkPayload {
  payload_role    : string;
  payload_content : list content_part
}.

Definition get_message_payload (message : AIMessage) : message_payload :=
  mkPayload (get_role message) (content_parts (msg_content message)).

Definition get_conversation_python_history_payload (self : AIConversation)
  : list message_payload :=
  map get_message_payload (messages self).

Definition get_conversation_python_memory_payload (self : AIConversation)
  : result (list message_payload) :=
  result_bind (get_memory_messages self)
    (fun temp_memory_list => Ok (map get_message_payload temp_memory_list)).

(** [str(i)] for a Python integer. *)
Definition str_of_int (i : Z) : string := NilZero.string_of_int (Z.to_int i).

(** [get_ith_message(i)]. *)
Definition get_ith_message (i : Z) (self : AIConversation) : result AIMessage :=
  let length := len (messages self) in
  if (i <? - length) || (length <=? i) then
    Raise (ValueError ("Invalid message index: " ++ str_of_int i))
  else py_index (messages self) i.

Definition get_system_prompt (self : AIConversation) : result string :=
  result_bind (py_index (messages self) 0) (fun m => Ok (get_text m)).

Definition get_last_message_text (self : AIConversation) : result string :=
  result_bind (py_index (messages self) (-1)) (fun m => Ok (get_text m)).

Definition get_memory_messages_no (self : AIConversation) : Z :=
  Z.min (len (messages self)) (max_memory_messages self + 1).

(** [l[n].set_sticky(sticky)] at an index known to be in range: the
    stored message object is changed in place. *)
Fixpoint py_set_sticky_at (l : list AIMessage) (n : nat) (sticky : bool)
  : list AIMessage :=
  match l, n with
  | [], _ => []
  | message :: rest, O => set_sticky sticky message :: rest
  | message :: rest, S n' => message :: py_set_sticky_at rest n' sticky
  end.

(** The position a valid Python index names in a list of [n] elements. *)
Definition py_position (n : nat) (i : Z) : option nat :=
  let j := if i <? 0 then i + Z.of_nat n else i in
  if (j <? 0) || (Z.of_nat n <=? j) then None else Some (Z.to_nat j).

(** [self.__messages[i].set_sticky(sticky)]. *)
Definition set_message_stickiness_at (i : Z) (sticky : bool) : M unit :=
  fun self =>
    match py_position (length (messages self)) i with
    | Some n => (Ok tt, set_messages (py_set_sticky_at (messages self) n sticky) self)
    | None => (Raise (IndexError "list index out of range"), self)
    end.

Definition set_last_message_stickiness (sticky : bool) : M unit :=
  set_message_stickiness_at (-1) sticky.

Definition set_nth_message_stickiness (nth : Z) (sticky : bool) : M unit :=
  fun self =>
    if (1 <=? nth) && (nth <? len (messages self)) then
      set_message_stickiness_at nth sticky self
    else (Ok tt, self).

Definition set_last_TWO_messages_stickiness (sticky : bool) : M unit :=
  fun self =>
    let current_len := len (messages self) in
    bind (if 1 <=? current_len then set_message_stickiness_at (-1) sticky
          else ret tt)
         (fun _ => if 2 <=? current_len then set_message_stickiness_at (-2) sticky
                   else ret tt)
         self.

(** The loop of [get_messages_count] over [reversed(self.__messages)];
    the state is [result], [sticky_counted], [internal_counted] and
    [system_message_reached]. *)
Fixpoint messages_count_loop (memory_only count_sticky count_internal : bool)
    (max_memory : Z) (reversed_messages : list AIMessage)
    (result sticky_counted internal_counted : Z) (system_message_reached : bool)
  : Z * bool :=
  match reversed_messages with
  | [] => (result, system_message_reached)
  | message :: older =>
      if (memory_only && (max_memory <=? result)) || system_message_reached then
        (result, system_message_reached)
      else
        let internal_counted :=
          if is_internal message then internal_counted + 1 else internal_counted in
        let sticky_counted :=
          if is_sticky message then sticky_counted + 1 else sticky_counted in
        if is_internal message && negb count_internal then
          messages_count_loop memory_only count_sticky count_internal max_memory
            older result sticky_counted internal_counted system_message_reached
        else if is_sticky message && negb count_sticky then
          messages_count_loop memory_only count_sticky count_internal max_memory
            older result sticky_counted internal_counted system_message_reached
        else
          let system_message_reached :=
            if str_in (get_role message) [AIC_ROLE_SYSTEM; AIC_ROLE_DEVELOPER]
            then true else system_message_reached in
          messages_count_loop memory_only count_sticky count_internal max_memory
            older (result + 1) sticky_counted internal_counted system_message_reached
  end.

Definition get_messages_count (memory_only count_sticky count_internal : bool)
    (self : AIConversation) : Z :=
  let '(result, system_message_reached) :=
    messages_count_loop memory_only count_sticky count_internal
      (max_memory_messages self) (rev (messages self)) 0 0 0 false in
  if negb system_message_reached then result + 1 else result.

(** The messages [get_messages_count] does not skip. *)
Definition counted_message (count_sticky count_internal : bool)
    (message : AIMessage) : bool :=
  negb (is_internal message && negb count_internal)
  && negb (is_sticky message && negb count_sticky).

Definition is_system_role (message : AIMessage) : bool :=
  str_in (get_role message) [AIC_ROLE_SYSTEM; AIC_ROLE_DEVELOPER].

Definition is_appended_role (message : AIMessage) : bool :=
  str_in (get_role message) [AIC_ROLE_USER; AIC_ROLE_ASSISTANT; AIC_ROLE_INTERNAL].

(** [save_conversation]: one record per message, in order; the file is
    the list of its lines, each line the record [json.dumps] writes and
    [json.loads] reads back. *)
Definition save_conversation (self : AIConversation) : list message_dict :=
  map AIMessage_to_dict (messages self).

Section Persistence.

Variable tiktoken_len : string -> string -> nat.
Variable read_image_b64 : string -> option string.

(** The loop of [load_conversation]: a [ValueError] of [add_message] is
    printed and the line skipped, any other exception is raised again. *)
Fixpoint load_lines (lines : list message_dict) : M unit :=
  match lines with
  | [] => ret tt
  | message :: rest =>
      fun self =>
        match add_message tiktoken_len read_image_b64
                (d_role message) (d_content_text message) (d_msg_type message)
                (d_content_image_url message) (d_sticky message) self with
        | (Ok _, self') => load_lines rest self'
        | (Raise (ValueError _), self') => load_lines rest self'
        | (Raise e, self') => (Raise e, self')
        end
  end.

Definition load_conversation (lines : list message_dict) : M unit :=
  restart_internal ;; load_lines lines.

(** A message that the constructor rebuilds from its own stored fields. *)
Definition rebuilds (message : AIMessage) : Prop :=
  AIMessage_init tiktoken_len read_image_b64
    (get_role message) (get_text message) (get_type message)
    (get_url message) (is_sticky message) = Ok message.

End Persistence.

(** Whether the constructor accepts its arguments. *)
Definition constructible (role content_text msg_type : string)
    (content_image_url : option string) : bool :=
  str_in role [AIC_ROLE_USER; AIC_ROLE_ASSISTANT; AIC_ROLE_SYSTEM;
               AIC_ROLE_DEVELOPER; AIC_ROLE_INTERNAL]
  && (if (msg_type =? AIC_TYPE_IMAGE_URL)%string then
        match content_image_url with
        | Some url => negb (url =? "")%string
        | None => false
        end
      else if (msg_type =? AIC_TYPE_INTERNAL)%string then
        negb (content_text =? "")%string
      else if (msg_type =? AIC_TYPE_TEXT)%string then
        negb (content_text =? "")%string
      else false).

(** An order-preserving selection of elements of a list. *)
Inductive Subsequence {A : Type} : list A -> list A -> Prop :=
| subsequence_nil : Subsequence [] []
| subsequence_skip (x : A) (s l : list A) :
    Subsequence s l -> Subsequence s (x :: l)
| subsequence_take (x : A) (s l : list A) :
    Subsequence s l -> Subsequence (x :: s) (x :: l).

(** The tokens a rescan adds to the total: those of the user, assistant,
    system and developer messages. *)
Definition counted_in_total (message : AIMessage) : bool :=
  str_in (get_role message)
    [AIC_ROLE_USER; AIC_ROLE_ASSISTANT; AIC_ROLE_SYSTEM; AIC_ROLE_DEVELOPER].

Fixpoint sum_counted_tokens (l : list AIMessage) : Z :=
  match l with
  | [] => 0
  | message :: rest =>
      (if counted_in_total message then get_estimated_tokens message else 0)
      + sum_counted_tokens rest
  end.

(** The largest estimate among the messages of a role, from [start]. *)
Fixpoint biggest_of_role (role : string) (l : list AIMessage) (start : Z) : Z :=
  match l with
  | [] => start
  | message :: rest =>
      biggest_of_role role rest
        (if (get_role message =? role)%string
         then (if start <? get_estimated_tokens message
               then get_estimated_tokens message else start)
         else start)
  end.

(** The message [new_topic()] appends. *)
Definition topic_marker_message : AIMessage :=
  mkMessage AIC_ROLE_INTERNAL
    (mkContent [TextPart AIC_TYPE_INTERNAL AIC_COMMAND_NEWTOPIC]
       AIC_TYPE_INTERNAL None AIC_COMMAND_NEWTOPIC)
    false 0 true.

(** The value [get_messages_count] returns from the state its loop ends
    in: one more unless the walk reached the system message. *)
Definition count_final (state : Z * bool) : Z :=
  if negb (snd state) then fst state + 1 else fst state.

(** Evaluates the role and type tests on literal strings. *)
Ltac eval_string_tests :=
  repeat match goal with
    | |- context [str_in ?r ?l] =>
        let b := eval vm_compute in (str_in r l) in
        match b with
        | true => change (str_in r l) with true
        | false => change (str_in r l) with false
        end
    | |- context [String.eqb ?a ?b] =>
        let v := eval vm_compute in (String.eqb a b) in
        match v with
        | true => change (String.eqb a b) with true
        | false => change (String.eqb a b) with false
        end
    end;
  cbn [negb andb orb].

(** The shape every public method keeps while the developer role is not
    used for later messages: a system or developer message at index 0,
    then user, assistant and internal messages only. *)
Definition system_first (self : AIConversation) : Prop :=
  exists system_message others,
    messages self = system_message :: others /\
    is_system_role system_message = true /\
    forallb is_appended_role others = true.

(** The counters that do not depend on the window agree with a rescan. *)
Definition totals_agree_with_rescan (self : AIConversation) : Prop :=
  total_tokens self = total_tokens (recalculate_tokens_pure self) /\
  system_message_tokens self = system_message_tokens (recalculate_tokens_pure self) /\
  biggest_user_msg_tokens self
    = biggest_user_msg_tokens (recalculate_tokens_pure self) /\
  biggest_assistant_msg_tokens self
    = biggest_assistant_msg_tokens (recalculate_tokens_pure self).

(** ** The memory window *)

Lemma len_app (l1 l2 : list AIMessage) : len (l1 ++ l2) = len l1 + len l2.
Proof. unfold len. rewrite length_app. lia. Qed.

Lemma len_nonneg (l : list AIMessage) : 0 <= len l.
Proof. unfold len. lia. Qed.

(** Over a stretch of messages that are neither sticky nor markers the
    walk fills the window and then skips. *)
Lemma memory_walk_plain (max_memory : Z) (stretch older : list AIMessage) :
  no_sticky stretch = true ->
  no_topic_marker stretch = true ->
  forall temp,
    memory_walk max_memory (stretch ++ older) temp =
    memory_walk max_memory older
      (temp ++ firstn (Z.to_nat (max_memory - len temp)) stretch).
Proof.
  induction stretch as [|message stretch IH]; intros Hs Hm temp.
  - simpl. now rewrite firstn_nil, app_nil_r.
  - simpl in Hs, Hm.
    apply andb_true_iff in Hs as [Hs1 Hs2].
    apply andb_true_iff in Hm as [Hm1 Hm2].
    apply negb_true_iff in Hs1, Hm1.
    simpl. destruct (max_memory <=? len temp) eqn:Hfull.
    + apply Z.leb_le in Hfull. rewrite Hs1, IH by assumption.
      replace (Z.to_nat (max_memory - len temp)) with O by lia.
      reflexivity.
    + apply Z.leb_gt in Hfull. rewrite Hm1, IH by assumption.
      rewrite len_app. change (len [message]) with 1.
      replace (Z.to_nat (max_memory - len temp))
        with (S (Z.to_nat (max_memory - (len temp + 1)))) by lia.
      simpl. now rewrite <- app_assoc.
Qed.

Lemma trailing_rev_firstn (k : nat) (l : list AIMessage) :
  rev (firstn k (rev l)) = trailing k l.
Proof. unfold trailing. now rewrite firstn_rev, rev_involutive. Qed.

Lemma trailing_min (max_memory : Z) (l : list AIMessage) :
  trailing (Z.to_nat max_memory) l = trailing (Z.to_nat (Z.min max_memory (len l))) l.
Proof.
  unfold trailing, len. f_equal. lia.
Qed.

(** C1, as amended: when the system message is sticky, or when fewer than
    [max_memory_messages] messages follow it, a conversation whose other
    messages are not sticky and that holds no topic marker has as memory
    the system message followed by its [min(M, n)] trailing messages, in
    chronological order. *)
Theorem window_with_sticky_system (self : AIConversation)
    (system_message : AIMessage) (others : list AIMessage) :
  messages self = system_message :: others ->
  is_sticky system_message = true \/ len others < max_memory_messages self ->
  no_sticky others = true ->
  no_topic_marker (messages self) = true ->
  get_memory_messages self =
    Ok (system_message ::
        trailing (Z.to_nat (Z.min (max_memory_messages self) (len others))) others).
Proof.
  intros Hmsgs Hsys Hns Hnm.
  unfold get_memory_messages. rewrite Hmsgs in *.
  simpl in Hnm. apply andb_true_iff in Hnm as [Hnm0 Hnm].
  apply negb_true_iff in Hnm0.
  change (rev (system_message :: others)) with (rev others ++ [system_message])%list.
  assert (Hs' : no_sticky (rev others) = true).
  { unfold no_sticky in *. rewrite forallb_forall in *.
    intros x Hx. apply Hns. now apply in_rev. }
  assert (Hm' : no_topic_marker (rev others) = true).
  { unfold no_topic_marker in *. rewrite forallb_forall in *.
    intros x Hx. apply Hnm. now apply in_rev. }
  rewrite (memory_walk_plain _ _ _ Hs' Hm'). simpl app at 1.
  change (len []) with 0. rewrite Z.sub_0_r.
  set (M := max_memory_messages self) in *.
  assert (Hlen : len (firstn (Z.to_nat M) (rev others)) = Z.min (Z.max M 0) (len others)).
  { unfold len. rewrite length_firstn, length_rev. lia. }
  simpl memory_walk. rewrite Hlen.
  destruct (M <=? Z.min (Z.max M 0) (len others)) eqn:Hfull.
  - apply Z.leb_le in Hfull.
    destruct Hsys as [Hsys | Hsys]; [| pose proof (len_nonneg others); lia].
    rewrite Hsys. rewrite rev_app_distr. simpl.
    now rewrite trailing_rev_firstn, trailing_min.
  - rewrite Hnm0. rewrite rev_app_distr. simpl.
    now rewrite trailing_rev_firstn, trailing_min.
Qed.

Lemma two_user_messages_reached :
  two_user_messages_script = Ok two_user_messages_conversation.
Proof. vm_compute. reflexivity. Qed.

(** Witness of [window_with_sticky_system]: a fresh conversation with a
    window of one message and two user messages keeps the system prompt
    and the last message. *)
Lemma window_with_sticky_system_witness :
  get_memory_messages two_user_messages_conversation =
    Ok [sticky_system_message char_tokenizer AIC_DEFAULT_SYSTEM_PROMPT;
        user_text_message char_tokenizer "B"].
Proof.
  refine (eq_trans
            (window_with_sticky_system two_user_messages_conversation
               (sticky_system_message char_tokenizer AIC_DEFAULT_SYSTEM_PROMPT)
               [user_text_message char_tokenizer "A";
                user_text_message char_tokenizer "B"]
               _ _ _ _) _).
  - vm_compute. reflexivity.
  - left. reflexivity.
  - vm_compute. reflexivity.
  - vm_compute. reflexivity.
  - vm_compute. reflexivity.
Defined.

(** C1, as stated, fails on a conversation whose system message was
    replaced through [add_message]: the replacement is not sticky and
    drops out of a full window. *)
Lemma window_without_sticky_system_counterexample :
  replaced_system_script = Ok replaced_system_conversation /\
  map get_text (messages replaced_system_conversation) = ["S"; "A"; "B"] /\
  memory_texts replaced_system_conversation = Ok ["B"] /\
  ~ window_of_every_conversation replaced_system_conversation.
Proof.
  split; [vm_compute; reflexivity |].
  split; [vm_compute; reflexivity |].
  split; [vm_compute; reflexivity |].
  intros Hclaim.
  specialize (Hclaim
                (mkMessage AIC_ROLE_SYSTEM
                   (mkContent [TextPart AIC_TYPE_TEXT "S"] AIC_TYPE_TEXT None "S")
                   false 1 false)
                [user_text_message char_tokenizer "A";
                 user_text_message char_tokenizer "B"]).
  vm_compute in Hclaim.
  specialize (Hclaim eq_refl eq_refl eq_refl).
  discriminate Hclaim.
Qed.

(** When fewer messages than the window holds follow the most recent
    topic marker, the walk stops at the marker. *)
Lemma memory_walk_below_limit (max_memory : Z) (stretch older : list AIMessage) :
  no_topic_marker stretch = true ->
  forall temp,
    len temp + len stretch <= max_memory ->
    memory_walk max_memory (stretch ++ older) temp =
    memory_walk max_memory older (temp ++ stretch).
Proof.
  induction stretch as [|message stretch IH]; intros Hm temp Hlen.
  - simpl. now rewrite app_nil_r.
  - simpl in Hm. apply andb_true_iff in Hm as [Hm1 Hm2].
    apply negb_true_iff in Hm1.
    change (len (message :: stretch)) with (len ([message] ++ stretch)) in Hlen.
    rewrite len_app in Hlen. change (len [message]) with 1 in Hlen.
    pose proof (len_nonneg stretch).
    simpl. destruct (max_memory <=? len temp) eqn:Hfull.
    + apply Z.leb_le in Hfull. lia.
    + rewrite Hm1, IH; [| assumption | rewrite len_app; change (len [message]) with 1; lia].
      now rewrite <- app_assoc.
Qed.

(** Inside the window the marker is a hard boundary: the memory is the
    system message followed by the messages after the marker. *)
Lemma memory_after_marker_in_window (self : AIConversation)
    (system_message marker : AIMessage) (before recent : list AIMessage) :
  messages self = system_message :: before ++ marker :: recent ->
  is_topic_marker marker = true ->
  no_topic_marker recent = true ->
  len recent < max_memory_messages self ->
  get_memory_messages self = Ok (system_message :: recent).
Proof.
  intros Hmsgs Hmarker Hrecent Hlen.
  unfold get_memory_messages. rewrite Hmsgs.
  replace (rev (system_message :: before ++ marker :: recent))
    with (rev recent ++ marker :: rev before ++ [system_message])%list.
  2:{ simpl. rewrite rev_app_distr. simpl. now rewrite <- !app_assoc. }
  assert (Hm' : no_topic_marker (rev recent) = true).
  { unfold no_topic_marker in *. rewrite forallb_forall in *.
    intros x Hx. apply Hrecent. now apply in_rev. }
  rewrite memory_walk_below_limit; [| assumption |].
  2:{ change (len []) with 0. unfold len in *. rewrite length_rev. lia. }
  simpl.
  replace (max_memory_messages self <=? len (rev recent)) with false.
  2:{ symmetry. apply Z.leb_gt. unfold len in *. rewrite length_rev. lia. }
  rewrite Hmarker. unfold py_index. simpl.
  rewrite rev_app_distr, rev_involutive. reflexivity.
Qed.

(** ** Scenarios on the public methods

    The scenarios on message lists hold for every tokenizer and every
    file system: the estimates that depend on them stay symbolic. *)

Section Scenarios.

Variable tiktoken_len : string -> string -> nat.
Variable read_image_b64 : string -> option string.

(** C2 fails once the window is full: with a window of two messages, a
    sticky message added before [new_topic()] and two messages added
    after it, the memory still holds the sticky message, which is older
    than the marker. *)
Theorem sticky_before_marker_in_full_window :
  let script :=
    after (AIConversation_init tiktoken_len read_image_b64 None 2)
      (add_message tiktoken_len read_image_b64
         AIC_ROLE_USER "A" AIC_TYPE_TEXT None true ;;
       new_topic tiktoken_len read_image_b64 ;;
       add_message_default tiktoken_len read_image_b64 AIC_ROLE_USER "B" ;;
       add_message_default tiktoken_len read_image_b64 AIC_ROLE_ASSISTANT "C") in
  observe texts script =
    Ok [AIC_DEFAULT_SYSTEM_PROMPT; "A"; AIC_COMMAND_NEWTOPIC; "B"; "C"] /\
  result_bind script memory_texts =
    Ok [AIC_DEFAULT_SYSTEM_PROMPT; "A"; "B"; "C"].
Proof.
  split; vm_compute; reflexivity.
Qed.

(** With a replaced, non-sticky system message the same full window
    also loses the system message after [new_topic()]. *)
Lemma system_message_missing_after_marker :
  let script :=
    after (AIConversation_init tiktoken_len read_image_b64 None 1)
      (add_message_default tiktoken_len read_image_b64 AIC_ROLE_SYSTEM "S" ;;
       new_topic tiktoken_len read_image_b64 ;;
       add_message_default tiktoken_len read_image_b64 AIC_ROLE_USER "B") in
  observe texts script = Ok ["S"; AIC_COMMAND_NEWTOPIC; "B"] /\
  result_bind script memory_texts = Ok ["B"].
Proof.
  split; vm_compute; reflexivity.
Qed.

(** C3: with a window of two messages, after adding system "S", user
    "A", sticky user "B", assistant "C" and user "D", the memory is
    exactly B, C, D in that order; S is not part of it. *)
Theorem scenario_sticky_outside_window :
  let script :=
    after (AIConversation_init tiktoken_len read_image_b64 None 2)
      (add_message_default tiktoken_len read_image_b64 AIC_ROLE_SYSTEM "S" ;;
       add_message_default tiktoken_len read_image_b64 AIC_ROLE_USER "A" ;;
       add_message tiktoken_len read_image_b64
         AIC_ROLE_USER "B" AIC_TYPE_TEXT None true ;;
       add_message_default tiktoken_len read_image_b64 AIC_ROLE_ASSISTANT "C" ;;
       add_message_default tiktoken_len read_image_b64 AIC_ROLE_USER "D") in
  observe texts script = Ok ["S"; "A"; "B"; "C"; "D"] /\
  observe (fun self => map is_sticky (messages self)) script =
    Ok [false; false; true; false; false] /\
  observe (fun self => map get_role (messages self)) script =
    Ok [AIC_ROLE_SYSTEM; AIC_ROLE_USER; AIC_ROLE_USER;
        AIC_ROLE_ASSISTANT; AIC_ROLE_USER] /\
  result_bind script get_memory_messages =
    observe (fun self => skipn 2 (messages self)) script /\
  result_bind script memory_texts = Ok ["B"; "C"; "D"].
Proof.
  repeat split; vm_compute; reflexivity.
Qed.

(** C4 fails on a plain text message: [from_dict] gives the stored type
    to the constructor as its text and the stored text as its type, so
    reading back the record of user message "hello" raises. *)
Theorem from_dict_rejects_text_record :
  AIMessage_init tiktoken_len read_image_b64
    AIC_ROLE_USER "hello" AIC_TYPE_TEXT None false
    = Ok (user_text_message tiktoken_len "hello") /\
  AIMessage_to_dict (user_text_message tiktoken_len "hello")
    = mkDict AIC_ROLE_USER AIC_TYPE_TEXT "hello" None false /\
  AIMessage_from_dict tiktoken_len read_image_b64
    (AIMessage_to_dict (user_text_message tiktoken_len "hello"))
    = Raise (ValueError "Invalid message type: hello").
Proof.
  repeat split.
Qed.

(** The record itself holds the five fields of the message. *)
Lemma to_dict_fields (message : AIMessage) :
  d_role (AIMessage_to_dict message) = get_role message /\
  d_msg_type (AIMessage_to_dict message) = get_type message /\
  d_content_text (AIMessage_to_dict message) = get_text message /\
  d_content_image_url (AIMessage_to_dict message) = get_url message /\
  d_sticky (AIMessage_to_dict message) = is_sticky message.
Proof. repeat split. Qed.

(** C7 fails on a plain tail: asked to remove one non-sticky message
    from system prompt, "A", "B", the method removes both "B" and "A". *)
Theorem remove_one_non_sticky_removes_two :
  let before :=
    after (AIConversation_init tiktoken_len read_image_b64 None AIC_DEFAULT_MEMORY_SIZE)
      (add_message_default tiktoken_len read_image_b64 AIC_ROLE_USER "A" ;;
       add_message_default tiktoken_len read_image_b64 AIC_ROLE_USER "B") in
  let removed :=
    after (AIConversation_init tiktoken_len read_image_b64 None AIC_DEFAULT_MEMORY_SIZE)
      (add_message_default tiktoken_len read_image_b64 AIC_ROLE_USER "A" ;;
       add_message_default tiktoken_len read_image_b64 AIC_ROLE_USER "B" ;;
       remove_messages 1 false) in
  observe texts before = Ok [AIC_DEFAULT_SYSTEM_PROMPT; "A"; "B"] /\
  observe (fun self => map is_sticky (messages self)) before =
    Ok [true; false; false] /\
  observe texts removed = Ok [AIC_DEFAULT_SYSTEM_PROMPT].
Proof.
  repeat split; vm_compute; reflexivity.
Qed.

(** With a replaced, non-sticky system message the tail loop removes
    the system message too and then indexes the empty list. *)
Lemma remove_non_sticky_empties_the_store :
  after (AIConversation_init tiktoken_len read_image_b64 None AIC_DEFAULT_MEMORY_SIZE)
    (add_message_default tiktoken_len read_image_b64 AIC_ROLE_SYSTEM "S" ;;
     add_message_default tiktoken_len read_image_b64 AIC_ROLE_USER "A" ;;
     add_message_default tiktoken_len read_image_b64 AIC_ROLE_USER "B" ;;
     remove_messages 2 false)
  = Raise (IndexError "list index out of range").
Proof.
  vm_compute. reflexivity.
Qed.

(** The scenario of the specification: removing two non-sticky messages
    from S, A, sticky B, C, D leaves S, A, B. *)
Lemma remove_two_skips_sticky :
  observe texts
    (after (AIConversation_init tiktoken_len read_image_b64 None AIC_DEFAULT_MEMORY_SIZE)
       (add_message_default tiktoken_len read_image_b64 AIC_ROLE_SYSTEM "S" ;;
        add_message_default tiktoken_len read_image_b64 AIC_ROLE_USER "A" ;;
        add_message tiktoken_len read_image_b64
          AIC_ROLE_USER "B" AIC_TYPE_TEXT None true ;;
        add_message_default tiktoken_len read_image_b64 AIC_ROLE_ASSISTANT "C" ;;
        add_message_default tiktoken_len read_image_b64 AIC_ROLE_USER "D" ;;
        remove_messages 2 false))
  = Ok ["S"; "A"; "B"].
Proof.
  vm_compute. reflexivity.
Qed.

(** [restart] keeps the first message only and assigns no counter. *)
Lemma restart_keeps_counters (self : AIConversation)
    (system_message : AIMessage) (others : list AIMessage) :
  messages self = system_message :: others ->
  restart self = (Ok tt, set_messages [system_message] self) /\
  same_counters (set_messages [system_message] self) self.
Proof.
  intros Hmsgs. unfold restart, bind, get, lift, modify.
  rewrite Hmsgs. unfold py_index. simpl.
  split; [reflexivity |]. unfold same_counters. now repeat split.
Qed.

(** ** Construction of messages *)

Lemma eqb_empty_false (s : string) : s <> "" -> (s =? "")%string = false.
Proof. intros H. now apply String.eqb_neq. Qed.

(** What a successful construction fixes. *)
Lemma AIMessage_init_inv (role content_text msg_type : string)
    (content_image_url : option string) (sticky : bool) (message : AIMessage) :
  AIMessage_init tiktoken_len read_image_b64
    role content_text msg_type content_image_url sticky = Ok message ->
  get_role message = role /\
  is_sticky message = sticky /\
  get_text message = content_text /\
  get_type message = msg_type /\
  get_estimated_tokens message = estimate_of_content tiktoken_len message.
Proof.
  unfold AIMessage_init.
  destruct (negb (str_in role _)); [discriminate |].
  destruct (msg_type =? AIC_TYPE_IMAGE_URL)%string eqn:Himage.
  { apply String.eqb_eq in Himage. subst msg_type.
    destruct content_image_url as [url |]; [| discriminate].
    destruct (url =? "")%string; [discriminate |].
    unfold AIMessageContent_init. simpl.
    destruct (prefix "http" url); [intros [= <-]; now repeat split |].
    destruct (prefix "data:image" url); [intros [= <-]; now repeat split |].
    destruct (read_image_b64 url); intros [= <-]; now repeat split. }
  destruct (msg_type =? AIC_TYPE_INTERNAL)%string eqn:Hinternal.
  { apply String.eqb_eq in Hinternal. subst msg_type.
    destruct (content_text =? "")%string; [discriminate |].
    simpl. intros [= <-]. now repeat split. }
  destruct (msg_type =? AIC_TYPE_TEXT)%string eqn:Htext.
  { apply String.eqb_eq in Htext. subst msg_type.
    destruct (content_text =? "")%string; [discriminate |].
    simpl. intros [= <-]. now repeat split. }
  destruct (msg_type =? AIC_TYPE_FILE)%string; discriminate.
Qed.

(** C8, as amended: a successfully constructed message carries the
    tokenizer count of its text for text content, 765 plus the tokenizer
    count of the accompanying text for image content, and 0 for internal
    content; [set_role], [set_sticky] and [set_content] leave the
    estimate as it is. *)
Theorem estimate_fixed_at_construction (role content_text msg_type : string)
    (content_image_url : option string) (sticky : bool) (message : AIMessage) :
  AIMessage_init tiktoken_len read_image_b64
    role content_text msg_type content_image_url sticky = Ok message ->
  get_estimated_tokens message = estimate_of_content tiktoken_len message /\
  get_type message = msg_type /\
  get_text message = content_text /\
  (forall new_role,
      get_estimated_tokens (set_role new_role message) = get_estimated_tokens message) /\
  (forall new_sticky,
      get_estimated_tokens (set_sticky new_sticky message) = get_estimated_tokens message) /\
  (forall new_content,
      get_estimated_tokens (set_content new_content message) = get_estimated_tokens message).
Proof.
  intros Hinit. apply AIMessage_init_inv in Hinit as (_ & _ & Htext & Htype & Hest).
  repeat split; assumption.
Qed.

Lemma sticky_system_message_new (text : string) :
  text <> "" ->
  AIMessage_new tiktoken_len read_image_b64
    AIC_ROLE_SYSTEM text AIC_TYPE_TEXT None true
    = Ok (sticky_system_message tiktoken_len text).
Proof.
  intros Htext. unfold AIMessage_new, AIMessage_init. simpl.
  now rewrite (eqb_empty_false _ Htext).
Qed.

Lemma positive_length_nonempty (s : string) :
  (0 <? String.length s)%nat = true -> s <> "".
Proof. intros H ->. discriminate H. Qed.

Lemma default_prompt_nonempty : AIC_DEFAULT_SYSTEM_PROMPT <> "".
Proof. discriminate. Qed.

(** ** Failing calls of [add_message] *)

(** Whatever the exception, [add_message] raises it before it touches
    the conversation: the role check, the message constructor and the
    read of the evicted message all come before the first assignment,
    and nothing after the first assignment can raise. *)
Lemma add_message_run_raise (msg_role msg_text msg_type : string)
    (image_url : option string) (sticky : bool)
    (self : AIConversation) (run : result unit * AIConversation) :
  add_message tiktoken_len read_image_b64
    msg_role msg_text msg_type image_url sticky self = run ->
  forall e, outcome run = Raise e -> final run = self.
Proof.
  unfold add_message, outcome, final.
  destruct (negb (str_in msg_role _)).
  { intros <- e _. reflexivity. }
  unfold bind, lift, get, modify, ret.
  destruct (AIMessage_new _ _ _ _ _ _ _) as [new_msg | e0].
  2:{ intros <- e _. reflexivity. }
  destruct (str_in msg_role [AIC_ROLE_SYSTEM; AIC_ROLE_DEVELOPER]).
  - destruct (1 <=? len (messages self)).
    + destruct (py_index (messages self) 0) as [old | e0].
      2:{ intros <- e _. reflexivity. }
      destruct (str_in msg_role _), (msg_role =? AIC_ROLE_USER)%string,
        (msg_role =? AIC_ROLE_ASSISTANT)%string,
        (msg_role =? AIC_ROLE_SYSTEM)%string;
        intros <- e Hraise; simpl in Hraise; discriminate Hraise.
    + destruct (str_in msg_role _), (msg_role =? AIC_ROLE_USER)%string,
        (msg_role =? AIC_ROLE_ASSISTANT)%string,
        (msg_role =? AIC_ROLE_SYSTEM)%string;
        intros <- e Hraise; simpl in Hraise; discriminate Hraise.
  - destruct ((max_memory_messages self + 2 <? len (messages self))
              && negb (str_in msg_role [AIC_ROLE_INTERNAL]))%bool.
    + destruct (py_index (messages self) _) as [evicted | e0].
      2:{ intros <- e _. reflexivity. }
      destruct (str_in msg_role _), (msg_role =? AIC_ROLE_USER)%string,
        (msg_role =? AIC_ROLE_ASSISTANT)%string,
        (msg_role =? AIC_ROLE_SYSTEM)%string;
        intros <- e Hraise; simpl in Hraise; discriminate Hraise.
    + destruct (str_in msg_role _), (msg_role =? AIC_ROLE_USER)%string,
        (msg_role =? AIC_ROLE_ASSISTANT)%string,
        (msg_role =? AIC_ROLE_SYSTEM)%string;
        intros <- e Hraise; simpl in Hraise; discriminate Hraise.
Qed.

Lemma add_message_raise_keeps_state (msg_role msg_text msg_type : string)
    (image_url : option string) (sticky : bool)
    (self : AIConversation) (e : exn) :
  outcome (add_message tiktoken_len read_image_b64
             msg_role msg_text msg_type image_url sticky self) = Raise e ->
  final (add_message tiktoken_len read_image_b64
           msg_role msg_text msg_type image_url sticky self) = self.
Proof.
  intros Hraise. exact (add_message_run_raise _ _ _ _ _ _ _ eq_refl e Hraise).
Qed.

(** C9: a call of [add_message] that raises a validation error leaves
    the message list and every token counter of the conversation exactly
    as they were before the call. *)
Theorem add_message_validation_error_keeps_state
    (msg_role msg_text msg_type : string)
    (image_url : option string) (sticky : bool)
    (self : AIConversation) (reason : string) :
  outcome (add_message tiktoken_len read_image_b64
             msg_role msg_text msg_type image_url sticky self)
    = Raise (ValueError reason) ->
  final (add_message tiktoken_len read_image_b64
           msg_role msg_text msg_type image_url sticky self) = self.
Proof. apply add_message_raise_keeps_state. Qed.

(** ** The system message at index 0 *)

Lemma constructor_text_nonempty (system_message : option string) :
  match system_message with
  | Some s => if (0 <? String.length (strip s))%nat then strip s
              else AIC_DEFAULT_SYSTEM_PROMPT
  | None => AIC_DEFAULT_SYSTEM_PROMPT
  end <> "".
Proof.
  destruct system_message as [s |]; [| exact default_prompt_nonempty].
  destruct (0 <? String.length (strip s))%nat eqn:Hlen.
  - now apply positive_length_nonempty.
  - exact default_prompt_nonempty.
Qed.

(** The constructor always succeeds and stores one sticky system message. *)
Lemma AIConversation_init_total (system_message : option string) (max_memory : Z) :
  exists text,
    text <> "" /\
    AIConversation_init tiktoken_len read_image_b64 system_message max_memory =
      Ok (mkConversation [sticky_system_message tiktoken_len text] max_memory
            (num_tokens_from_string tiktoken_len text) 0 0
            (num_tokens_from_string tiktoken_len text) 0 0 0 0
            (num_tokens_from_string tiktoken_len text)).
Proof.
  unfold AIConversation_init.
  pose proof (constructor_text_nonempty system_message) as Htext.
  set (text := match system_message with Some _ => _ | None => _ end) in *.
  exists text. split; [assumption |].
  now rewrite (sticky_system_message_new _ Htext).
Qed.

(** [change_system_message] with a non-empty text puts the sticky system
    message at index 0 and touches nothing else. *)
Lemma change_system_message_run (new_system_message : string) (self : AIConversation) :
  new_system_message <> "" ->
  change_system_message tiktoken_len read_image_b64 new_system_message self =
    (Ok tt,
     set_messages
       (sticky_system_message tiktoken_len new_system_message :: tl (messages self))
       self).
Proof.
  intros Htext. unfold change_system_message, bind, get, lift, modify.
  rewrite (sticky_system_message_new _ Htext).
  destruct (messages self) as [| m0 rest] eqn:Hmsgs; simpl.
  - unfold set_messages. rewrite Hmsgs. reflexivity.
  - replace (len (m0 :: rest) =? 0) with false.
    + unfold set_messages. rewrite Hmsgs. reflexivity.
    + symmetry. apply Z.eqb_neq. unfold len. simpl length. lia.
Qed.

(** A system or developer message given to [add_message] takes index 0
    as the constructor built it. *)
Lemma add_message_system_head (msg_role msg_text msg_type : string)
    (image_url : option string) (sticky : bool)
    (self : AIConversation) (new_msg : AIMessage) :
  msg_role = AIC_ROLE_SYSTEM \/ msg_role = AIC_ROLE_DEVELOPER ->
  AIMessage_new tiktoken_len read_image_b64
    msg_role msg_text msg_type image_url sticky = Ok new_msg ->
  exists self',
    add_message tiktoken_len read_image_b64
      msg_role msg_text msg_type image_url sticky self = (Ok tt, self') /\
    messages self' = new_msg :: tl (messages self).
Proof.
  intros Hrole Hnew. unfold add_message.
  assert (Hvalid : negb (str_in msg_role
                           [AIC_ROLE_USER; AIC_ROLE_ASSISTANT; AIC_ROLE_SYSTEM;
                            AIC_ROLE_INTERNAL; AIC_ROLE_DEVELOPER]) = false)
    by (destruct Hrole as [-> | ->]; reflexivity).
  assert (Hhead : str_in msg_role [AIC_ROLE_SYSTEM; AIC_ROLE_DEVELOPER] = true)
    by (destruct Hrole as [-> | ->]; reflexivity).
  assert (Htail : str_in msg_role
                    [AIC_ROLE_USER; AIC_ROLE_ASSISTANT; AIC_ROLE_INTERNAL] = false)
    by (destruct Hrole as [-> | ->]; reflexivity).
  assert (Huser : (msg_role =? AIC_ROLE_USER)%string = false)
    by (destruct Hrole as [-> | ->]; reflexivity).
  assert (Hassistant : (msg_role =? AIC_ROLE_ASSISTANT)%string = false)
    by (destruct Hrole as [-> | ->]; reflexivity).
  rewrite Hvalid. unfold bind, lift, get, modify, ret.
  rewrite Hnew, Hhead, Htail, Huser, Hassistant.
  destruct (messages self) as [| m0 rest] eqn:Hmsgs.
  - change (1 <=? len []) with false. cbv iota.
    destruct (msg_role =? AIC_ROLE_SYSTEM)%string;
      (eexists; split; [reflexivity |]); simpl; now rewrite Hmsgs.
  - replace (1 <=? len (m0 :: rest)) with true
      by (symmetry; apply Z.leb_le; unfold len; simpl length; lia).
    change (py_index (m0 :: rest) 0) with (Ok m0). cbv iota.
    destruct (msg_role =? AIC_ROLE_SYSTEM)%string;
      (eexists; split; [reflexivity |]); simpl; now rewrite Hmsgs.
Qed.

(** C10: after construction and after every [change_system_message]
    call that goes through, index 0 holds a system-role text message
    whose sticky flag is true; a system or developer message given to
    [add_message] is stored at index 0 with the sticky flag of the call,
    which is false when the call leaves it out. *)
Theorem system_message_sticky_flag
    (system_message : option string) (max_memory : Z)
    (self : AIConversation) (new_system_message : string)
    (msg_role msg_text msg_type : string) (image_url : option string)
    (sticky : bool) (new_msg : AIMessage) :
  (exists conversation first,
      AIConversation_init tiktoken_len read_image_b64 system_message max_memory
        = Ok conversation /\
      messages conversation = [first] /\
      get_role first = AIC_ROLE_SYSTEM /\
      get_type first = AIC_TYPE_TEXT /\
      is_sticky first = true) /\
  (new_system_message <> "" ->
   exists self' first rest,
      change_system_message tiktoken_len read_image_b64 new_system_message self
        = (Ok tt, self') /\
      messages self' = first :: rest /\
      get_role first = AIC_ROLE_SYSTEM /\
      get_type first = AIC_TYPE_TEXT /\
      get_text first = new_system_message /\
      is_sticky first = true) /\
  (msg_role = AIC_ROLE_SYSTEM \/ msg_role = AIC_ROLE_DEVELOPER ->
   AIMessage_new tiktoken_len read_image_b64
     msg_role msg_text msg_type image_url sticky = Ok new_msg ->
   exists self' rest,
      add_message tiktoken_len read_image_b64
        msg_role msg_text msg_type image_url sticky self = (Ok tt, self') /\
      messages self' = new_msg :: rest /\
      get_role new_msg = msg_role /\
      is_sticky new_msg = sticky) /\
  (msg_role = AIC_ROLE_SYSTEM \/ msg_role = AIC_ROLE_DEVELOPER ->
   msg_text <> "" ->
   exists self' first rest,
      add_message_default tiktoken_len read_image_b64 msg_role msg_text self
        = (Ok tt, self') /\
      messages self' = first :: rest /\
      get_role first = msg_role /\
      get_text first = msg_text /\
      is_sticky first = false).
Proof.
  split; [| split; [| split]].
  - destruct (AIConversation_init_total system_message max_memory)
      as (text & _ & Hinit).
    eexists. eexists. split; [exact Hinit |]. now repeat split.
  - intros Htext. eexists. eexists. eexists.
    split; [now apply change_system_message_run |]. now repeat split.
  - intros Hrole Hnew.
    destruct (add_message_system_head _ _ _ _ _ self _ Hrole Hnew)
      as (self' & Hrun & Hmsgs).
    apply AIMessage_init_inv in Hnew as (Hr & Hs & _).
    exists self', (tl (messages self)). now repeat split.
  - intros Hrole Htext.
    assert (Hnew : exists first,
               AIMessage_new tiktoken_len read_image_b64
                 msg_role msg_text AIC_TYPE_TEXT None false = Ok first).
    { unfold AIMessage_new, AIMessage_init.
      destruct Hrole as [-> | ->]; simpl;
        rewrite (eqb_empty_false _ Htext); eexists; reflexivity. }
    destruct Hnew as (first & Hnew).
    destruct (add_message_system_head _ _ _ _ _ self _ Hrole Hnew)
      as (self' & Hrun & Hmsgs).
    apply AIMessage_init_inv in Hnew as (Hr & Hs & Ht & _).
    exists self', first, (tl (messages self)). now repeat split.
Qed.

(** ** Counter updates of [add_message] *)

(** Appending a user message to a store longer than the window plus two:
    the tokens of [messages[-M-1]] leave the memory counters and the
    all-time user counter alike; the all-time total keeps them. *)
Lemma add_user_message_eviction (msg_text msg_type : string)
    (image_url : option string) (sticky : bool)
    (self : AIConversation) (new_msg evicted : AIMessage) :
  AIMessage_new tiktoken_len read_image_b64
    AIC_ROLE_USER msg_text msg_type image_url sticky = Ok new_msg ->
  max_memory_messages self + 2 < len (messages self) ->
  py_index (messages self) (- max_memory_messages self - 1) = Ok evicted ->
  exists self',
    add_message tiktoken_len read_image_b64
      AIC_ROLE_USER msg_text msg_type image_url sticky self = (Ok tt, self') /\
    messages self' = (messages self ++ [new_msg])%list /\
    user_tokens self' =
      user_tokens self
      + (get_estimated_tokens new_msg - get_estimated_tokens evicted) /\
    total_tokens self' = total_tokens self + get_estimated_tokens new_msg /\
    memory_user_tokens self' =
      memory_user_tokens self + get_estimated_tokens new_msg
      - get_estimated_tokens evicted /\
    memory_total_tokens self' =
      memory_total_tokens self + get_estimated_tokens new_msg
      - get_estimated_tokens evicted.
Proof.
  intros Hnew Hlong Hevicted. apply Z.ltb_lt in Hlong.
  unfold add_message.
  change (negb (str_in AIC_ROLE_USER
                  [AIC_ROLE_USER; AIC_ROLE_ASSISTANT; AIC_ROLE_SYSTEM;
                   AIC_ROLE_INTERNAL; AIC_ROLE_DEVELOPER])) with false.
  unfold bind, lift, get, modify, ret. rewrite Hnew.
  change (str_in AIC_ROLE_USER [AIC_ROLE_SYSTEM; AIC_ROLE_DEVELOPER]) with false.
  change (negb (str_in AIC_ROLE_USER [AIC_ROLE_INTERNAL])) with true.
  change (str_in AIC_ROLE_USER
            [AIC_ROLE_USER; AIC_ROLE_ASSISTANT; AIC_ROLE_INTERNAL]) with true.
  change (AIC_ROLE_USER =? AIC_ROLE_USER)%string with true.
  rewrite Hlong. cbv iota. unfold andb. rewrite Hevicted.
  eexists. split; [reflexivity |]. simpl. now repeat split.
Qed.

(** An internal message is appended and no counter moves, whatever the
    length of the store. *)
Lemma add_internal_message_keeps_counters (msg_text : string) (sticky : bool)
    (self : AIConversation) :
  msg_text <> "" ->
  exists self' marker,
    add_message tiktoken_len read_image_b64
      AIC_ROLE_INTERNAL msg_text AIC_TYPE_INTERNAL None sticky self
      = (Ok tt, self') /\
    messages self' = (messages self ++ [marker])%list /\
    get_text marker = msg_text /\
    get_estimated_tokens marker = 0 /\
    same_counters self' self.
Proof.
  intros Htext.
  assert (Hnew : AIMessage_new tiktoken_len read_image_b64
                   AIC_ROLE_INTERNAL msg_text AIC_TYPE_INTERNAL None sticky
                 = Ok (mkMessage AIC_ROLE_INTERNAL
                         (mkContent [TextPart AIC_TYPE_INTERNAL msg_text]
                            AIC_TYPE_INTERNAL None msg_text)
                         sticky 0 true)).
  { unfold AIMessage_new, AIMessage_init.
    change (negb (str_in AIC_ROLE_INTERNAL _)) with false.
    change (AIC_TYPE_INTERNAL =? AIC_TYPE_IMAGE_URL)%string with false.
    change (AIC_TYPE_INTERNAL =? AIC_TYPE_INTERNAL)%string with true.
    cbv iota. rewrite (eqb_empty_false _ Htext). reflexivity. }
  unfold add_message.
  change (negb (str_in AIC_ROLE_INTERNAL
                  [AIC_ROLE_USER; AIC_ROLE_ASSISTANT; AIC_ROLE_SYSTEM;
                   AIC_ROLE_INTERNAL; AIC_ROLE_DEVELOPER])) with false.
  unfold bind, lift, get, modify, ret. rewrite Hnew.
  change (str_in AIC_ROLE_INTERNAL [AIC_ROLE_SYSTEM; AIC_ROLE_DEVELOPER]) with false.
  change (negb (str_in AIC_ROLE_INTERNAL [AIC_ROLE_INTERNAL])) with false.
  change (str_in AIC_ROLE_INTERNAL
            [AIC_ROLE_USER; AIC_ROLE_ASSISTANT; AIC_ROLE_INTERNAL]) with true.
  change (AIC_ROLE_INTERNAL =? AIC_ROLE_USER)%string with false.
  change (AIC_ROLE_INTERNAL =? AIC_ROLE_ASSISTANT)%string with false.
  change (AIC_ROLE_INTERNAL =? AIC_ROLE_SYSTEM)%string with false.
  rewrite andb_false_r. cbv iota.
  eexists. eexists. split; [reflexivity |]. simpl.
  unfold same_counters. now repeat split.
Qed.

(** ** Rescans

    A rescan leaves the messages and the window alone. *)
Lemma recalculate_loop_messages (remaining : list AIMessage) :
  forall i self,
    messages (recalculate_loop remaining i self) = messages self /\
    max_memory_messages (recalculate_loop remaining i self) = max_memory_messages self.
Proof.
  induction remaining as [| message rest IH]; intros i self; [now split |].
  cbn [recalculate_loop].
  destruct (IH (i + 1) (recalculate_step (i + 1) message self)) as [Hm HM].
  rewrite Hm, HM. unfold recalculate_step.
  destruct (get_role message =? AIC_ROLE_USER)%string.
  { destruct (len (messages self) - max_memory_messages self <? i + 1);
      now split. }
  destruct (get_role message =? AIC_ROLE_ASSISTANT)%string.
  { destruct (len (messages self) - max_memory_messages self <? i + 1);
      now split. }
  destruct (str_in (get_role message) [AIC_ROLE_SYSTEM; AIC_ROLE_DEVELOPER]);
    now split.
Qed.

(** The system counter a rescan starts from only shows in the system
    counter it ends with. *)
Lemma recalculate_loop_system_tokens (remaining : list AIMessage) :
  forall i self start,
    recalculate_loop remaining i (set_system_message_tokens start self) =
    set_system_message_tokens (last_system_tokens remaining start)
      (recalculate_loop remaining i self).
Proof.
  induction remaining as [| message rest IH]; intros i self start; [reflexivity |].
  cbn [recalculate_loop last_system_tokens]. rewrite <- IH. f_equal.
  unfold recalculate_step.
  destruct (get_role message =? AIC_ROLE_USER)%string.
  { destruct self. cbn.
    destruct (len messages0 - max_memory_messages0 <? i + 1); reflexivity. }
  destruct (get_role message =? AIC_ROLE_ASSISTANT)%string.
  { destruct self. cbn.
    destruct (len messages0 - max_memory_messages0 <? i + 1); reflexivity. }
  destruct (str_in (get_role message) [AIC_ROLE_SYSTEM; AIC_ROLE_DEVELOPER]);
    destruct self; reflexivity.
Qed.

Lemma last_system_tokens_again (remaining : list AIMessage) :
  forall start,
    last_system_tokens remaining (last_system_tokens remaining start) =
    last_system_tokens remaining start.
Proof.
  induction remaining as [| message rest IH]; intros start; [reflexivity |].
  cbn [last_system_tokens].
  destruct (get_role message =? AIC_ROLE_USER)%string; [apply IH |].
  destruct (get_role message =? AIC_ROLE_ASSISTANT)%string; [apply IH |].
  destruct (str_in (get_role message) [AIC_ROLE_SYSTEM; AIC_ROLE_DEVELOPER]);
    [reflexivity | apply IH].
Qed.

Lemma recalculate_tokens_as_loop (self : AIConversation) :
  recalculate_tokens_pure self =
  set_system_message_tokens
    (last_system_tokens (messages self) (system_message_tokens self))
    (recalculate_loop (messages self) 0
       (mkConversation (messages self) (max_memory_messages self)
          0 0 0 0 0 0 0 0 0)).
Proof.
  unfold recalculate_tokens_pure.
  rewrite <- recalculate_loop_system_tokens. reflexivity.
Qed.

Lemma recalculate_tokens_messages (self : AIConversation) :
  messages (recalculate_tokens_pure self) = messages self /\
  max_memory_messages (recalculate_tokens_pure self) = max_memory_messages self.
Proof.
  unfold recalculate_tokens_pure.
  destruct (recalculate_loop_messages (messages self) 0
              (mkConversation (messages self) (max_memory_messages self)
                 (system_message_tokens self) 0 0 0 0 0 0 0 0)) as [Hm HM].
  rewrite Hm, HM. now split.
Qed.

Lemma recalculate_tokens_system (self : AIConversation) :
  system_message_tokens (recalculate_tokens_pure self) =
  last_system_tokens (messages self) (system_message_tokens self).
Proof. now rewrite recalculate_tokens_as_loop. Qed.

(** [recalculate_tokens] is idempotent: a second rescan finds every
    counter as the first one left it. *)
Lemma recalculate_tokens_idempotent (self : AIConversation) :
  recalculate_tokens_pure (recalculate_tokens_pure self) =
  recalculate_tokens_pure self.
Proof.
  destruct (recalculate_tokens_messages self) as [Hm HM].
  rewrite (recalculate_tokens_as_loop (recalculate_tokens_pure self)).
  rewrite Hm, HM, recalculate_tokens_system, last_system_tokens_again.
  symmetry. apply recalculate_tokens_as_loop.
Qed.

(** A call of [remove_messages] that removes something and returns
    leaves every counter as a rescan of the remaining messages gives it. *)
Lemma remove_messages_counters_rescanned (remove_n_messages : Z)
    (remove_sticky : bool) (self self' : AIConversation) :
  0 < Z.min remove_n_messages (len (messages self) - 1) ->
  remove_messages remove_n_messages remove_sticky self = (Ok tt, self') ->
  recalculate_tokens_pure self' = self'.
Proof.
  intros Hsome. apply Z.ltb_lt in Hsome.
  unfold remove_messages.
  destruct (remove_n_messages <? 0); [discriminate |].
  unfold bind at 1. unfold get at 1. rewrite Hsome.
  unfold bind at 1.
  match goal with
  | |- (match ?inner with _ => _ end) = _ -> _ =>
      destruct inner as [[[] | e] mid]
  end; [| discriminate].
  unfold recalculate_tokens, modify. intros [= <-].
  apply recalculate_tokens_idempotent.
Qed.

End Scenarios.

(** ** Closed instances *)

(** Witness of [estimate_fixed_at_construction]: an image message with
    the four-character text "look" carries 765 + 4 tokens. *)
Lemma estimate_fixed_at_construction_witness :
  AIMessage_init char_tokenizer no_local_files
    AIC_ROLE_USER "look" AIC_TYPE_IMAGE_URL (Some "http://x/y.png") false
    = Ok look_image_message /\
  get_estimated_tokens look_image_message = 769 /\
  get_estimated_tokens (set_sticky true look_image_message) = 769.
Proof.
  assert (Hinit : AIMessage_init char_tokenizer no_local_files
                    AIC_ROLE_USER "look" AIC_TYPE_IMAGE_URL
                    (Some "http://x/y.png") false = Ok look_image_message)
    by (vm_compute; reflexivity).
  pose proof (estimate_fixed_at_construction char_tokenizer no_local_files
                AIC_ROLE_USER "look" AIC_TYPE_IMAGE_URL (Some "http://x/y.png")
                false look_image_message Hinit)
    as (Hest & _ & _ & _ & Hsticky & _).
  split; [exact Hinit |]. split.
  - rewrite Hest. vm_compute. reflexivity.
  - rewrite Hsticky, Hest. vm_compute. reflexivity.
Defined.

(** C8, as stated, fails on an image message with a text: its estimate
    is the placeholder plus the tokens of the text, not the bare 765. *)
Lemma bare_placeholder_counterexample :
  AIMessage_init char_tokenizer no_local_files
    AIC_ROLE_USER "look" AIC_TYPE_IMAGE_URL (Some "http://x/y.png") false
    = Ok look_image_message /\
  get_estimated_tokens look_image_message = 769 /\
  estimate_with_bare_placeholder char_tokenizer look_image_message = 765 /\
  ~ bare_placeholder_for_every_message char_tokenizer no_local_files.
Proof.
  assert (Hinit : AIMessage_init char_tokenizer no_local_files
                    AIC_ROLE_USER "look" AIC_TYPE_IMAGE_URL
                    (Some "http://x/y.png") false = Ok look_image_message)
    by (vm_compute; reflexivity).
  split; [exact Hinit |]. split; [reflexivity |]. split; [reflexivity |].
  intros Hclaim.
  specialize (Hclaim AIC_ROLE_USER "look" AIC_TYPE_IMAGE_URL
                (Some "http://x/y.png") false look_image_message Hinit).
  vm_compute in Hclaim. discriminate Hclaim.
Qed.

(** C5 fails after [restart()]: the message list shrinks to the system
    message while the counters keep the 769 tokens of the removed image
    message, which a rescan does not count. *)
Theorem restart_leaves_counters_stale :
  observe texts restart_script = Ok [AIC_DEFAULT_SYSTEM_PROMPT] /\
  observe user_tokens restart_script = Ok 769 /\
  observe (fun self => user_tokens (recalculate_tokens_pure self)) restart_script
    = Ok 0 /\
  observe total_tokens restart_script = Ok 812 /\
  observe (fun self => total_tokens (recalculate_tokens_pure self)) restart_script
    = Ok 43 /\
  observe counters_agree_with_rescan restart_script = Ok false.
Proof.
  repeat split; vm_compute; reflexivity.
Qed.

(** The memory counters of [add_message] drift from the rescan without
    any eviction: with a window of one, after user messages "A" and "B"
    the running counter holds both, the rescan the last only. *)
Lemma memory_counter_drifts_from_rescan :
  observe memory_user_tokens (Ok two_user_messages_conversation) = Ok 2 /\
  observe (fun self => memory_user_tokens (recalculate_tokens_pure self))
    (Ok two_user_messages_conversation) = Ok 1.
Proof.
  split; vm_compute; reflexivity.
Qed.

(** C6 fails on the all-time user counter: in a conversation of four
    stored messages with a window of one, adding user message "D" takes
    the 768 tokens of the image message at [messages[-2]] away from
    [user_tokens] as well as from the memory counters; only
    [total_tokens] grows by the token of "D" alone. *)
Theorem eviction_reduces_user_total :
  observe texts four_messages_script
    = Ok [AIC_DEFAULT_SYSTEM_PROMPT; "A"; "cap"; "C"] /\
  observe (fun self => map get_estimated_tokens (messages self)) four_messages_script
    = Ok [43; 1; 768; 1] /\
  observe user_tokens four_messages_script = Ok 770 /\
  observe user_tokens five_messages_script = Ok 3 /\
  observe memory_user_tokens four_messages_script = Ok 770 /\
  observe memory_user_tokens five_messages_script = Ok 3 /\
  observe total_tokens four_messages_script = Ok 813 /\
  observe total_tokens five_messages_script = Ok 814 /\
  observe (fun self => user_tokens (recalculate_tokens_pure self))
    five_messages_script = Ok 771.
Proof.
  repeat split; vm_compute; reflexivity.
Qed.

(** Witness of [add_message_validation_error_keeps_state]: an unknown
    role is refused and the fresh conversation is unchanged. *)
Lemma add_message_validation_error_keeps_state_witness :
  outcome (add_message char_tokenizer no_local_files
             "robot" "hi" AIC_TYPE_TEXT None false fresh_conversation)
    = Raise (ValueError "Invalid message role: robot") /\
  final (add_message char_tokenizer no_local_files
           "robot" "hi" AIC_TYPE_TEXT None false fresh_conversation)
    = fresh_conversation.
Proof.
  split; [reflexivity |].
  apply (add_message_validation_error_keeps_state char_tokenizer no_local_files
           "robot" "hi" AIC_TYPE_TEXT None false fresh_conversation
           "Invalid message role: robot").
  reflexivity.
Defined.

(** A missing text is refused the same way, after the role check. *)
Lemma add_message_empty_text_keeps_state :
  outcome (add_message char_tokenizer no_local_files
             AIC_ROLE_USER "" AIC_TYPE_TEXT None false fresh_conversation)
    = Raise (ValueError "Missing TEXT for text message") /\
  final (add_message char_tokenizer no_local_files
           AIC_ROLE_USER "" AIC_TYPE_TEXT None false fresh_conversation)
    = fresh_conversation.
Proof. split; reflexivity. Qed.

(** Witness of [system_message_sticky_flag] on the fresh conversation:
    [change_system_message] installs a sticky message, [add_message]
    with role system a non-sticky one. *)
Lemma system_message_sticky_flag_witness :
  (exists self' first rest,
      change_system_message char_tokenizer no_local_files "Be brief" fresh_conversation
        = (Ok tt, self') /\
      messages self' = first :: rest /\
      get_role first = AIC_ROLE_SYSTEM /\
      get_type first = AIC_TYPE_TEXT /\
      get_text first = "Be brief" /\
      is_sticky first = true) /\
  (exists self' first rest,
      add_message_default char_tokenizer no_local_files
        AIC_ROLE_SYSTEM "S" fresh_conversation = (Ok tt, self') /\
      messages self' = first :: rest /\
      get_role first = AIC_ROLE_SYSTEM /\
      get_text first = "S" /\
      is_sticky first = false).
Proof.
  pose proof (system_message_sticky_flag char_tokenizer no_local_files
                None 2 fresh_conversation "Be brief"
                AIC_ROLE_SYSTEM "S" AIC_TYPE_TEXT None false
                (mkMessage AIC_ROLE_SYSTEM
                   (mkContent [TextPart AIC_TYPE_TEXT "S"] AIC_TYPE_TEXT None "S")
                   false 1 false))
    as (_ & Hchange & _ & Hadd).
  split.
  - apply Hchange. discriminate.
  - apply Hadd.
    + left. reflexivity.
    + discriminate.
Defined.

(** ** Records and payloads of messages *)

Section MessageRecords.

Variable tiktoken_len : string -> string -> nat.
Variable read_image_b64 : string -> option string.

(** The record of a constructed content is read back as that content. *)
Lemma content_from_to_dict (msg_type : string)
    (msg_image_url : option string) (msg_text : string)
    (content : AIMessageContent) :
  AIMessageContent_init read_image_b64 msg_type msg_image_url msg_text = Ok content ->
  AIMessageContent_from_dict read_image_b64 (AIMessageContent_to_dict content)
    = Ok content.
Proof.
  unfold AIMessageContent_from_dict, AIMessageContent_to_dict, AIMessageContent_init.
  destruct (msg_type =? AIC_TYPE_IMAGE_URL)%string eqn:Himage.
  { destruct msg_image_url as [url |]; [| discriminate].
    destruct (prefix "http" url) eqn:Hhttp.
    { intros [= <-]. simpl. now rewrite Himage, Hhttp. }
    destruct (prefix "data:image" url) eqn:Hdata.
    { intros [= <-]. simpl. now rewrite Himage, Hhttp, Hdata. }
    destruct (read_image_b64 url) as [encoded_image |] eqn:Hread.
    - intros [= <-]. simpl. rewrite Himage. reflexivity.
    - intros [= <-]. simpl. now rewrite Himage, Hhttp, Hdata, Hread. }
  destruct (msg_type =? AIC_TYPE_TEXT)%string eqn:Htext.
  { intros [= <-]. simpl. now rewrite Himage, Htext. }
  destruct (msg_type =? AIC_TYPE_FILE)%string eqn:Hfile.
  { intros [= <-]. simpl. now rewrite Himage, Htext, Hfile. }
  destruct (msg_type =? AIC_TYPE_INTERNAL)%string eqn:Hinternal; [| discriminate].
  intros [= <-]. simpl. now rewrite Himage, Htext, Hfile, Hinternal.
Qed.

(** X1: the record of a content gives the content back: for every
    content the constructor builds, [from_dict(to_dict(content))] is that
    content, embedded image included. *)
Theorem content_record_round_trip (msg_type : string)
    (msg_image_url : option string) (msg_text : string)
    (content : AIMessageContent) :
  AIMessageContent_init read_image_b64 msg_type msg_image_url msg_text = Ok content ->
  AIMessageContent_from_dict read_image_b64 (AIMessageContent_to_dict content)
    = Ok content.
Proof.
  exact (content_from_to_dict msg_type msg_image_url msg_text content).
Qed.

(** The constructor passes the sticky flag through and looks at nothing
    else of it. *)
Lemma AIMessage_init_sticky (role content_text msg_type : string)
    (content_image_url : option string) (sticky sticky' : bool)
    (message : AIMessage) :
  AIMessage_init tiktoken_len read_image_b64
    role content_text msg_type content_image_url sticky = Ok message ->
  AIMessage_init tiktoken_len read_image_b64
    role content_text msg_type content_image_url sticky'
    = Ok (set_sticky sticky' message).
Proof.
  unfold AIMessage_init.
  destruct (negb (str_in role _)); [discriminate |].
  destruct (msg_type =? AIC_TYPE_IMAGE_URL)%string.
  { destruct content_image_url as [url |]; [| discriminate].
    destruct (url =? "")%string; [discriminate |].
    destruct (AIMessageContent_init read_image_b64 AIC_TYPE_IMAGE_URL (Some url)
                content_text); [| discriminate].
    simpl. intros [= <-]. reflexivity. }
  destruct (msg_type =? AIC_TYPE_INTERNAL)%string.
  { destruct (content_text =? "")%string; [discriminate |].
    simpl. intros [= <-]. reflexivity. }
  destruct (msg_type =? AIC_TYPE_TEXT)%string.
  { destruct (content_text =? "")%string; [discriminate |].
    simpl. intros [= <-]. reflexivity. }
  destruct (msg_type =? AIC_TYPE_FILE)%string; discriminate.
Qed.

(** What the content constructor stores. *)
Lemma content_init_fields (msg_type : string) (msg_image_url : option string)
    (msg_text : string) (content : AIMessageContent) :
  AIMessageContent_init read_image_b64 msg_type msg_image_url msg_text = Ok content ->
  content_type content = msg_type /\
  content_text content = msg_text /\
  (msg_type <> AIC_TYPE_IMAGE_URL -> content_image_url content = msg_image_url) /\
  (forall url, msg_image_url = Some url -> (url =? "")%string = false ->
     exists stored, content_image_url content = Some stored /\
                    (stored =? "")%string = false).
Proof.
  unfold AIMessageContent_init.
  destruct (msg_type =? AIC_TYPE_IMAGE_URL)%string eqn:Himage.
  { apply String.eqb_eq in Himage.
    destruct msg_image_url as [url |]; [| discriminate].
    destruct (prefix "http" url).
    { intros [= <-]. repeat split; try congruence.
      intros url' [= <-] Hurl. now exists url. }
    destruct (prefix "data:image" url).
    { intros [= <-]. repeat split; try congruence.
      intros url' [= <-] Hurl. now exists url. }
    destruct (read_image_b64 url) as [encoded_image |].
    - intros [= <-]. repeat split; try congruence.
      intros url' _ _. eexists. split; reflexivity.
    - intros [= <-]. repeat split; try congruence.
      intros url' [= <-] Hurl. now exists url. }
  assert (Hother : forall url, msg_image_url = Some url ->
            (url =? "")%string = false ->
            exists stored, msg_image_url = Some stored /\
                           (stored =? "")%string = false)
    by (intros url -> Hurl; now exists url).
  destruct (msg_type =? AIC_TYPE_TEXT)%string.
  { intros [= <-]. now repeat split. }
  destruct (msg_type =? AIC_TYPE_FILE)%string.
  { intros [= <-]. now repeat split. }
  destruct (msg_type =? AIC_TYPE_INTERNAL)%string; [| discriminate].
  intros [= <-]. now repeat split.
Qed.

(** X2: a message the constructor built is rebuilt from its own stored
    role, text, type, image URL and sticky flag, given in the order of
    the constructor: the path [load_conversation] takes gives the same
    message, token estimate included. *)
Theorem constructed_message_rebuilds (role text msg_type : string)
    (image_url : option string) (sticky : bool) (message : AIMessage) :
  AIMessage_init tiktoken_len read_image_b64
    role text msg_type image_url sticky = Ok message ->
  rebuilds tiktoken_len read_image_b64 message.
Proof.
  unfold rebuilds, get_role, get_text, get_type, get_url, is_sticky.
  unfold AIMessage_init at 1.
  destruct (negb (str_in role _)) eqn:Hrole; [discriminate |].
  destruct (msg_type =? AIC_TYPE_IMAGE_URL)%string eqn:Himage.
  { destruct image_url as [url |]; [| discriminate].
    destruct (url =? "")%string eqn:Hurl; [discriminate |].
    destruct (AIMessageContent_init read_image_b64 AIC_TYPE_IMAGE_URL (Some url)
                text) as [content | e] eqn:Hcontent; [| discriminate].
    cbn [result_bind]. intros [= <-].
    cbn [msg_role msg_content msg_sticky].
    pose proof (content_from_to_dict _ _ _ _ Hcontent) as Hagain.
    unfold AIMessageContent_from_dict, AIMessageContent_to_dict in Hagain.
    cbn [cd_type cd_image_url cd_text] in Hagain.
    destruct (content_init_fields _ _ _ _ Hcontent) as (Htype & Htext & _ & Hstored).
    destruct (Hstored url eq_refl Hurl) as (stored & Hurl' & Hnonempty).
    rewrite Htype, Htext, Hurl' in *.
    unfold AIMessage_init. rewrite Hrole.
    change (AIC_TYPE_IMAGE_URL =? AIC_TYPE_IMAGE_URL)%string with true. cbv iota.
    rewrite Hnonempty, Hagain. reflexivity. }
  destruct (msg_type =? AIC_TYPE_INTERNAL)%string eqn:Hinternal.
  { destruct (text =? "")%string eqn:Htext; [discriminate |].
    intros [= <-]. cbn [msg_role msg_content msg_sticky content_type
                        content_image_url content_text].
    unfold AIMessage_init. rewrite Hrole.
    change (AIC_TYPE_INTERNAL =? AIC_TYPE_IMAGE_URL)%string with false.
    change (AIC_TYPE_INTERNAL =? AIC_TYPE_INTERNAL)%string with true. cbv iota.
    now rewrite Htext. }
  destruct (msg_type =? AIC_TYPE_TEXT)%string eqn:Htype.
  { destruct (text =? "")%string eqn:Htext; [discriminate |].
    intros [= <-]. cbn [msg_role msg_content msg_sticky content_type
                        content_image_url content_text].
    unfold AIMessage_init. rewrite Hrole.
    change (AIC_TYPE_TEXT =? AIC_TYPE_IMAGE_URL)%string with false.
    change (AIC_TYPE_TEXT =? AIC_TYPE_INTERNAL)%string with false.
    change (AIC_TYPE_TEXT =? AIC_TYPE_TEXT)%string with true. cbv iota.
    now rewrite Htext. }
  destruct (msg_type =? AIC_TYPE_FILE)%string; discriminate.
Qed.

(** Changing the sticky flag of a stored message keeps it rebuildable. *)
Lemma rebuilds_set_sticky (sticky : bool) (message : AIMessage) :
  rebuilds tiktoken_len read_image_b64 message ->
  rebuilds tiktoken_len read_image_b64 (set_sticky sticky message).
Proof.
  unfold rebuilds. intros Hmessage.
  apply (AIMessage_init_sticky _ _ _ _ _ sticky) in Hmessage.
  exact Hmessage.
Qed.

(** The outcome of the constructor, by [constructible]. *)
Lemma AIMessage_init_constructible (role content_text msg_type : string)
    (content_image_url : option string) (sticky : bool) :
  match AIMessage_init tiktoken_len read_image_b64
          role content_text msg_type content_image_url sticky with
  | Ok _ => constructible role content_text msg_type content_image_url = true
  | Raise (ValueError _) =>
      constructible role content_text msg_type content_image_url = false
  | Raise _ => False
  end.
Proof.
  unfold AIMessage_init, constructible.
  destruct (str_in role _); simpl negb; cbv iota; [| reflexivity].
  rewrite andb_true_l.
  destruct (msg_type =? AIC_TYPE_IMAGE_URL)%string.
  { destruct content_image_url as [url |]; [| reflexivity].
    destruct (url =? "")%string; [reflexivity |].
    unfold AIMessageContent_init.
    change (AIC_TYPE_IMAGE_URL =? AIC_TYPE_IMAGE_URL)%string with true. cbv iota.
    destruct (prefix "http" url); [reflexivity |].
    destruct (prefix "data:image" url); [reflexivity |].
    destruct (read_image_b64 url); reflexivity. }
  destruct (msg_type =? AIC_TYPE_INTERNAL)%string.
  { destruct (content_text =? "")%string; reflexivity. }
  destruct (msg_type =? AIC_TYPE_TEXT)%string.
  { destruct (content_text =? "")%string; reflexivity. }
  destruct (msg_type =? AIC_TYPE_FILE)%string; reflexivity.
Qed.

(** X3: the constructor accepts exactly a known role with a non-empty
    image URL for an image, or a non-empty text for a text or internal
    message; every refusal is a [ValueError], whatever the file system. *)
Theorem construction_accepts_exactly (role content_text msg_type : string)
    (content_image_url : option string) (sticky : bool) :
  match AIMessage_init tiktoken_len read_image_b64
          role content_text msg_type content_image_url sticky with
  | Ok _ => constructible role content_text msg_type content_image_url = true
  | Raise (ValueError _) =>
      constructible role content_text msg_type content_image_url = false
  | Raise _ => False
  end.
Proof.
  exact (AIMessage_init_constructible role content_text msg_type content_image_url sticky).
Qed.

(** X4: the payload of a constructed message carries its role; its
    content is an image part followed by a text part for an image (the
    URL itself when it starts with http or data:image), and one part of
    the message's own type and text otherwise. *)
Theorem payload_shape (role content_text msg_type : string)
    (content_image_url : option string) (sticky : bool) (message : AIMessage) :
  AIMessage_init tiktoken_len read_image_b64
    role content_text msg_type content_image_url sticky = Ok message ->
  payload_role (get_message_payload message) = role /\
  (msg_type = AIC_TYPE_IMAGE_URL ->
   exists url shown,
     content_image_url = Some url /\
     payload_content (get_message_payload message) =
       [ImagePart shown; TextPart AIC_TYPE_TEXT content_text] /\
     (prefix "http" url || prefix "data:image" url = true -> shown = url)) /\
  (msg_type <> AIC_TYPE_IMAGE_URL ->
   payload_content (get_message_payload message) =
     [TextPart msg_type content_text]).
Proof.
  unfold AIMessage_init.
  destruct (negb (str_in role _)); [discriminate |].
  destruct (msg_type =? AIC_TYPE_IMAGE_URL)%string eqn:Himage.
  { apply String.eqb_eq in Himage. subst msg_type.
    destruct content_image_url as [url |]; [| discriminate].
    destruct (url =? "")%string; [discriminate |].
    unfold AIMessageContent_init.
    change (AIC_TYPE_IMAGE_URL =? AIC_TYPE_IMAGE_URL)%string with true. cbv iota.
    destruct (prefix "http" url) eqn:Hhttp.
    { intros [= <-]. split; [reflexivity |]. split; [| congruence].
      intros _. exists url, url. now repeat split. }
    destruct (prefix "data:image" url) eqn:Hdata.
    { intros [= <-]. split; [reflexivity |]. split; [| congruence].
      intros _. exists url, url. now repeat split. }
    destruct (read_image_b64 url) as [encoded_image |].
    - intros [= <-]. split; [reflexivity |]. split; [| congruence].
      intros _. exists url. eexists. split; [reflexivity |].
      split; [reflexivity |]. rewrite ?Hhttp, ?Hdata. intros Hshown.
      discriminate Hshown.
    - intros [= <-]. split; [reflexivity |]. split; [| congruence].
      intros _. exists url. eexists. split; [reflexivity |].
      split; [reflexivity |]. rewrite ?Hhttp, ?Hdata. intros Hshown.
      discriminate Hshown. }
  apply String.eqb_neq in Himage.
  destruct (msg_type =? AIC_TYPE_INTERNAL)%string eqn:Hinternal.
  { apply String.eqb_eq in Hinternal. subst msg_type.
    destruct (content_text =? "")%string; [discriminate |].
    intros [= <-]. split; [reflexivity |]. split; [congruence | reflexivity]. }
  destruct (msg_type =? AIC_TYPE_TEXT)%string eqn:Htext.
  { apply String.eqb_eq in Htext. subst msg_type.
    destruct (content_text =? "")%string; [discriminate |].
    intros [= <-]. split; [reflexivity |]. split; [congruence | reflexivity]. }
  destruct (msg_type =? AIC_TYPE_FILE)%string; discriminate.
Qed.

End MessageRecords.

(** ** The memory window in general *)

(** Without a marker the walk fills the window and then keeps the
    sticky messages only. *)
Lemma memory_walk_no_marker (max_memory : Z) (reversed_messages : list AIMessage) :
  no_topic_marker reversed_messages = true ->
  forall temp,
    memory_walk max_memory reversed_messages temp =
    ((temp ++ firstn (Z.to_nat (max_memory - len temp)) reversed_messages
           ++ filter is_sticky
                (skipn (Z.to_nat (max_memory - len temp)) reversed_messages))%list,
     false).
Proof.
  induction reversed_messages as [| message older IH]; intros Hmarker temp.
  - cbn [memory_walk]. now rewrite firstn_nil, skipn_nil, !app_nil_r.
  - cbn [no_topic_marker forallb] in Hmarker.
    apply andb_true_iff in Hmarker as [Hmessage Holder].
    apply negb_true_iff in Hmessage.
    cbn [memory_walk]. destruct (max_memory <=? len temp) eqn:Hfull.
    + apply Z.leb_le in Hfull.
      replace (Z.to_nat (max_memory - len temp)) with O by lia.
      cbn [firstn skipn filter app].
      destruct (is_sticky message).
      * rewrite (IH Holder). rewrite len_app. change (len [message]) with 1.
        replace (Z.to_nat (max_memory - (len temp + 1))) with O by lia.
        cbn [firstn skipn app]. now rewrite <- app_assoc.
      * rewrite (IH Holder).
        replace (Z.to_nat (max_memory - len temp)) with O by lia.
        reflexivity.
    + apply Z.leb_gt in Hfull. rewrite Hmessage, (IH Holder).
      rewrite len_app. change (len [message]) with 1.
      replace (Z.to_nat (max_memory - len temp))
        with (S (Z.to_nat (max_memory - (len temp + 1)))) by lia.
      cbn [firstn skipn]. now rewrite <- app_assoc.
Qed.

(** The memory of a conversation without topic marker. *)
Lemma get_memory_messages_plain (self : AIConversation) :
  no_topic_marker (messages self) = true ->
  get_memory_messages self =
    Ok (filter is_sticky
          (firstn (length (messages self) - Z.to_nat (max_memory_messages self))
                  (messages self))
        ++ trailing (Z.to_nat (max_memory_messages self)) (messages self))%list.
Proof.
  intros Hmarker. unfold get_memory_messages.
  assert (Hrev : no_topic_marker (rev (messages self)) = true).
  { unfold no_topic_marker in *. rewrite forallb_forall in *.
    intros x Hx. apply Hmarker. now apply in_rev. }
  rewrite (memory_walk_no_marker _ _ Hrev). cbn [app].
  change (len []) with 0. rewrite Z.sub_0_r.
  rewrite rev_app_distr, <- filter_rev, skipn_rev, rev_involutive.
  now rewrite trailing_rev_firstn.
Qed.

(** X5: in a conversation without topic marker the memory is, in
    chronological order, every sticky message older than the window
    followed by the last [max_memory_messages] messages; the system
    message counts as any other message here. *)
Theorem memory_without_topic_marker (self : AIConversation) :
  no_topic_marker (messages self) = true ->
  get_memory_messages self =
    Ok (filter is_sticky
          (firstn (length (messages self) - Z.to_nat (max_memory_messages self))
                  (messages self))
        ++ trailing (Z.to_nat (max_memory_messages self)) (messages self))%list.
Proof.
  exact (get_memory_messages_plain self).
Qed.

(** Witness of [memory_without_topic_marker]: system prompt, "A" and "B"
    with a window of one message give the sticky prompt and "B". *)
Lemma memory_without_topic_marker_witness :
  get_memory_messages two_user_messages_conversation =
    Ok [sticky_system_message char_tokenizer AIC_DEFAULT_SYSTEM_PROMPT;
        user_text_message char_tokenizer "B"].
Proof.
  refine (eq_trans
            (memory_without_topic_marker two_user_messages_conversation _) _).
  - vm_compute. reflexivity.
  - vm_compute. reflexivity.
Defined.

(** A sticky message of a conversation without topic marker is always
    part of the memory, and so is each of the last
    [max_memory_messages] messages. *)
Lemma sticky_message_in_memory (self : AIConversation) (message : AIMessage) :
  no_topic_marker (messages self) = true ->
  In message (messages self) ->
  is_sticky message = true ->
  exists window,
    get_memory_messages self = Ok window /\ In message window.
Proof.
  intros Hmarker Hin Hsticky.
  rewrite (get_memory_messages_plain _ Hmarker).
  eexists. split; [reflexivity |].
  set (k := (length (messages self) - Z.to_nat (max_memory_messages self))%nat).
  rewrite <- (firstn_skipn k (messages self)) in Hin.
  apply in_app_or in Hin as [Hold | Hrecent].
  - apply in_or_app. left. apply filter_In. now split.
  - apply in_or_app. right. unfold trailing.
    replace (length (messages self) - Z.to_nat (max_memory_messages self))%nat
      with k by reflexivity.
    exact Hrecent.
Qed.

(** *** Order-preserving selections *)

Lemma subsequence_nil_l {A} (l : list A) : Subsequence [] l.
Proof. induction l; constructor; assumption. Qed.

Lemma subsequence_refl {A} (l : list A) : Subsequence l l.
Proof. induction l; constructor; assumption. Qed.

Lemma subsequence_app {A} (s1 l1 s2 l2 : list A) :
  Subsequence s1 l1 -> Subsequence s2 l2 -> Subsequence (s1 ++ s2) (l1 ++ l2).
Proof.
  intros H1 H2. induction H1; cbn [app]; try (constructor; assumption).
  assumption.
Qed.

Lemma subsequence_rev {A} (s l : list A) :
  Subsequence s l -> Subsequence (rev s) (rev l).
Proof.
  intros H. induction H; cbn [rev].
  - constructor.
  - rewrite <- (app_nil_r (rev s)).
    apply subsequence_app; [assumption | apply subsequence_nil_l].
  - apply subsequence_app; [assumption | apply subsequence_refl].
Qed.

Lemma subsequence_length {A} (s l : list A) :
  Subsequence s l -> (length s <= length l)%nat.
Proof. intros H. induction H; cbn [length]; lia. Qed.

Lemma subsequence_In {A} (s l : list A) (x : A) :
  Subsequence s l -> In x s -> In x l.
Proof.
  intros H. induction H; intros Hin.
  - assumption.
  - right. auto.
  - destruct Hin as [<- | Hin]; [now left | right; auto].
Qed.

Lemma py_index_head {A} (x : A) (l : list A) : py_index (x :: l) 0 = Ok x.
Proof.
  unfold py_index. change (0 <? 0) with false. cbv iota.
  replace (Z.of_nat (length (x :: l)) <=? 0) with false
    by (symmetry; apply Z.leb_gt; cbn [length]; lia).
  reflexivity.
Qed.

(** What the walk collects is selected in order from what it walked; when
    it stops at a marker, from what came before the marker. *)
Lemma memory_walk_selects (max_memory : Z) (reversed_messages : list AIMessage) :
  forall temp,
  exists collected,
    fst (memory_walk max_memory reversed_messages temp) = (temp ++ collected)%list /\
    (snd (memory_walk max_memory reversed_messages temp) = false ->
     Subsequence collected reversed_messages) /\
    (snd (memory_walk max_memory reversed_messages temp) = true ->
     exists newer marker older,
       reversed_messages = (newer ++ marker :: older)%list /\
       is_topic_marker marker = true /\
       Subsequence collected newer).
Proof.
  induction reversed_messages as [| message older IH]; intros temp.
  - exists []. cbn. rewrite app_nil_r. repeat split; [constructor | discriminate].
  - cbn [memory_walk].
    assert (Hkeep : forall temp',
               temp' = (temp ++ [message])%list ->
               exists collected,
                 fst (memory_walk max_memory older temp') = (temp ++ collected)%list /\
                 (snd (memory_walk max_memory older temp') = false ->
                  Subsequence collected (message :: older)) /\
                 (snd (memory_walk max_memory older temp') = true ->
                  exists newer marker older',
                    message :: older = (newer ++ marker :: older')%list /\
                    is_topic_marker marker = true /\
                    Subsequence collected newer)).
    { intros temp' ->. destruct (IH (temp ++ [message])%list)
        as (collected & Hfst & Hplain & Hfound).
      exists (message :: collected). split.
      - rewrite Hfst, <- app_assoc. reflexivity.
      - split.
        + intros Hsnd. apply subsequence_take. auto.
        + intros Hsnd. destruct (Hfound Hsnd) as (newer & marker & older' & -> & Hm & Hs).
          exists (message :: newer), marker, older'.
          repeat split; [assumption | now apply subsequence_take]. }
    assert (Hdrop : exists collected,
               fst (memory_walk max_memory older temp) = (temp ++ collected)%list /\
               (snd (memory_walk max_memory older temp) = false ->
                Subsequence collected (message :: older)) /\
               (snd (memory_walk max_memory older temp) = true ->
                exists newer marker older',
                  message :: older = (newer ++ marker :: older')%list /\
                  is_topic_marker marker = true /\
                  Subsequence collected newer)).
    { destruct (IH temp) as (collected & Hfst & Hplain & Hfound).
      exists collected. split; [assumption |]. split.
      - intros Hsnd. apply subsequence_skip. auto.
      - intros Hsnd. destruct (Hfound Hsnd) as (newer & marker & older' & -> & Hm & Hs).
        exists (message :: newer), marker, older'.
        repeat split; [assumption | now apply subsequence_skip]. }
    destruct (max_memory <=? len temp).
    + destruct (is_sticky message); [now apply Hkeep | exact Hdrop].
    + destruct (is_topic_marker message) eqn:Hmarker; [| now apply Hkeep].
      exists []. cbn [fst snd]. rewrite app_nil_r. split; [reflexivity |].
      split; [discriminate |]. intros _.
      exists [], message, older. repeat split; [assumption | constructor].
Qed.

(** The memory is selected in order from the stored messages. *)
Lemma get_memory_messages_selects (self : AIConversation) :
  exists window,
    get_memory_messages self = Ok window /\
    Subsequence window (messages self).
Proof.
  unfold get_memory_messages.
  destruct (memory_walk_selects (max_memory_messages self) (rev (messages self)) [])
    as (collected & Hfst & Hplain & Hfound).
  destruct (memory_walk _ _ _) as [temp found]. cbn [fst snd app] in *.
  subst temp. destruct found.
  - destruct (Hfound eq_refl) as (newer & marker & older & Hrev & _ & Hsel).
    apply (f_equal (@rev AIMessage)) in Hrev.
    rewrite rev_involutive, rev_app_distr in Hrev. cbn [rev] in Hrev.
    destruct (rev older ++ [marker])%list as [| first rest] eqn:Hfront.
    { destruct (rev older); discriminate Hfront. }
    rewrite Hrev. cbn [app]. rewrite py_index_head. cbn [result_bind].
    eexists. split; [reflexivity |].
    rewrite rev_app_distr. cbn [rev app].
    apply subsequence_take.
    rewrite <- (app_nil_l (rev collected)).
    apply subsequence_app; [apply subsequence_nil_l |].
    now apply subsequence_rev.
  - eexists. split; [reflexivity |].
    rewrite <- (rev_involutive (messages self)).
    apply subsequence_rev. auto.
Qed.

(** X6: [get_memory_messages] never raises, and what it returns is
    selected from the stored messages without reordering or repeating
    a position: the memory is an order-preserving subsequence of the
    message list. *)
Theorem memory_is_subsequence (self : AIConversation) :
  exists window,
    get_memory_messages self = Ok window /\
    Subsequence window (messages self).
Proof.
  exact (get_memory_messages_selects self).
Qed.

(** The transport payload of the memory is always available. *)
Lemma memory_payload_never_raises (self : AIConversation) :
  exists payload,
    get_conversation_python_memory_payload self = Ok payload /\
    (length payload <= length (messages self))%nat.
Proof.
  destruct (get_memory_messages_selects self) as (window & Hwindow & Hsel).
  unfold get_conversation_python_memory_payload. rewrite Hwindow.
  eexists. split; [reflexivity |].
  rewrite length_map. now apply subsequence_length.
Qed.

(** ** Appending through [add_message] *)

Lemma py_index_from_end (l : list AIMessage) (k : Z) :
  0 < k <= len l ->
  exists x, py_index l (- k) = Ok x.
Proof.
  intros Hk. unfold py_index, len in *.
  replace (- k <? 0) with true by (symmetry; apply Z.ltb_lt; lia).
  cbv iota.
  replace (- k + Z.of_nat (length l) <? 0) with false
    by (symmetry; apply Z.ltb_ge; lia).
  replace (Z.of_nat (length l) <=? - k + Z.of_nat (length l)) with false
    by (symmetry; apply Z.leb_gt; lia).
  cbn [orb].
  destruct (nth_error l (Z.to_nat (- k + Z.of_nat (length l)))) as [x |] eqn:Hnth.
  - now exists x.
  - apply nth_error_None in Hnth. lia.
Qed.

Section Appending.

Variable tiktoken_len : string -> string -> nat.
Variable read_image_b64 : string -> option string.

Lemma appended_role_cases (role : string) :
  str_in role [AIC_ROLE_USER; AIC_ROLE_ASSISTANT; AIC_ROLE_INTERNAL] = true ->
  role = AIC_ROLE_USER \/ role = AIC_ROLE_ASSISTANT \/ role = AIC_ROLE_INTERNAL.
Proof.
  unfold str_in. cbn [existsb]. rewrite orb_false_r.
  intros H. apply orb_true_iff in H as [H | H].
  - left. now apply String.eqb_eq.
  - apply orb_true_iff in H as [H | H].
    + right. left. now apply String.eqb_eq.
    + right. right. now apply String.eqb_eq.
Qed.

Lemma system_role_cases (role : string) :
  str_in role [AIC_ROLE_SYSTEM; AIC_ROLE_DEVELOPER] = true ->
  role = AIC_ROLE_SYSTEM \/ role = AIC_ROLE_DEVELOPER.
Proof.
  unfold str_in. cbn [existsb]. rewrite orb_false_r.
  intros H. apply orb_true_iff in H as [H | H].
  - left. now apply String.eqb_eq.
  - right. now apply String.eqb_eq.
Qed.

(** The run of [add_message] for an appended role. *)
Lemma add_message_appends_message (msg_role msg_text msg_type : string)
    (image_url : option string) (sticky : bool)
    (self : AIConversation) (new_msg : AIMessage) :
  str_in msg_role [AIC_ROLE_USER; AIC_ROLE_ASSISTANT; AIC_ROLE_INTERNAL] = true ->
  AIMessage_new tiktoken_len read_image_b64
    msg_role msg_text msg_type image_url sticky = Ok new_msg ->
  0 <= max_memory_messages self ->
  exists self',
    add_message tiktoken_len read_image_b64
      msg_role msg_text msg_type image_url sticky self = (Ok tt, self') /\
    messages self' = (messages self ++ [new_msg])%list /\
    max_memory_messages self' = max_memory_messages self /\
    system_message_tokens self' = system_message_tokens self /\
    total_tokens self' =
      total_tokens self
      + (if (msg_role =? AIC_ROLE_INTERNAL)%string then 0
         else get_estimated_tokens new_msg).
Proof.
  intros Hrole Hnew Hwindow.
  assert (Hevicted : max_memory_messages self + 2 < len (messages self) ->
            exists evicted,
              py_index (messages self) (- max_memory_messages self - 1) = Ok evicted).
  { intros Hlong.
    replace (- max_memory_messages self - 1)
      with (- (max_memory_messages self + 1)) by lia.
    apply py_index_from_end. lia. }
  apply appended_role_cases in Hrole.
  unfold add_message, bind, lift, get, modify, ret.
  destruct Hrole as [-> | [-> | ->]]; eval_string_tests; rewrite Hnew.
  - destruct (max_memory_messages self + 2 <? len (messages self)) eqn:Hlong.
    + apply Z.ltb_lt in Hlong. destruct (Hevicted Hlong) as (evicted & ->).
      eexists. split; [reflexivity |]. cbn. repeat split; lia.
    + eexists. split; [reflexivity |]. cbn. repeat split; lia.
  - destruct (max_memory_messages self + 2 <? len (messages self)) eqn:Hlong.
    + apply Z.ltb_lt in Hlong. destruct (Hevicted Hlong) as (evicted & ->).
      eexists. split; [reflexivity |]. cbn. repeat split; lia.
    + eexists. split; [reflexivity |]. cbn. repeat split; lia.
  - rewrite andb_false_r.
    eexists. split; [reflexivity |]. cbn. repeat split; lia.
Qed.

(** X7: with a window that is not negative, [add_message] with role
    user, assistant or internal and arguments the constructor accepts
    always succeeds: it appends exactly the constructed message, keeps
    the window size and the system counter, and adds the estimate of the
    message to [total_tokens] unless the role is internal. *)
Theorem add_message_appends (msg_role msg_text msg_type : string)
    (image_url : option string) (sticky : bool)
    (self : AIConversation) (new_msg : AIMessage) :
  str_in msg_role [AIC_ROLE_USER; AIC_ROLE_ASSISTANT; AIC_ROLE_INTERNAL] = true ->
  AIMessage_new tiktoken_len read_image_b64
    msg_role msg_text msg_type image_url sticky = Ok new_msg ->
  0 <= max_memory_messages self ->
  exists self',
    add_message tiktoken_len read_image_b64
      msg_role msg_text msg_type image_url sticky self = (Ok tt, self') /\
    messages self' = (messages self ++ [new_msg])%list /\
    max_memory_messages self' = max_memory_messages self /\
    system_message_tokens self' = system_message_tokens self /\
    total_tokens self' =
      total_tokens self
      + (if (msg_role =? AIC_ROLE_INTERNAL)%string then 0
         else get_estimated_tokens new_msg).
Proof.
  exact (add_message_appends_message msg_role msg_text msg_type image_url sticky self new_msg).
Qed.

End Appending.

(** ** Topic markers through [new_topic] *)

Section Topics.

Variable tiktoken_len : string -> string -> nat.
Variable read_image_b64 : string -> option string.

Lemma new_topic_run (self : AIConversation) :
  new_topic tiktoken_len read_image_b64 self =
    (Ok tt, set_messages (messages self ++ [topic_marker_message]) self).
Proof.
  unfold new_topic, add_message, bind, lift, get, modify, ret.
  eval_string_tests.
  change (AIMessage_new tiktoken_len read_image_b64 AIC_ROLE_INTERNAL
            AIC_COMMAND_NEWTOPIC AIC_TYPE_INTERNAL None false)
    with (Ok topic_marker_message).
  rewrite andb_false_r. destruct self. reflexivity.
Qed.

(** X8: [new_topic()] never fails and changes no counter; right after
    it, with a window of at least one message, the memory is the system
    message alone, whatever was stored before. *)
Theorem memory_right_after_new_topic (self : AIConversation)
    (system_message : AIMessage) (others : list AIMessage) :
  messages self = system_message :: others ->
  0 < max_memory_messages self ->
  exists self',
    new_topic tiktoken_len read_image_b64 self = (Ok tt, self') /\
    messages self' = (messages self ++ [topic_marker_message])%list /\
    same_counters self' self /\
    get_memory_messages self' = Ok [system_message].
Proof.
  intros Hmsgs Hwindow. rewrite new_topic_run.
  eexists. split; [reflexivity |].
  split; [reflexivity |].
  split; [unfold same_counters; now repeat split |].
  apply (memory_after_marker_in_window _ system_message topic_marker_message
           others []).
  - cbn [messages set_messages]. rewrite Hmsgs. reflexivity.
  - reflexivity.
  - reflexivity.
  - cbn [max_memory_messages set_messages]. change (len []) with 0. lia.
Qed.

End Topics.

(** Witness of [memory_right_after_new_topic] on the fresh conversation. *)
Lemma memory_right_after_new_topic_witness :
  exists self',
    new_topic char_tokenizer no_local_files fresh_conversation = (Ok tt, self') /\
    get_memory_messages self' =
      Ok [sticky_system_message char_tokenizer AIC_DEFAULT_SYSTEM_PROMPT].
Proof.
  destruct (memory_right_after_new_topic char_tokenizer no_local_files
              fresh_conversation
              (sticky_system_message char_tokenizer AIC_DEFAULT_SYSTEM_PROMPT) []
              eq_refl eq_refl)
    as (self' & Hrun & _ & _ & Hmemory).
  exists self'. split; assumption.
Defined.

(** ** Saving and loading *)

Section Loading.

Variable tiktoken_len : string -> string -> nat.
Variable read_image_b64 : string -> option string.

(** The constructor raises [ValueError] only. *)
Lemma AIMessage_new_value_error (role content_text msg_type : string)
    (image_url : option string) (sticky : bool) (e : exn) :
  AIMessage_new tiktoken_len read_image_b64
    role content_text msg_type image_url sticky = Raise e ->
  exists reason, e = ValueError reason.
Proof.
  intros Hraise.
  pose proof (AIMessage_init_constructible tiktoken_len read_image_b64
                role content_text msg_type image_url sticky) as Hcases.
  unfold AIMessage_new in Hraise. rewrite Hraise in Hcases.
  destruct e as [reason | reason | reason]; [now exists reason | easy | easy].
Qed.

(** Every run of [add_message] keeps the window size; with a window that
    is not negative it raises [ValueError] or nothing. *)
Lemma add_message_run_window (msg_role msg_text msg_type : string)
    (image_url : option string) (sticky : bool)
    (self : AIConversation) (run : result unit * AIConversation) :
  add_message tiktoken_len read_image_b64
    msg_role msg_text msg_type image_url sticky self = run ->
  max_memory_messages (final run) = max_memory_messages self /\
  (0 <= max_memory_messages self ->
   forall e, outcome run = Raise e -> exists reason, e = ValueError reason).
Proof.
  unfold add_message, outcome, final.
  destruct (negb (str_in msg_role _)).
  { intros <-. split; [reflexivity |]. intros _ e [= <-]. eauto. }
  unfold bind, lift, get, modify, ret.
  destruct (AIMessage_new _ _ _ _ _ _ _) as [new_msg | e0] eqn:Hnew.
  2:{ intros <-. split; [reflexivity |]. intros _ e [= <-].
      exact (AIMessage_new_value_error _ _ _ _ _ _ Hnew). }
  destruct (str_in msg_role [AIC_ROLE_SYSTEM; AIC_ROLE_DEVELOPER]).
  - destruct (1 <=? len (messages self)) eqn:Hone.
    + destruct (messages self) as [| first rest] eqn:Hmsgs; [discriminate Hone |].
      rewrite py_index_head.
      destruct (str_in msg_role [AIC_ROLE_USER; AIC_ROLE_ASSISTANT; AIC_ROLE_INTERNAL]),
        (msg_role =? AIC_ROLE_USER)%string,
        (msg_role =? AIC_ROLE_ASSISTANT)%string,
        (msg_role =? AIC_ROLE_SYSTEM)%string;
        intros <-; (split; [reflexivity | intros _ e He; discriminate He]).
    + destruct (str_in msg_role [AIC_ROLE_USER; AIC_ROLE_ASSISTANT; AIC_ROLE_INTERNAL]),
        (msg_role =? AIC_ROLE_USER)%string,
        (msg_role =? AIC_ROLE_ASSISTANT)%string,
        (msg_role =? AIC_ROLE_SYSTEM)%string;
        intros <-; (split; [reflexivity | intros _ e He; discriminate He]).
  - destruct ((max_memory_messages self + 2 <? len (messages self))
              && negb (str_in msg_role [AIC_ROLE_INTERNAL]))%bool eqn:Hevict.
    + destruct (py_index (messages self) _) as [evicted | e0] eqn:Hindex.
      * destruct (str_in msg_role [AIC_ROLE_USER; AIC_ROLE_ASSISTANT; AIC_ROLE_INTERNAL]),
        (msg_role =? AIC_ROLE_USER)%string,
          (msg_role =? AIC_ROLE_ASSISTANT)%string,
          (msg_role =? AIC_ROLE_SYSTEM)%string;
          intros <-; (split; [reflexivity | intros _ e He; discriminate He]).
      * intros <-. split; [reflexivity |]. intros Hwindow e _.
        apply andb_true_iff in Hevict as [Hlong _]. apply Z.ltb_lt in Hlong.
        destruct (py_index_from_end (messages self) (max_memory_messages self + 1))
          as (x & Hx); [lia |].
        replace (- (max_memory_messages self + 1))
          with (- max_memory_messages self - 1) in Hx by lia.
        rewrite Hx in Hindex. discriminate Hindex.
    + destruct (str_in msg_role [AIC_ROLE_USER; AIC_ROLE_ASSISTANT; AIC_ROLE_INTERNAL]),
        (msg_role =? AIC_ROLE_USER)%string,
        (msg_role =? AIC_ROLE_ASSISTANT)%string,
        (msg_role =? AIC_ROLE_SYSTEM)%string;
        intros <-; (split; [reflexivity | intros _ e He; discriminate He]).
Qed.

Lemma load_lines_total (lines : list message_dict) :
  forall self,
    0 <= max_memory_messages self ->
    exists self',
      load_lines tiktoken_len read_image_b64 lines self = (Ok tt, self') /\
      max_memory_messages self' = max_memory_messages self.
Proof.
  induction lines as [| message rest IH]; intros self Hwindow.
  - eexists. split; reflexivity.
  - cbn [load_lines].
    destruct (add_message_run_window
                (d_role message) (d_content_text message) (d_msg_type message)
                (d_content_image_url message) (d_sticky message) self _ eq_refl)
      as [Hkeep Honly].
    destruct (add_message _ _ _ _ _ _ _ self) as [[[] | e] self'];
      cbn [final outcome fst snd] in *.
    + destruct (IH self') as (self'' & Hrun & HM); [lia |].
      exists self''. split; [exact Hrun | lia].
    + destruct (Honly Hwindow e eq_refl) as (reason & ->).
      destruct (IH self') as (self'' & Hrun & HM); [lia |].
      exists self''. split; [exact Hrun | lia].
Qed.

(** X9: with a window that is not negative, [load_conversation] never
    raises, whatever the records: each line is added or skipped. *)
Theorem load_conversation_total (lines : list message_dict)
    (start : AIConversation) :
  0 <= max_memory_messages start ->
  exists self',
    load_conversation tiktoken_len read_image_b64 lines start = (Ok tt, self') /\
    max_memory_messages self' = max_memory_messages start.
Proof.
  intros Hwindow. unfold load_conversation, bind, restart_internal, modify.
  apply (load_lines_total lines
           (mkConversation [] (max_memory_messages start) 0 0 0 0 0 0 0 0 0)).
  exact Hwindow.
Qed.

(** X10: a record the constructor refuses (unknown role, empty text,
    missing image URL, unsupported type) is skipped wherever it stands:
    loading the file gives what loading it without that line gives. *)
Theorem load_skips_refused_record (before after : list message_dict)
    (refused : message_dict) (start : AIConversation) :
  constructible (d_role refused) (d_content_text refused)
                (d_msg_type refused) (d_content_image_url refused) = false ->
  load_conversation tiktoken_len read_image_b64
    (before ++ refused :: after) start =
  load_conversation tiktoken_len read_image_b64 (before ++ after) start.
Proof.
  intros Hrefused. unfold load_conversation, bind, restart_internal, modify.
  generalize (mkConversation [] (max_memory_messages start) 0 0 0 0 0 0 0 0 0).
  assert (Hskip : forall self,
             load_lines tiktoken_len read_image_b64 (refused :: after) self =
             load_lines tiktoken_len read_image_b64 after self).
  { intros self. cbn [load_lines]. unfold add_message.
    pose proof (AIMessage_init_constructible tiktoken_len read_image_b64
                  (d_role refused) (d_content_text refused) (d_msg_type refused)
                  (d_content_image_url refused) (d_sticky refused)) as Hcases.
    destruct (negb (str_in (d_role refused) _)); [reflexivity |].
    unfold bind, lift, AIMessage_new.
    destruct (AIMessage_init _ _ _ _ _ _ _) as [new_msg | e].
    - congruence.
    - destruct e; easy. }
  induction before as [| line before IH]; intros self.
  - apply Hskip.
  - cbn [app load_lines].
    destruct (add_message _ _ _ _ _ _ _ self) as [[[] | e] self'].
    + apply IH.
    + destruct e; [apply IH | reflexivity | reflexivity].
Qed.

End Loading.

(** Witness of [load_conversation_total]: a file whose second line has
    an unknown role loads into the fresh conversation. *)
Lemma load_conversation_total_witness :
  exists self',
    load_conversation char_tokenizer no_local_files
      [mkDict AIC_ROLE_SYSTEM AIC_TYPE_TEXT "S" None true;
       mkDict "robot" AIC_TYPE_TEXT "hi" None false;
       mkDict AIC_ROLE_USER AIC_TYPE_TEXT "A" None false]
      fresh_conversation = (Ok tt, self') /\
    max_memory_messages self' = 2.
Proof.
  apply (load_conversation_total char_tokenizer no_local_files _ fresh_conversation).
  vm_compute. discriminate.
Defined.

Section RoundTrip.

Variable tiktoken_len : string -> string -> nat.
Variable read_image_b64 : string -> option string.

Lemma load_lines_appends (stored : list AIMessage) :
  Forall (rebuilds tiktoken_len read_image_b64) stored ->
  forallb is_appended_role stored = true ->
  forall self,
    0 <= max_memory_messages self ->
    exists self',
      load_lines tiktoken_len read_image_b64 (map AIMessage_to_dict stored) self
        = (Ok tt, self') /\
      messages self' = (messages self ++ stored)%list /\
      max_memory_messages self' = max_memory_messages self.
Proof.
  induction stored as [| message rest IH]; intros Hrebuilds Hroles self Hwindow.
  - eexists. split; [reflexivity |]. now rewrite app_nil_r.
  - inversion Hrebuilds as [| ? ? Hmessage Hrest]; subst.
    cbn [forallb] in Hroles. apply andb_true_iff in Hroles as [Hrole Hroles].
    cbn [map load_lines].
    destruct (add_message_appends_message tiktoken_len read_image_b64
                (get_role message) (get_text message) (get_type message)
                (get_url message) (is_sticky message) self message
                Hrole Hmessage Hwindow)
      as (self' & Hrun & Hmsgs & HM & _).
    change (d_role (AIMessage_to_dict message)) with (get_role message).
    change (d_content_text (AIMessage_to_dict message)) with (get_text message).
    change (d_msg_type (AIMessage_to_dict message)) with (get_type message).
    change (d_content_image_url (AIMessage_to_dict message)) with (get_url message).
    change (d_sticky (AIMessage_to_dict message)) with (is_sticky message).
    rewrite Hrun.
    destruct (IH Hrest Hroles self') as (self'' & Hrun' & Hmsgs' & HM'); [lia |].
    exists self''. split; [exact Hrun' |]. split; [| lia].
    rewrite Hmsgs', Hmsgs, <- app_assoc. reflexivity.
Qed.

(** X11: saving a conversation and loading the lines gives back its
    message list, message for message, when index 0 holds a system or
    developer message, every later message has role user, assistant or
    internal, every message is as the constructor builds it, and the
    window of the loading conversation is not negative. *)
Theorem save_load_round_trip (self start : AIConversation)
    (system_message : AIMessage) (others : list AIMessage) :
  messages self = system_message :: others ->
  is_system_role system_message = true ->
  forallb is_appended_role others = true ->
  Forall (rebuilds tiktoken_len read_image_b64) (messages self) ->
  0 <= max_memory_messages start ->
  exists self',
    load_conversation tiktoken_len read_image_b64 (save_conversation self) start
      = (Ok tt, self') /\
    messages self' = messages self /\
    max_memory_messages self' = max_memory_messages start.
Proof.
  intros Hmsgs Hsystem Hroles Hrebuilds Hwindow.
  rewrite Hmsgs in Hrebuilds.
  inversion Hrebuilds as [| ? ? Hfirst Hrest]; subst.
  unfold load_conversation, save_conversation, bind, restart_internal, modify.
  rewrite Hmsgs. cbn [map load_lines].
  set (empty := mkConversation [] (max_memory_messages start) 0 0 0 0 0 0 0 0 0).
  change (d_role (AIMessage_to_dict system_message)) with (get_role system_message).
  change (d_content_text (AIMessage_to_dict system_message))
    with (get_text system_message).
  change (d_msg_type (AIMessage_to_dict system_message))
    with (get_type system_message).
  change (d_content_image_url (AIMessage_to_dict system_message))
    with (get_url system_message).
  change (d_sticky (AIMessage_to_dict system_message))
    with (is_sticky system_message).
  destruct (add_message_system_head tiktoken_len read_image_b64
              (get_role system_message) (get_text system_message)
              (get_type system_message) (get_url system_message)
              (is_sticky system_message) empty system_message
              (system_role_cases _ Hsystem) Hfirst)
    as (loaded & Hrun & Hloaded).
  pose proof (add_message_run_window tiktoken_len read_image_b64
                _ _ _ _ _ empty _ Hrun) as [HM _].
  cbn [final snd] in HM. rewrite Hrun.
  destruct (load_lines_appends others Hrest Hroles loaded) as
    (self' & Hrun' & Hmsgs' & HM').
  { rewrite HM. exact Hwindow. }
  exists self'. split; [exact Hrun' |]. split.
  - rewrite Hmsgs', Hloaded. reflexivity.
  - rewrite HM', HM. reflexivity.
Qed.

End RoundTrip.

(** Witness of [save_load_round_trip]: the conversation with user
    messages "A" and "B" is read back into the fresh conversation. *)
Lemma save_load_round_trip_witness :
  exists self',
    load_conversation char_tokenizer no_local_files
      (save_conversation two_user_messages_conversation) fresh_conversation
      = (Ok tt, self') /\
    messages self' = messages two_user_messages_conversation /\
    max_memory_messages self' = max_memory_messages fresh_conversation.
Proof.
  apply (save_load_round_trip char_tokenizer no_local_files
           two_user_messages_conversation fresh_conversation
           (sticky_system_message char_tokenizer AIC_DEFAULT_SYSTEM_PROMPT)
           [user_text_message char_tokenizer "A";
            user_text_message char_tokenizer "B"]).
  - vm_compute. reflexivity.
  - vm_compute. reflexivity.
  - vm_compute. reflexivity.
  - repeat constructor; vm_compute; reflexivity.
  - vm_compute. discriminate.
Defined.

(** ** Counting messages *)

Lemma messages_count_loop_spec (memory_only count_sticky count_internal : bool)
    (max_memory : Z) (system_message : AIMessage) (newer : list AIMessage) :
  is_system_role system_message = true ->
  forallb (fun message => negb (is_system_role message)) newer = true ->
  forall result sticky_counted internal_counted,
    count_final
      (messages_count_loop memory_only count_sticky count_internal max_memory
         (newer ++ [system_message]) result sticky_counted internal_counted false)
    = 1 + (if memory_only
           then Z.max result
                  (Z.min (result
                          + len (filter (counted_message count_sticky count_internal)
                                        newer))
                         max_memory)
           else result
                + len (filter (counted_message count_sticky count_internal) newer)).
Proof.
  intros Hsystem. unfold is_system_role in Hsystem.
  induction newer as [| message newer IH]; intros Hroles result sc ic.
  - cbn [app messages_count_loop filter]. change (len []) with 0.
    rewrite orb_false_r.
    destruct (memory_only && (max_memory <=? result))%bool eqn:Hbreak.
    + apply andb_true_iff in Hbreak as [-> Hfull]. apply Z.leb_le in Hfull.
      unfold count_final. cbn [fst snd negb]. lia.
    + assert (Hformula :
                1 + (if memory_only
                     then Z.max result (Z.min (result + 0) max_memory)
                     else result + 0) = result + 1).
      { destruct memory_only; [| lia]. cbn [andb] in Hbreak.
        apply Z.leb_gt in Hbreak. lia. }
      rewrite Hformula.
      destruct (is_internal system_message && negb count_internal)%bool;
        [reflexivity |].
      destruct (is_sticky system_message && negb count_sticky)%bool;
        [reflexivity |].
      rewrite Hsystem. reflexivity.
  - cbn [forallb] in Hroles. apply andb_true_iff in Hroles as [Hrole Hroles].
    apply negb_true_iff in Hrole. unfold is_system_role in Hrole.
    cbn [app messages_count_loop filter]. rewrite orb_false_r.
    pose proof (len_nonneg (filter (counted_message count_sticky count_internal)
                                   newer)) as Hnonneg.
    assert (Hcounted :
              counted_message count_sticky count_internal message
              = (negb (is_internal message && negb count_internal)
                 && negb (is_sticky message && negb count_sticky))%bool)
      by reflexivity.
    rewrite Hcounted. clear Hcounted.
    destruct (memory_only && (max_memory <=? result))%bool eqn:Hbreak.
    + apply andb_true_iff in Hbreak as [-> Hfull]. apply Z.leb_le in Hfull.
      unfold count_final. cbn [fst snd negb].
      pose proof (len_nonneg
                    (if (negb (is_internal message && negb count_internal)
                         && negb (is_sticky message && negb count_sticky))%bool
                     then message
                          :: filter (counted_message count_sticky count_internal)
                               newer
                     else filter (counted_message count_sticky count_internal)
                            newer)).
      lia.
    + destruct (is_internal message && negb count_internal)%bool.
      { cbn [negb andb]. apply IH. assumption. }
      destruct (is_sticky message && negb count_sticky)%bool.
      { cbn [negb andb]. apply IH. assumption. }
      cbn [negb andb]. rewrite Hrole, IH by assumption.
      change (len (message :: ?l)) with (len ([message] ++ l)).
      rewrite len_app. change (len [message]) with 1.
      destruct memory_only; [| lia]. cbn [andb] in Hbreak.
      apply Z.leb_gt in Hbreak. lia.
Qed.

(** X12: when index 0 holds the only system or developer message,
    [get_messages_count] is one more than the number of later messages
    the flags let through (internal ones only with [count_internal],
    sticky ones only with [count_sticky]); with [memory_only] that number
    is capped at the window size.  The system message always counts for
    one, whether it is sticky, internal or neither. *)
Theorem get_messages_count_value (memory_only count_sticky count_internal : bool)
    (self : AIConversation) (system_message : AIMessage) (others : list AIMessage) :
  messages self = system_message :: others ->
  is_system_role system_message = true ->
  forallb (fun message => negb (is_system_role message)) others = true ->
  get_messages_count memory_only count_sticky count_internal self =
    1 + (if memory_only
         then Z.min (len (filter (counted_message count_sticky count_internal) others))
                    (Z.max (max_memory_messages self) 0)
         else len (filter (counted_message count_sticky count_internal) others)).
Proof.
  intros Hmsgs Hsystem Hroles. unfold get_messages_count. rewrite Hmsgs.
  cbn [rev].
  assert (Hrev : forallb (fun message => negb (is_system_role message)) (rev others)
                 = true).
  { rewrite forallb_forall in *. intros x Hx. apply Hroles. now apply in_rev. }
  pose proof (messages_count_loop_spec memory_only count_sticky count_internal
                (max_memory_messages self) system_message (rev others)
                Hsystem Hrev 0 0 0) as Hloop.
  unfold count_final in Hloop.
  destruct (messages_count_loop _ _ _ _ _ _ _ _ _) as [result reached].
  cbn [fst snd] in Hloop. rewrite Hloop.
  assert (Hlen : len (filter (counted_message count_sticky count_internal) (rev others))
                 = len (filter (counted_message count_sticky count_internal) others)).
  { unfold len. now rewrite filter_rev, length_rev. }
  rewrite Hlen.
  pose proof (len_nonneg (filter (counted_message count_sticky count_internal) others)).
  destruct memory_only; lia.
Qed.

(** Witness of [get_messages_count_value]: with a window of one message
    the prompt, "A" and "B" count for two in memory and three in all. *)
Lemma get_messages_count_value_witness :
  get_messages_count true false false two_user_messages_conversation = 2 /\
  get_messages_count false false false two_user_messages_conversation = 3.
Proof.
  split.
  - refine (eq_trans
              (get_messages_count_value true false false
                 two_user_messages_conversation
                 (sticky_system_message char_tokenizer AIC_DEFAULT_SYSTEM_PROMPT)
                 [user_text_message char_tokenizer "A";
                  user_text_message char_tokenizer "B"] _ _ _) _);
      vm_compute; reflexivity.
  - refine (eq_trans
              (get_messages_count_value false false false
                 two_user_messages_conversation
                 (sticky_system_message char_tokenizer AIC_DEFAULT_SYSTEM_PROMPT)
                 [user_text_message char_tokenizer "A";
                  user_text_message char_tokenizer "B"] _ _ _) _);
      vm_compute; reflexivity.
Defined.

(** X13: every message is sticky or not: the two counts add up to the
    number of messages. *)
Theorem sticky_counts_add_up (self : AIConversation) :
  count_sticky_messages self + count_non_sticky_messages self
  = count_all_messages self.
Proof.
  unfold count_sticky_messages, count_non_sticky_messages, count_all_messages.
  assert (Hgen : forall l a b,
             fold_left (fun count message =>
                          if is_sticky message then count + 1 else count) l a
             + fold_left (fun count message =>
                            if negb (is_sticky message) then count + 1 else count) l b
             = a + b + len l).
  { induction l as [| message l IH]; intros a b.
    - cbn. change (len []) with 0. lia.
    - cbn [fold_left]. rewrite IH.
      change (len (message :: l)) with (len ([message] ++ l)).
      rewrite len_app. change (len [message]) with 1.
      destruct (is_sticky message); cbn [negb]; lia. }
  rewrite Hgen. lia.
Qed.

(** ** Removing messages *)

Lemma py_slice_to_negative (l : list AIMessage) (k : Z) :
  0 < k ->
  py_slice_to l (- k) = firstn (Z.to_nat (len l - k)) l.
Proof.
  intros Hk. unfold py_slice_to, len.
  replace (- k <? 0) with true by (symmetry; apply Z.ltb_lt; lia).
  cbv iota. f_equal. lia.
Qed.

Lemma hd_error_firstn (l : list AIMessage) (n : nat) :
  (0 < n)%nat -> hd_error (firstn n l) = hd_error l.
Proof. intros Hn. destruct n; [lia |]. now destruct l. Qed.

(** X14: [remove_messages(n)] with sticky messages included refuses a
    negative [n] without touching the conversation, and otherwise cuts
    the list to its first [max(1, len - n)] messages: it never fails,
    removes nothing for [n = 0] and never removes index 0. *)
Theorem remove_messages_truncates (remove_n_messages : Z) (self : AIConversation) :
  (remove_n_messages < 0 ->
   remove_messages remove_n_messages true self =
     (Raise (ValueError "You cannot remove a negative number of messages"), self)) /\
  (0 <= remove_n_messages ->
   exists self',
     remove_messages remove_n_messages true self = (Ok tt, self') /\
     messages self' =
       firstn (Z.to_nat (Z.max 1 (len (messages self) - remove_n_messages)))
              (messages self) /\
     hd_error (messages self') = hd_error (messages self) /\
     max_memory_messages self' = max_memory_messages self).
Proof.
  unfold remove_messages. split.
  - intros Hneg. apply Z.ltb_lt in Hneg. now rewrite Hneg.
  - intros Hn.
    replace (remove_n_messages <? 0) with false by (symmetry; apply Z.ltb_ge; lia).
    unfold bind at 1. unfold get at 1.
    set (k := Z.min remove_n_messages (len (messages self) - 1)).
    pose proof (len_nonneg (messages self)) as Hlen.
    destruct (0 <? k) eqn:Hk.
    + apply Z.ltb_lt in Hk.
      unfold bind, modify, recalculate_tokens.
      eexists. split; [reflexivity |].
      destruct (recalculate_tokens_messages
                  (set_messages (py_slice_to (messages self) (- k)) self))
        as [Hm HM].
      rewrite Hm, HM. cbn [messages max_memory_messages set_messages].
      rewrite (py_slice_to_negative _ _ Hk).
      replace (Z.to_nat (len (messages self) - k))
        with (Z.to_nat (Z.max 1 (len (messages self) - remove_n_messages)))
        by (unfold k; lia).
      repeat split. apply hd_error_firstn. lia.
    + apply Z.ltb_ge in Hk. unfold ret.
      exists self. split; [reflexivity |].
      assert (Hall : firstn (Z.to_nat (Z.max 1 (len (messages self)
                                                - remove_n_messages)))
                            (messages self) = messages self).
      { apply firstn_all2. unfold k, len in *. lia. }
      rewrite Hall. now repeat split.
Qed.

(** Witness of [remove_messages_truncates]: removing one message from
    the prompt, "A", "B" leaves the prompt and "A". *)
Lemma remove_messages_truncates_witness :
  exists self',
    remove_messages 1 true two_user_messages_conversation = (Ok tt, self') /\
    messages self' =
      [sticky_system_message char_tokenizer AIC_DEFAULT_SYSTEM_PROMPT;
       user_text_message char_tokenizer "A"].
Proof.
  destruct (remove_messages_truncates 1 two_user_messages_conversation)
    as [_ Hcut].
  destruct Hcut as (self' & Hrun & Hmsgs & _); [lia |].
  exists self'. split; [exact Hrun |]. rewrite Hmsgs. vm_compute. reflexivity.
Defined.

Lemma py_index_position (l : list AIMessage) (n : nat) :
  (n < length l)%nat ->
  exists x, nth_error l n = Some x /\ py_index l (Z.of_nat n) = Ok x.
Proof.
  intros Hn. unfold py_index.
  replace (Z.of_nat n <? 0) with false by (symmetry; apply Z.ltb_ge; lia).
  cbv iota.
  replace (Z.of_nat n <? 0) with false by (symmetry; apply Z.ltb_ge; lia).
  replace (Z.of_nat (length l) <=? Z.of_nat n) with false
    by (symmetry; apply Z.leb_gt; lia).
  cbn [orb]. rewrite Nat2Z.id.
  destruct (nth_error l n) as [x |] eqn:Hnth.
  - now exists x.
  - apply nth_error_None in Hnth. lia.
Qed.

Lemma py_index_last (l : list AIMessage) :
  l <> [] ->
  exists init x,
    l = (init ++ [x])%list /\
    py_index l (-1) = Ok x /\
    py_slice_to l (-1) = init.
Proof.
  intros Hl. destruct (exists_last Hl) as (init & x & ->).
  exists init, x. split; [reflexivity |]. split.
  - unfold py_index. change (-1 <? 0) with true. cbv iota.
    rewrite length_app. cbn [length].
    replace (-1 + Z.of_nat (length init + 1) <? 0) with false
      by (symmetry; apply Z.ltb_ge; lia).
    replace (Z.of_nat (length init + 1) <=? -1 + Z.of_nat (length init + 1))
      with false by (symmetry; apply Z.leb_gt; lia).
    cbn [orb].
    replace (Z.to_nat (-1 + Z.of_nat (length init + 1))) with (length init) by lia.
    rewrite nth_error_app2 by lia. now rewrite Nat.sub_diag.
  - rewrite (py_slice_to_negative _ 1) by lia. unfold len.
    rewrite length_app. cbn [length].
    replace (Z.to_nat (Z.of_nat (length init + 1) - 1)) with (length init + 0)%nat
      by lia.
    rewrite firstn_app_2. cbn [firstn]. now rewrite app_nil_r.
Qed.

Lemma subsequence_trans {A} (a b c : list A) :
  Subsequence a b -> Subsequence b c -> Subsequence a c.
Proof.
  intros Hab Hbc. revert a Hab.
  induction Hbc; intros a Hab.
  - exact Hab.
  - apply subsequence_skip. auto.
  - inversion Hab; subst.
    + apply subsequence_skip. auto.
    + apply subsequence_take. auto.
Qed.

(** The first loop deletes non-sticky messages behind index 0 only. *)
Lemma remove_non_sticky_loop_keeps (i : nat) :
  forall (removed_count msgs_to_remove : Z) (self : AIConversation),
    (i < length (messages self))%nat ->
    exists self',
      remove_non_sticky_loop i removed_count msgs_to_remove self = (Ok tt, self') /\
      filter is_sticky (messages self') = filter is_sticky (messages self) /\
      hd_error (messages self') = hd_error (messages self) /\
      Subsequence (messages self') (messages self) /\
      max_memory_messages self' = max_memory_messages self.
Proof.
  induction i as [| i IH]; intros removed_count msgs_to_remove self Hi.
  - exists self. repeat split. apply subsequence_refl.
  - cbn [remove_non_sticky_loop]. unfold bind at 1. unfold get at 1.
    destruct (py_index_position _ _ Hi) as (x & Hnth & Hindex).
    unfold bind at 1. unfold lift at 1. rewrite Hindex.
    destruct (is_sticky x) eqn:Hsticky; cbn [negb].
    + apply IH. lia.
    + pose proof (firstn_skipn_middle _ _ Hnth) as Hsplit.
      set (kept := (firstn (S i) (messages self)
                    ++ skipn (S (S i)) (messages self))%list) in *.
      assert (Hfilter : filter is_sticky kept = filter is_sticky (messages self)).
      { rewrite <- Hsplit. unfold kept. rewrite !filter_app.
        cbn [filter]. now rewrite Hsticky. }
      assert (Hhead : hd_error kept = hd_error (messages self)).
      { unfold kept. destruct (messages self); reflexivity. }
      assert (Hsub : Subsequence kept (messages self)).
      { rewrite <- Hsplit. unfold kept.
        apply subsequence_app; [apply subsequence_refl |].
        apply subsequence_skip, subsequence_refl. }
      assert (Hlength : (i < length kept)%nat).
      { unfold kept. rewrite length_app, length_firstn, length_skipn. lia. }
      unfold bind at 1. unfold modify at 1. unfold py_del. fold kept.
      destruct (removed_count + 1 =? msgs_to_remove).
      * eexists. split; [reflexivity |].
        cbn [messages set_messages max_memory_messages].
        now repeat split.
      * destruct (IH (removed_count + 1) msgs_to_remove (set_messages kept self))
          as (self' & Hrun & Hf & Hh & Hs & HM); [exact Hlength |].
        cbn [messages set_messages max_memory_messages] in *.
        exists self'. split; [exact Hrun |].
        repeat split; try congruence.
        exact (subsequence_trans _ _ _ Hs Hsub).
Qed.

(** The second loop strips non-sticky messages from the tail and stops
    at the sticky message at index 0 at the latest. *)
Lemma remove_tail_loop_keeps (iterations : nat) :
  forall (self : AIConversation) (system_message : AIMessage)
         (others : list AIMessage),
    messages self = system_message :: others ->
    is_sticky system_message = true ->
    exists self',
      remove_tail_loop iterations self = (Ok tt, self') /\
      filter is_sticky (messages self') = filter is_sticky (messages self) /\
      hd_error (messages self') = Some system_message /\
      Subsequence (messages self') (messages self) /\
      max_memory_messages self' = max_memory_messages self.
Proof.
  induction iterations as [| iterations IH];
    intros self system_message others Hmsgs Hsystem.
  - exists self. rewrite Hmsgs. repeat split. apply subsequence_refl.
  - cbn [remove_tail_loop]. unfold bind at 1. unfold get at 1.
    destruct (py_index_last (messages self)) as (init & x & Hsplit & Hindex & Hslice).
    { rewrite Hmsgs. discriminate. }
    unfold bind at 1. unfold lift at 1. rewrite Hindex.
    destruct (is_sticky x) eqn:Hsticky; cbn [negb].
    + exists self. rewrite Hmsgs. repeat split. apply subsequence_refl.
    + unfold bind at 1. unfold modify at 1. rewrite Hslice.
      destruct init as [| first init].
      { rewrite Hmsgs in Hsplit. cbn [app] in Hsplit.
        injection Hsplit as -> _. congruence. }
      assert (Hfirst : first = system_message).
      { rewrite Hmsgs in Hsplit. cbn [app] in Hsplit. now injection Hsplit. }
      subst first.
      destruct (IH (set_messages (system_message :: init) self)
                   system_message init eq_refl Hsystem)
        as (self' & Hrun & Hf & Hh & Hs & HM).
      cbn [messages set_messages max_memory_messages] in *.
      exists self'. split; [exact Hrun |].
      split.
      { rewrite Hf, Hsplit, filter_app. cbn [filter]. rewrite Hsticky.
        now rewrite app_nil_r. }
      split; [exact Hh |]. split; [| exact HM].
      apply (subsequence_trans _ _ _ Hs). rewrite Hsplit.
      rewrite <- (app_nil_r (system_message :: init)) at 1.
      apply subsequence_app; [apply subsequence_refl | apply subsequence_nil_l].
Qed.

(** X15: when the system message is sticky, [remove_messages(n)] that
    spares sticky messages never fails for [n >= 0], keeps every sticky
    message in its order and the system message at index 0, and only
    ever drops messages: what is left is selected in order from what was
    stored. *)
Theorem remove_non_sticky_keeps_sticky (remove_n_messages : Z)
    (self : AIConversation) (system_message : AIMessage)
    (others : list AIMessage) :
  messages self = system_message :: others ->
  is_sticky system_message = true ->
  0 <= remove_n_messages ->
  exists self',
    remove_messages remove_n_messages false self = (Ok tt, self') /\
    filter is_sticky (messages self') = filter is_sticky (messages self) /\
    hd_error (messages self') = Some system_message /\
    Subsequence (messages self') (messages self) /\
    max_memory_messages self' = max_memory_messages self.
Proof.
  intros Hmsgs Hsystem Hn. unfold remove_messages.
  replace (remove_n_messages <? 0) with false by (symmetry; apply Z.ltb_ge; lia).
  unfold bind at 1. unfold get at 1.
  destruct (0 <? Z.min remove_n_messages (len (messages self) - 1)).
  - unfold bind at 1. unfold bind at 1.
    destruct (remove_non_sticky_loop_keeps
                (Z.to_nat (len (messages self) - 1)) 0
                (Z.min (Z.min remove_n_messages (len (messages self) - 1))
                       (count_non_sticky_messages self)) self)
      as (mid & Hrun1 & Hf1 & Hh1 & Hs1 & HM1).
    { rewrite Hmsgs. unfold len. cbn [length]. lia. }
    rewrite Hrun1.
    rewrite Hmsgs in Hh1. cbn [hd_error] in Hh1.
    destruct (messages mid) as [| first rest] eqn:Hmid; [discriminate Hh1 |].
    injection Hh1 as ->.
    destruct (remove_tail_loop_keeps
                (Z.to_nat (Z.min (Z.min remove_n_messages (len (messages self) - 1))
                                 (count_non_sticky_messages self)))
                mid system_message rest Hmid Hsystem)
      as (final & Hrun2 & Hf2 & Hh2 & Hs2 & HM2).
    rewrite Hrun2. unfold recalculate_tokens, modify.
    eexists. split; [reflexivity |].
    destruct (recalculate_tokens_messages final) as [Hm HM].
    rewrite Hm, HM. rewrite Hmid in *.
    split; [congruence |]. split; [exact Hh2 |].
    split; [exact (subsequence_trans _ _ _ Hs2 Hs1) | congruence].
  - exists self. rewrite Hmsgs. repeat split. apply subsequence_refl.
Qed.

(** Witness of [remove_non_sticky_keeps_sticky]: on the prompt, "A",
    "B" the call with [n = 1] returns and keeps the sticky prompt. *)
Lemma remove_non_sticky_keeps_sticky_witness :
  exists self',
    remove_messages 1 false two_user_messages_conversation = (Ok tt, self') /\
    hd_error (messages self') =
      Some (sticky_system_message char_tokenizer AIC_DEFAULT_SYSTEM_PROMPT).
Proof.
  destruct (remove_non_sticky_keeps_sticky 1 two_user_messages_conversation
              (sticky_system_message char_tokenizer AIC_DEFAULT_SYSTEM_PROMPT)
              [user_text_message char_tokenizer "A";
               user_text_message char_tokenizer "B"])
    as (self' & Hrun & _ & Hhead & _).
  - vm_compute. reflexivity.
  - reflexivity.
  - lia.
  - exists self'. split; assumption.
Defined.

(** ** Index accessors and sticky setters *)

(** X16: [get_ith_message(i)] returns the message at position [i], or at
    [len + i] for a negative [i], exactly when [-len <= i < len]; outside
    it raises [ValueError] naming the index, never [IndexError]. *)
Theorem get_ith_message_bounds (i : Z) (self : AIConversation) :
  (- len (messages self) <= i < len (messages self) ->
   exists message,
     get_ith_message i self = Ok message /\
     nth_error (messages self)
       (Z.to_nat (if i <? 0 then i + len (messages self) else i)) = Some message) /\
  (i < - len (messages self) \/ len (messages self) <= i ->
   get_ith_message i self =
     Raise (ValueError ("Invalid message index: " ++ str_of_int i))).
Proof.
  unfold get_ith_message. split.
  - intros [Hlow Hhigh].
    replace (i <? - len (messages self)) with false
      by (symmetry; apply Z.ltb_ge; lia).
    replace (len (messages self) <=? i) with false
      by (symmetry; apply Z.leb_gt; lia).
    cbn [orb]. unfold py_index, len in *.
    destruct (i <? 0) eqn:Hneg.
    + apply Z.ltb_lt in Hneg.
      replace (i + Z.of_nat (length (messages self)) <? 0) with false
        by (symmetry; apply Z.ltb_ge; lia).
      replace (Z.of_nat (length (messages self))
               <=? i + Z.of_nat (length (messages self))) with false
        by (symmetry; apply Z.leb_gt; lia).
      cbn [orb].
      destruct (nth_error _ _) as [message |] eqn:Hnth; [now exists message |].
      apply nth_error_None in Hnth. lia.
    + rewrite Hneg.
      replace (Z.of_nat (length (messages self)) <=? i) with false
        by (symmetry; apply Z.leb_gt; lia).
      cbn [orb].
      destruct (nth_error _ _) as [message |] eqn:Hnth; [now exists message |].
      apply nth_error_None in Hnth. apply Z.ltb_ge in Hneg. lia.
  - intros Hout.
    destruct (i <? - len (messages self)) eqn:Hlow; [reflexivity |].
    apply Z.ltb_ge in Hlow.
    replace (len (messages self) <=? i) with true
      by (symmetry; apply Z.leb_le; lia).
    reflexivity.
Qed.

(** Witness of [get_ith_message_bounds]: index -1 of the prompt, "A",
    "B" is "B", index 3 is refused. *)
Lemma get_ith_message_bounds_witness :
  (exists message,
     get_ith_message (-1) two_user_messages_conversation = Ok message /\
     nth_error (messages two_user_messages_conversation) 2 = Some message) /\
  get_ith_message 3 two_user_messages_conversation
    = Raise (ValueError "Invalid message index: 3").
Proof.
  destruct (get_ith_message_bounds (-1) two_user_messages_conversation)
    as [Hin _].
  destruct (get_ith_message_bounds 3 two_user_messages_conversation)
    as [_ Hout].
  split.
  - apply Hin. vm_compute. split; [discriminate | reflexivity].
  - apply Hout. right. vm_compute. discriminate.
Defined.

Lemma py_set_sticky_at_length (l : list AIMessage) :
  forall n sticky, length (py_set_sticky_at l n sticky) = length l.
Proof.
  induction l as [| message l IH]; intros [| n] sticky; cbn; auto.
Qed.

Lemma py_set_sticky_at_nth (l : list AIMessage) :
  forall n sticky message,
    nth_error l n = Some message ->
    nth_error (py_set_sticky_at l n sticky) n = Some (set_sticky sticky message).
Proof.
  induction l as [| first l IH]; intros [| n] sticky message; cbn;
    try discriminate.
  - now intros [= ->].
  - apply IH.
Qed.

Lemma py_set_sticky_at_flags_only (l : list AIMessage) :
  forall n sticky flag,
    map (set_sticky flag) (py_set_sticky_at l n sticky) = map (set_sticky flag) l.
Proof.
  induction l as [| first l IH]; intros [| n] sticky flag; cbn; auto.
  now rewrite IH.
Qed.

Lemma py_set_sticky_at_no_marker (l : list AIMessage) :
  forall n sticky,
    no_topic_marker (py_set_sticky_at l n sticky) = no_topic_marker l.
Proof.
  unfold no_topic_marker.
  induction l as [| first l IH]; intros [| n] sticky; cbn [py_set_sticky_at forallb];
    auto.
  now rewrite IH.
Qed.

(** The run of [set_nth_message_stickiness], case by case. *)
Lemma set_nth_message_stickiness_run (nth : Z) (sticky : bool)
    (self : AIConversation) :
  exists self',
    set_nth_message_stickiness nth sticky self = (Ok tt, self') /\
    (1 <= nth < len (messages self) ->
     messages self' = py_set_sticky_at (messages self) (Z.to_nat nth) sticky) /\
    (nth < 1 \/ len (messages self) <= nth -> self' = self) /\
    hd_error (messages self') = hd_error (messages self) /\
    length (messages self') = length (messages self) /\
    (forall flag,
        map (set_sticky flag) (messages self') = map (set_sticky flag) (messages self)) /\
    same_counters self' self.
Proof.
  unfold set_nth_message_stickiness.
  destruct ((1 <=? nth) && (nth <? len (messages self)))%bool eqn:Hrange.
  - apply andb_true_iff in Hrange as [Hlow Hhigh].
    apply Z.leb_le in Hlow. apply Z.ltb_lt in Hhigh.
    unfold set_message_stickiness_at, py_position. unfold len in Hhigh.
    replace (nth <? 0) with false by (symmetry; apply Z.ltb_ge; lia).
    cbv iota.
    replace (nth <? 0) with false by (symmetry; apply Z.ltb_ge; lia).
    replace (Z.of_nat (length (messages self)) <=? nth) with false
      by (symmetry; apply Z.leb_gt; lia).
    cbn [orb].
    eexists. split; [reflexivity |]. cbn [messages set_messages].
    split; [reflexivity |].
    split; [unfold len; lia |].
    split.
    { destruct (Z.to_nat nth) as [| n] eqn:Hnat; [lia |].
      now destruct (messages self). }
    split; [apply py_set_sticky_at_length |].
    split; [intros flag; apply py_set_sticky_at_flags_only |].
    unfold same_counters. now repeat split.
  - exists self. split; [reflexivity |].
    split.
    { intros [Hlow Hhigh]. apply andb_false_iff in Hrange as [H | H].
      - apply Z.leb_gt in H. lia.
      - apply Z.ltb_ge in H. lia. }
    unfold same_counters. now repeat split.
Qed.

(** X17: [set_nth_message_stickiness] never raises and never touches
    index 0: for [1 <= nth < len] it sets the sticky flag of that one
    message, and for any other [nth] it does nothing; length, order,
    every other field and every counter stay as they were. *)
Theorem set_nth_message_stickiness_effect (nth : Z) (sticky : bool)
    (self : AIConversation) :
  exists self',
    set_nth_message_stickiness nth sticky self = (Ok tt, self') /\
    (1 <= nth < len (messages self) ->
     messages self' = py_set_sticky_at (messages self) (Z.to_nat nth) sticky) /\
    (nth < 1 \/ len (messages self) <= nth -> self' = self) /\
    hd_error (messages self') = hd_error (messages self) /\
    length (messages self') = length (messages self) /\
    (forall flag,
        map (set_sticky flag) (messages self') = map (set_sticky flag) (messages self)) /\
    same_counters self' self.
Proof.
  exact (set_nth_message_stickiness_run nth sticky self).
Qed.

(** X18: pinning works: in a conversation without topic marker, after
    [set_nth_message_stickiness(nth, True)] with [1 <= nth < len] the
    message at [nth] is part of the memory, however far behind the
    window it lies. *)
Theorem pinned_message_in_memory (nth : Z) (self : AIConversation)
    (message : AIMessage) :
  no_topic_marker (messages self) = true ->
  1 <= nth < len (messages self) ->
  nth_error (messages self) (Z.to_nat nth) = Some message ->
  exists self' window,
    set_nth_message_stickiness nth true self = (Ok tt, self') /\
    get_memory_messages self' = Ok window /\
    In (set_sticky true message) window.
Proof.
  intros Hmarker Hrange Hnth.
  destruct (set_nth_message_stickiness_run nth true self)
    as (self' & Hrun & Hset & _).
  specialize (Hset Hrange).
  destruct (sticky_message_in_memory self' (set_sticky true message))
    as (window & Hwindow & Hin).
  - rewrite Hset, py_set_sticky_at_no_marker. exact Hmarker.
  - rewrite Hset. eapply nth_error_In. apply py_set_sticky_at_nth. exact Hnth.
  - reflexivity.
  - exists self', window. now repeat split.
Qed.

(** Witness of [pinned_message_in_memory]: with a window of one message,
    pinning "A" in the prompt, "A", "B" keeps it in memory. *)
Lemma pinned_message_in_memory_witness :
  exists self' window,
    set_nth_message_stickiness 1 true two_user_messages_conversation
      = (Ok tt, self') /\
    get_memory_messages self' = Ok window /\
    In (set_sticky true (user_text_message char_tokenizer "A")) window.
Proof.
  apply (pinned_message_in_memory 1 two_user_messages_conversation).
  - vm_compute. reflexivity.
  - vm_compute. split; [discriminate | reflexivity].
  - vm_compute. reflexivity.
Defined.

(** Witness of [set_nth_message_stickiness_effect]: index 0 is out of
    reach, index 1 is set. *)
Lemma set_nth_message_stickiness_effect_witness :
  set_nth_message_stickiness 0 false two_user_messages_conversation
    = (Ok tt, two_user_messages_conversation) /\
  exists self',
    set_nth_message_stickiness 1 true two_user_messages_conversation
      = (Ok tt, self') /\
    map is_sticky (messages self') = [true; true; false].
Proof.
  split.
  - destruct (set_nth_message_stickiness_effect 0 false
                two_user_messages_conversation)
      as (self' & Hrun & _ & Hout & _).
    rewrite Hrun, Hout; [reflexivity | left; lia].
  - destruct (set_nth_message_stickiness_effect 1 true
                two_user_messages_conversation)
      as (self' & Hrun & Hin & _).
    exists self'. split; [exact Hrun |].
    rewrite Hin; [vm_compute; reflexivity |].
    vm_compute. split; [discriminate | reflexivity].
Defined.

(** ** Counters that follow the rescan *)

(** What a rescan computes for the counters that ignore the window. *)
Lemma recalculate_loop_totals (remaining : list AIMessage) :
  forall i self,
    total_tokens (recalculate_loop remaining i self)
      = total_tokens self + sum_counted_tokens remaining /\
    biggest_user_msg_tokens (recalculate_loop remaining i self)
      = biggest_of_role AIC_ROLE_USER remaining (biggest_user_msg_tokens self) /\
    biggest_assistant_msg_tokens (recalculate_loop remaining i self)
      = biggest_of_role AIC_ROLE_ASSISTANT remaining
          (biggest_assistant_msg_tokens self).
Proof.
  induction remaining as [| message rest IH]; intros i self.
  - cbn. repeat split. lia.
  - cbn [recalculate_loop sum_counted_tokens biggest_of_role].
    destruct (IH (i + 1) (recalculate_step (i + 1) message self))
      as (Htotal & Huser & Hassistant).
    rewrite Htotal, Huser, Hassistant. clear Htotal Huser Hassistant IH.
    unfold recalculate_step, counted_in_total, str_in. cbn [existsb].
    destruct (get_role message =? AIC_ROLE_USER)%string eqn:Hu.
    { apply String.eqb_eq in Hu. rewrite Hu.
      change (AIC_ROLE_USER =? AIC_ROLE_ASSISTANT)%string with false.
      change (AIC_ROLE_USER =? AIC_ROLE_USER)%string with true.
      cbn [orb].
      destruct (len (messages self) - max_memory_messages self <? i + 1);
        destruct self; cbn; repeat split; lia. }
    destruct (get_role message =? AIC_ROLE_ASSISTANT)%string eqn:Ha.
    { apply String.eqb_eq in Ha. rewrite Ha.
      change (AIC_ROLE_ASSISTANT =? AIC_ROLE_USER)%string with false.
      change (AIC_ROLE_ASSISTANT =? AIC_ROLE_ASSISTANT)%string with true.
      cbn [orb].
      destruct (len (messages self) - max_memory_messages self <? i + 1);
        destruct self; cbn; repeat split; lia. }
    cbn [orb].
    destruct ((get_role message =? AIC_ROLE_SYSTEM)%string
              || ((get_role message =? AIC_ROLE_DEVELOPER)%string || false))%bool;
      destruct self; cbn; repeat split; lia.
Qed.

Lemma recalculate_tokens_totals (self : AIConversation) :
  total_tokens (recalculate_tokens_pure self) = sum_counted_tokens (messages self) /\
  biggest_user_msg_tokens (recalculate_tokens_pure self)
    = biggest_of_role AIC_ROLE_USER (messages self) 0 /\
  biggest_assistant_msg_tokens (recalculate_tokens_pure self)
    = biggest_of_role AIC_ROLE_ASSISTANT (messages self) 0.
Proof.
  unfold recalculate_tokens_pure.
  destruct (recalculate_loop_totals (messages self) 0
              (mkConversation (messages self) (max_memory_messages self)
                 (system_message_tokens self) 0 0 0 0 0 0 0 0))
    as (Htotal & Huser & Hassistant).
  rewrite Htotal, Huser, Hassistant. cbn. repeat split.
Qed.

Lemma sum_counted_tokens_app (l1 l2 : list AIMessage) :
  sum_counted_tokens (l1 ++ l2) = sum_counted_tokens l1 + sum_counted_tokens l2.
Proof.
  induction l1 as [| message l1 IH]; cbn [app sum_counted_tokens]; lia.
Qed.

Lemma biggest_of_role_app (role : string) (l1 l2 : list AIMessage) :
  forall start,
    biggest_of_role role (l1 ++ l2) start
    = biggest_of_role role l2 (biggest_of_role role l1 start).
Proof.
  induction l1 as [| message l1 IH]; intros start; cbn [app biggest_of_role];
    [reflexivity | apply IH].
Qed.

Lemma appended_role_not_system (message : AIMessage) :
  is_appended_role message = true -> is_system_role message = false.
Proof.
  unfold is_appended_role, is_system_role. intros Hrole.
  apply appended_role_cases in Hrole as [-> | [-> | ->]]; reflexivity.
Qed.

Lemma last_system_tokens_appended (l : list AIMessage) :
  forallb is_appended_role l = true ->
  forall start, last_system_tokens l start = start.
Proof.
  induction l as [| message l IH]; intros Hroles start; [reflexivity |].
  cbn [forallb] in Hroles. apply andb_true_iff in Hroles as [Hrole Hroles].
  apply appended_role_not_system in Hrole. unfold is_system_role in Hrole.
  cbn [last_system_tokens]. rewrite Hrole.
  destruct (get_role message =? AIC_ROLE_USER)%string; [now apply IH |].
  destruct (get_role message =? AIC_ROLE_ASSISTANT)%string; now apply IH.
Qed.

Lemma biggest_of_role_skips_system (role : string) (message : AIMessage)
    (rest : list AIMessage) (start : Z) :
  is_system_role message = true ->
  role = AIC_ROLE_USER \/ role = AIC_ROLE_ASSISTANT ->
  biggest_of_role role (message :: rest) start = biggest_of_role role rest start.
Proof.
  unfold is_system_role. intros Hsystem Hrole.
  apply system_role_cases in Hsystem.
  cbn [biggest_of_role].
  destruct Hsystem as [-> | ->], Hrole as [-> | ->]; reflexivity.
Qed.

Section Totals.

Variable tiktoken_len : string -> string -> nat.
Variable read_image_b64 : string -> option string.

(** What a successful [add_message] with an appended role does to the
    list and to the counters that ignore the window. *)
Lemma add_message_appended_run (msg_role msg_text msg_type : string)
    (image_url : option string) (sticky : bool) (self self' : AIConversation) :
  str_in msg_role [AIC_ROLE_USER; AIC_ROLE_ASSISTANT; AIC_ROLE_INTERNAL] = true ->
  add_message tiktoken_len read_image_b64
    msg_role msg_text msg_type image_url sticky self = (Ok tt, self') ->
  exists new_msg,
    AIMessage_new tiktoken_len read_image_b64
      msg_role msg_text msg_type image_url sticky = Ok new_msg /\
    messages self' = (messages self ++ [new_msg])%list /\
    total_tokens self' =
      total_tokens self
      + (if (msg_role =? AIC_ROLE_INTERNAL)%string then 0
         else get_estimated_tokens new_msg) /\
    system_message_tokens self' = system_message_tokens self /\
    biggest_user_msg_tokens self' =
      (if (msg_role =? AIC_ROLE_USER)%string
       then (if biggest_user_msg_tokens self <? get_estimated_tokens new_msg
             then get_estimated_tokens new_msg else biggest_user_msg_tokens self)
       else biggest_user_msg_tokens self) /\
    biggest_assistant_msg_tokens self' =
      (if (msg_role =? AIC_ROLE_ASSISTANT)%string
       then (if biggest_assistant_msg_tokens self <? get_estimated_tokens new_msg
             then get_estimated_tokens new_msg
             else biggest_assistant_msg_tokens self)
       else biggest_assistant_msg_tokens self).
Proof.
  intros Hrole. apply appended_role_cases in Hrole.
  unfold add_message, bind, lift, get, modify, ret.
  destruct Hrole as [-> | [-> | ->]]; eval_string_tests;
    (destruct (AIMessage_new _ _ _ _ _ _ _) as [new_msg | e]; [| discriminate]).
  - destruct (max_memory_messages self + 2 <? len (messages self)).
    + destruct (py_index (messages self) _) as [evicted | e]; [| discriminate].
      intros [= <-]. exists new_msg. cbn. repeat split; lia.
    + intros [= <-]. exists new_msg. cbn. repeat split; lia.
  - destruct (max_memory_messages self + 2 <? len (messages self)).
    + destruct (py_index (messages self) _) as [evicted | e]; [| discriminate].
      intros [= <-]. exists new_msg. cbn. repeat split; lia.
    + intros [= <-]. exists new_msg. cbn. repeat split; lia.
  - rewrite andb_false_r. intros [= <-]. exists new_msg. cbn. repeat split; lia.
Qed.

(** What a successful [add_message] with role system does on a stored
    list that is not empty. *)
Lemma add_message_system_run (msg_text msg_type : string)
    (image_url : option string) (sticky : bool) (self self' : AIConversation)
    (old : AIMessage) (others : list AIMessage) :
  messages self = old :: others ->
  add_message tiktoken_len read_image_b64
    AIC_ROLE_SYSTEM msg_text msg_type image_url sticky self = (Ok tt, self') ->
  exists new_msg,
    AIMessage_new tiktoken_len read_image_b64
      AIC_ROLE_SYSTEM msg_text msg_type image_url sticky = Ok new_msg /\
    messages self' = new_msg :: others /\
    total_tokens self' =
      total_tokens self + get_estimated_tokens new_msg - get_estimated_tokens old /\
    system_message_tokens self' = get_estimated_tokens new_msg /\
    biggest_user_msg_tokens self' = biggest_user_msg_tokens self /\
    biggest_assistant_msg_tokens self' = biggest_assistant_msg_tokens self.
Proof.
  intros Hmsgs.
  unfold add_message, bind, lift, get, modify, ret. eval_string_tests.
  destruct (AIMessage_new _ _ _ _ _ _ _) as [new_msg | e]; [| discriminate].
  rewrite Hmsgs.
  replace (1 <=? len (old :: others)) with true
    by (symmetry; apply Z.leb_le; unfold len; cbn [length]; lia).
  rewrite py_index_head.
  intros [= <-]. exists new_msg. cbn. rewrite Hmsgs. cbn.
  repeat split; lia.
Qed.

(** X19: the constructor leaves a conversation whose total, system and
    largest-message counters agree with a rescan, and every successful
    [add_message] with role user, assistant, system or internal keeps
    them so: along a history of such calls [total_tokens],
    [system_message_tokens] and the two largest-message counters are
    exactly what [recalculate_tokens] would compute. *)
Theorem totals_follow_rescan (system_message : option string) (max_memory : Z)
    (msg_role msg_text msg_type : string) (image_url : option string)
    (sticky : bool) (self self' : AIConversation) :
  (exists fresh,
      AIConversation_init tiktoken_len read_image_b64 system_message max_memory
        = Ok fresh /\
      system_first fresh /\ totals_agree_with_rescan fresh) /\
  (system_first self ->
   totals_agree_with_rescan self ->
   str_in msg_role
     [AIC_ROLE_USER; AIC_ROLE_ASSISTANT; AIC_ROLE_SYSTEM; AIC_ROLE_INTERNAL] = true ->
   add_message tiktoken_len read_image_b64
     msg_role msg_text msg_type image_url sticky self = (Ok tt, self') ->
   system_first self' /\ totals_agree_with_rescan self').
Proof.
  split.
  - destruct (AIConversation_init_total tiktoken_len read_image_b64
                system_message max_memory) as (text & _ & Hinit).
    eexists. split; [exact Hinit |]. split.
    + eexists. exists []. now repeat split.
    + unfold totals_agree_with_rescan.
      rewrite recalculate_tokens_system.
      destruct (recalculate_tokens_totals
                  (mkConversation
                     [sticky_system_message tiktoken_len text] max_memory
                     (num_tokens_from_string tiktoken_len text) 0 0
                     (num_tokens_from_string tiktoken_len text) 0 0 0 0
                     (num_tokens_from_string tiktoken_len text)))
        as (-> & -> & ->).
      cbn. repeat split; lia.
  - intros (old & others & Hmsgs & Hold & Hothers) (Htotal & Hsystem & Hbu & Hba)
           Hrole Hrun.
    rewrite recalculate_tokens_system in Hsystem.
    destruct (recalculate_tokens_totals self) as (Rt & Ru & Ra).
    rewrite Rt in Htotal. rewrite Ru in Hbu. rewrite Ra in Hba.
    rewrite Hmsgs in *.
    cbn [last_system_tokens sum_counted_tokens] in Hsystem, Htotal.
    assert (Hcounted : counted_in_total old = true).
    { unfold is_system_role in Hold. apply system_role_cases in Hold.
      unfold counted_in_total. destruct Hold as [-> | ->]; reflexivity. }
    rewrite Hcounted in Htotal.
    rewrite (biggest_of_role_skips_system _ _ _ _ Hold (or_introl eq_refl)) in Hbu.
    rewrite (biggest_of_role_skips_system _ _ _ _ Hold (or_intror eq_refl)) in Hba.
    unfold totals_agree_with_rescan.
    rewrite recalculate_tokens_system.
    destruct (recalculate_tokens_totals self') as (-> & -> & ->).
    destruct (msg_role =? AIC_ROLE_SYSTEM)%string eqn:Hsys.
    + apply String.eqb_eq in Hsys. subst msg_role.
      destruct (add_message_system_run _ _ _ _ _ _ _ _ Hmsgs Hrun)
        as (new_msg & Hnew & Hmsgs' & Ht & Hs & Hu & Ha).
      apply AIMessage_init_inv in Hnew as (Hnewrole & _).
      assert (Hnewsys : is_system_role new_msg = true)
        by (unfold is_system_role; now rewrite Hnewrole).
      split.
      { exists new_msg, others. now repeat split. }
      rewrite Hmsgs'.
      rewrite (biggest_of_role_skips_system _ _ _ _ Hnewsys (or_introl eq_refl)).
      rewrite (biggest_of_role_skips_system _ _ _ _ Hnewsys (or_intror eq_refl)).
      cbn [last_system_tokens sum_counted_tokens].
      unfold counted_in_total. rewrite Hnewrole.
      change (AIC_ROLE_SYSTEM =? AIC_ROLE_USER)%string with false.
      change (AIC_ROLE_SYSTEM =? AIC_ROLE_ASSISTANT)%string with false.
      change (str_in AIC_ROLE_SYSTEM [AIC_ROLE_SYSTEM; AIC_ROLE_DEVELOPER]) with true.
      change (str_in AIC_ROLE_SYSTEM
                [AIC_ROLE_USER; AIC_ROLE_ASSISTANT; AIC_ROLE_SYSTEM;
                 AIC_ROLE_DEVELOPER]) with true.
      cbv iota. rewrite (last_system_tokens_appended _ Hothers).
      repeat split; lia.
    + assert (Happended : str_in msg_role
                [AIC_ROLE_USER; AIC_ROLE_ASSISTANT; AIC_ROLE_INTERNAL] = true).
      { unfold str_in in *. cbn [existsb] in *. rewrite Hsys in Hrole.
        cbn [orb] in Hrole. exact Hrole. }
      destruct (add_message_appended_run _ _ _ _ _ _ _ Happended Hrun)
        as (new_msg & Hnew & Hmsgs' & Ht & Hs & Hu & Ha).
      apply AIMessage_init_inv in Hnew as (Hnewrole & _).
      assert (Hnewappended : is_appended_role new_msg = true)
        by (unfold is_appended_role; now rewrite Hnewrole).
      rewrite Hmsgs in Hmsgs'. cbn [app] in Hmsgs'.
      split.
      { exists old, (others ++ [new_msg])%list. repeat split; try assumption.
        rewrite forallb_app, Hothers. cbn [forallb]. now rewrite Hnewappended. }
      rewrite Hmsgs'.
      rewrite (biggest_of_role_skips_system _ _ _ _ Hold (or_introl eq_refl)).
      rewrite (biggest_of_role_skips_system _ _ _ _ Hold (or_intror eq_refl)).
      rewrite !biggest_of_role_app. cbn [biggest_of_role].
      cbn [last_system_tokens sum_counted_tokens].
      rewrite Hcounted, sum_counted_tokens_app. cbn [sum_counted_tokens].
      assert (Hlast : forall s, last_system_tokens (others ++ [new_msg]) s = s).
      { intros s. apply last_system_tokens_appended.
        rewrite forallb_app, Hothers. cbn [forallb]. now rewrite Hnewappended. }
      unfold is_system_role in Hold. rewrite Hold.
      assert (Holdu : (get_role old =? AIC_ROLE_USER)%string = false)
        by (apply system_role_cases in Hold; destruct Hold as [-> | ->]; reflexivity).
      assert (Holda : (get_role old =? AIC_ROLE_ASSISTANT)%string = false)
        by (apply system_role_cases in Hold; destruct Hold as [-> | ->]; reflexivity).
      rewrite Holdu, Holda, Hlast.
      rewrite Holdu, Holda, Hold, (last_system_tokens_appended _ Hothers) in Hsystem.
      unfold counted_in_total. rewrite Hnewrole.
      apply appended_role_cases in Happended.
      revert Ht Hu Ha.
      destruct Happended as [-> | [-> | ->]]; eval_string_tests;
        cbv iota; intros Ht Hu Ha; rewrite <- ?Hbu, <- ?Hba;
        repeat split; lia.
Qed.

End Totals.

(** Witness of [totals_follow_rescan]: after user message "A" on the
    fresh conversation the counters agree with the rescan. *)
Lemma totals_follow_rescan_witness :
  totals_agree_with_rescan
    (final (add_message char_tokenizer no_local_files
              AIC_ROLE_USER "A" AIC_TYPE_TEXT None false fresh_conversation)).
Proof.
  refine (proj2 (proj2 (totals_follow_rescan char_tokenizer no_local_files
                          None 2 AIC_ROLE_USER "A" AIC_TYPE_TEXT None false
                          fresh_conversation _) _ _ _ _)).
  - exists (sticky_system_message char_tokenizer AIC_DEFAULT_SYSTEM_PROMPT), [].
    repeat split.
  - unfold totals_agree_with_rescan. vm_compute. repeat split.
  - reflexivity.
  - vm_compute. reflexivity.
Defined.

(** ** Restart and the window size *)

(** X20: [restart()] keeps the message at index 0 and nothing else, and
    the memory is then exactly that message, provided it is sticky or
    the window holds at least one message. *)
Theorem memory_after_restart (self : AIConversation)
    (system_message : AIMessage) (others : list AIMessage) :
  messages self = system_message :: others ->
  is_topic_marker system_message = false ->
  is_sticky system_message = true \/ 0 < max_memory_messages self ->
  exists self',
    restart self = (Ok tt, self') /\
    messages self' = [system_message] /\
    max_memory_messages self' = max_memory_messages self /\
    get_memory_messages self' = Ok [system_message].
Proof.
  intros Hmsgs Hmarker Hkept.
  unfold restart, bind, get, lift, modify. rewrite Hmsgs, py_index_head.
  eexists. split; [reflexivity |]. split; [reflexivity |]. split; [reflexivity |].
  rewrite get_memory_messages_plain.
  - cbn [messages max_memory_messages set_messages length].
    unfold trailing. cbn [length].
    destruct Hkept as [Hsticky | Hwindow].
    + destruct (Z.to_nat (max_memory_messages self)) as [| n].
      * cbn. now rewrite Hsticky.
      * reflexivity.
    + destruct (Z.to_nat (max_memory_messages self)) as [| n] eqn:Hn; [lia |].
      reflexivity.
  - cbn [messages set_messages no_topic_marker forallb]. now rewrite Hmarker.
Qed.

(** Witness of [memory_after_restart] on the prompt, "A", "B". *)
Lemma memory_after_restart_witness :
  exists self',
    restart two_user_messages_conversation = (Ok tt, self') /\
    get_memory_messages self' =
      Ok [sticky_system_message char_tokenizer AIC_DEFAULT_SYSTEM_PROMPT].
Proof.
  destruct (memory_after_restart two_user_messages_conversation
              (sticky_system_message char_tokenizer AIC_DEFAULT_SYSTEM_PROMPT)
              [user_text_message char_tokenizer "A";
               user_text_message char_tokenizer "B"])
    as (self' & Hrun & _ & _ & Hmemory).
  - vm_compute. reflexivity.
  - reflexivity.
  - left. reflexivity.
  - exists self'. split; assumption.
Defined.

Section WindowSize.

Variable tiktoken_len : string -> string -> nat.
Variable read_image_b64 : string -> option string.

(** X21: the constructor takes any window size, where
    [set_max_memory_messages] refuses one below 1; with a window below
    -1 the first user message added to the fresh conversation raises
    [IndexError] and the conversation stays as it was. *)
Theorem negative_window_breaks_add_message (system_message : option string)
    (max_memory : Z) (msg_text : string) :
  max_memory < -1 ->
  msg_text <> "" ->
  exists fresh,
    AIConversation_init tiktoken_len read_image_b64 system_message max_memory
      = Ok fresh /\
    max_memory_messages fresh = max_memory /\
    set_max_memory_messages max_memory fresh
      = (Raise (ValueError "Max memory must be > 0"), fresh) /\
    add_message tiktoken_len read_image_b64
      AIC_ROLE_USER msg_text AIC_TYPE_TEXT None false fresh
      = (Raise (IndexError "list index out of range"), fresh).
Proof.
  intros Hwindow Htext.
  destruct (AIConversation_init_total tiktoken_len read_image_b64
              system_message max_memory) as (text & _ & Hinit).
  eexists. split; [exact Hinit |]. split; [reflexivity |]. split.
  - unfold set_max_memory_messages.
    replace (max_memory <=? 0) with true by (symmetry; apply Z.leb_le; lia).
    reflexivity.
  - unfold add_message, bind, lift, get, modify, ret. eval_string_tests.
    assert (Hnew : AIMessage_new tiktoken_len read_image_b64
                     AIC_ROLE_USER msg_text AIC_TYPE_TEXT None false
                   = Ok (user_text_message tiktoken_len msg_text)).
    { unfold AIMessage_new, AIMessage_init. eval_string_tests.
      rewrite (eqb_empty_false _ Htext). reflexivity. }
    rewrite Hnew. cbn [messages max_memory_messages].
    change (len [sticky_system_message tiktoken_len text]) with 1.
    replace (max_memory + 2 <? 1) with true by (symmetry; apply Z.ltb_lt; lia).
    unfold py_index. cbn [length].
    replace (- max_memory - 1 <? 0) with false by (symmetry; apply Z.ltb_ge; lia).
    cbv iota.
    replace (- max_memory - 1 <? 0) with false by (symmetry; apply Z.ltb_ge; lia).
    replace (Z.of_nat 1 <=? - max_memory - 1) with true
      by (symmetry; apply Z.leb_le; lia).
    reflexivity.
Qed.

End WindowSize.

(** Witness of [negative_window_breaks_add_message] with a window of -2. *)
Lemma negative_window_breaks_add_message_witness :
  exists fresh,
    AIConversation_init char_tokenizer no_local_files None (-2) = Ok fresh /\
    add_message char_tokenizer no_local_files
      AIC_ROLE_USER "A" AIC_TYPE_TEXT None false fresh
      = (Raise (IndexError "list index out of range"), fresh).
Proof.
  destruct (negative_window_breaks_add_message char_tokenizer no_local_files
              None (-2) "A") as (fresh & Hinit & _ & _ & Hadd).
  - lia.
  - discriminate.
  - exists fresh. split; assumption.
Defined.

(** ** Closed instances of the record and loading properties *)

(** Witness of [content_record_round_trip] on the content of the image
    message "look". *)
Lemma content_record_round_trip_witness :
  AIMessageContent_from_dict no_local_files
    (AIMessageContent_to_dict (msg_content look_image_message))
  = Ok (msg_content look_image_message).
Proof.
  apply (content_record_round_trip no_local_files
           AIC_TYPE_IMAGE_URL (Some "http://x/y.png") "look").
  vm_compute. reflexivity.
Defined.

(** Witness of [constructed_message_rebuilds] on the image message
    "look". *)
Lemma constructed_message_rebuilds_witness :
  rebuilds char_tokenizer no_local_files look_image_message.
Proof.
  apply (constructed_message_rebuilds char_tokenizer no_local_files
           AIC_ROLE_USER "look" AIC_TYPE_IMAGE_URL (Some "http://x/y.png") false).
  vm_compute. reflexivity.
Defined.

(** Witness of [payload_shape]: the payload of the image message "look"
    is its image part followed by its text part. *)
Lemma payload_shape_witness :
  payload_content (get_message_payload look_image_message)
  = [ImagePart "http://x/y.png"; TextPart AIC_TYPE_TEXT "look"].
Proof.
  assert (Hinit : AIMessage_init char_tokenizer no_local_files
                    AIC_ROLE_USER "look" AIC_TYPE_IMAGE_URL
                    (Some "http://x/y.png") false = Ok look_image_message)
    by (vm_compute; reflexivity).
  destruct (payload_shape char_tokenizer no_local_files _ _ _ _ _ _ Hinit)
    as (_ & Himage & _).
  destruct (Himage eq_refl) as (url & shown & Hurl & Hcontent & Hshown).
  rewrite Hcontent. injection Hurl as <-.
  rewrite (Hshown eq_refl). reflexivity.
Defined.

(** Witness of [add_message_appends]: user message "A" on the fresh
    conversation. *)
Lemma add_message_appends_witness :
  exists self',
    add_message char_tokenizer no_local_files
      AIC_ROLE_USER "A" AIC_TYPE_TEXT None false fresh_conversation
      = (Ok tt, self') /\
    messages self' =
      [sticky_system_message char_tokenizer AIC_DEFAULT_SYSTEM_PROMPT;
       user_text_message char_tokenizer "A"].
Proof.
  destruct (add_message_appends char_tokenizer no_local_files
              AIC_ROLE_USER "A" AIC_TYPE_TEXT None false fresh_conversation
              (user_text_message char_tokenizer "A"))
    as (self' & Hrun & Hmsgs & _).
  - reflexivity.
  - vm_compute. reflexivity.
  - vm_compute. discriminate.
  - exists self'. split; [exact Hrun |]. rewrite Hmsgs. reflexivity.
Defined.

(** Witness of [load_skips_refused_record]: a line with the unknown role
    "robot" between two good lines changes nothing. *)
Lemma load_skips_refused_record_witness :
  load_conversation char_tokenizer no_local_files
    [mkDict AIC_ROLE_SYSTEM AIC_TYPE_TEXT "S" None true;
     mkDict "robot" AIC_TYPE_TEXT "hi" None false;
     mkDict AIC_ROLE_USER AIC_TYPE_TEXT "A" None false]
    fresh_conversation
  = load_conversation char_tokenizer no_local_files
      [mkDict AIC_ROLE_SYSTEM AIC_TYPE_TEXT "S" None true;
       mkDict AIC_ROLE_USER AIC_TYPE_TEXT "A" None false]
      fresh_conversation.
Proof.
  apply (load_skips_refused_record char_tokenizer no_local_files
           [mkDict AIC_ROLE_SYSTEM AIC_TYPE_TEXT "S" None true]
           [mkDict AIC_ROLE_USER AIC_TYPE_TEXT "A" None false]
           (mkDict "robot" AIC_TYPE_TEXT "hi" None false)
           fresh_conversation).
  reflexivity.
Defined.
